(** * Swipe leaderboard backend (server.js): a shallow embedding

    The Express handlers of [server.js] are embedded as pure functions that
    pass the Player collection explicitly.  A handler takes what the request
    carries, the reading of the clock ([new Date()]) and the collection, and
    returns the HTTP response together with the collection it leaves behind.

    Conventions of the embedding:
    - a JavaScript string is a [string]; one character stands for one UTF-16
      code unit below 256;
    - a JavaScript number received in a JSON body is a [jsnum]: a finite
      double is given by its exact rational value, and an operation on
      doubles is the exact operation followed by [round64];
    - [gamesPlayed] is the integer value of a stored double ([Z]), and adding
      1 to it rounds as a double does ([to_double]); the timestamps are
      integers;
    - the collection is the list of its documents in natural (insertion)
      order; a sort is stable, so documents that the sort keys of a query do
      not distinguish stay in the order in which the store yields them. *)

From Stdlib Require Import List String Ascii ZArith QArith Qround Bool Lia.
From Stdlib Require Import Permutation Sorted.
Import ListNotations.

Local Open Scope Z_scope.

(* ===================================================================== *)
(** ** JavaScript values                                                *)
(* ===================================================================== *)

Module JS.

(** A JavaScript number. *)
Inductive jsnum : Type :=
| Fin (q : Q)
| PosInf
| NegInf
| NaN.

(** A value of a parsed JSON body; [JUndefined] is a missing property and
    [JObject] stands for any object or array. *)
Inductive jsval : Type :=
| JUndefined
| JNull
| JBool (b : bool)
| JNum (n : jsnum)
| JStr (s : string)
| JObject.

(** [x < y] on rationals, as a boolean. *)
Definition Qlt_bool (x y : Q) : bool := negb (Qle_bool y x).

(** [a < b] on numbers: every comparison with [NaN] is false. *)
Definition num_lt (a b : jsnum) : bool :=
  match a, b with
  | Fin x, Fin y => Qlt_bool x y
  | Fin _, PosInf => true
  | NegInf, Fin _ => true
  | NegInf, PosInf => true
  | _, _ => false
  end.

(** ToBoolean. *)
Definition truthy (v : jsval) : bool :=
  match v with
  | JUndefined | JNull => false
  | JBool b => b
  | JNum (Fin q) => negb (Qeq_bool q 0)
  | JNum NaN => false
  | JNum _ => true
  | JStr s => negb (s =? "")%string
  | JObject => true
  end.

(** White space of [String.prototype.trim] and of [parseInt], among the code
    units below 256: TAB, LF, VT, FF, CR, SP and NBSP. *)
Definition is_space (c : ascii) : bool :=
  let n := N_of_ascii c in
  ((9 <=? n) && (n <=? 13) || (n =? 32) || (n =? 160))%N.

Fixpoint trimStart (s : string) : string :=
  match s with
  | EmptyString => EmptyString
  | String c t => if is_space c then trimStart t else s
  end.

Fixpoint rev_append (s acc : string) : string :=
  match s with
  | EmptyString => acc
  | String c t => rev_append t (String c acc)
  end.

Definition reverse (s : string) : string := rev_append s EmptyString.

Definition trimEnd (s : string) : string := reverse (trimStart (reverse s)).

(** [s.trim()]. *)
Definition trim (s : string) : string := trimEnd (trimStart s).

(** The value of a digit in radix up to 36, if the character is one. *)
Definition digit_val (c : ascii) : option Z :=
  let n := Z.of_N (N_of_ascii c) in
  if (48 <=? n) && (n <=? 57) then Some (n - 48)
  else if (97 <=? n) && (n <=? 122) then Some (n - 87)
  else if (65 <=? n) && (n <=? 90) then Some (n - 55)
  else None.

(** The longest prefix of radix-[R] digits of [s], read as a number; [acc]
    is [None] until a digit has been read. *)
Fixpoint digits (R : Z) (s : string) (acc : option Z) : option Z :=
  match s with
  | EmptyString => acc
  | String c t =>
      match digit_val c with
      | Some d =>
          if d <? R
          then digits R t (Some (match acc with Some a => a * R + d | None => d end))
          else acc
      | None => acc
      end
  end.

(** [parseInt(s)] with no radix argument; [None] is [NaN].  Leading white
    space is skipped, a sign is read, a [0x] or [0X] prefix selects radix 16,
    and the digits stop at the first character that is not one. *)
Definition parseInt (s : string) : option Z :=
  let s1 := trimStart s in
  let '(sign, s2) :=
    match s1 with
    | String "-" t => (-1, t)
    | String "+" t => (1, t)
    | _ => (1, s1)
    end in
  let '(R, s3) :=
    match s2 with
    | String "0" (String "x" t) => (16, t)
    | String "0" (String "X" t) => (16, t)
    | _ => (10, s2)
    end in
  option_map (Z.mul sign) (digits R s3 None).

(** [n || d] for a number [n] that is an integer or [NaN]: [d] replaces the
    falsy values [NaN] and [0]. *)
Definition num_or (n : option Z) (d : Z) : Z :=
  match n with
  | Some v => if v =? 0 then d else v
  | None => d
  end.

(** [a / b] rounded to the nearest integer, a tie going to the even one
    ([0 <= a], [0 < b]). *)
Definition round_half_even (a b : Z) : Z :=
  let m := a / b in
  let r := a mod b in
  if 2 * r <? b then m
  else if b <? 2 * r then m + 1
  else if Z.even m then m else m + 1.

(** The double nearest to the integer [x] (ties to even): what an integer
    result is once stored in a number.  Every integer up to 2^53 in absolute
    value is a double; beyond, the doubles are [2^(e - 52)] apart, [e] the
    binary logarithm.  (The sum of a finite double and 1 is finite, so no
    overflow arises where this is used.) *)
Definition to_double (x : Z) : Z :=
  let a := Z.abs x in
  if a <=? 2 ^ 53 then x
  else
    let u := 2 ^ (Z.log2 a - 52) in
    Z.sgn x * (round_half_even a u * u).

(** The fraction [n / d] divided by [2^k]. *)
Definition scale2 (n d k : Z) : Z * Z :=
  if 0 <=? k then (n, d * 2 ^ k) else (n * 2 ^ (- k), d).

(** The double nearest to the rational [q] (IEEE 754 binary64, round to
    nearest, ties to even, with subnormals and overflow to infinity). *)
Definition round64 (q : Q) : jsnum :=
  let n := Z.abs (Qnum q) in
  let d := Zpos (Qden q) in
  if n =? 0 then Fin 0
  else
    let e0 := Z.log2 n - Z.log2 d in
    let '(n0, d0) := scale2 n d e0 in
    let e := if n0 <? d0 then e0 - 1 else e0 in
    let u := Z.max (e - 52) (-1074) in
    let '(n1, d1) := scale2 n d u in
    let m := round_half_even n1 d1 in
    let sign := Z.sgn (Qnum q) in
    if 0 <=? u then
      if 2 ^ 1024 <=? m * 2 ^ u
      then (if sign <? 0 then NegInf else PosInf)
      else Fin (inject_Z (sign * m * 2 ^ u))
    else Fin (Qred (Qmake (sign * m) (Z.to_pos (2 ^ (- u))))).

(** [x * y], [x / y] for a number [x] and a positive finite [y], and
    [Math.round]: the exact result, rounded to a double. *)
Definition num_mul (x : jsnum) (y : Q) : jsnum :=
  match x with
  | Fin q => round64 (q * y)
  | other => other
  end.

Definition num_div (x : jsnum) (y : Q) : jsnum :=
  match x with
  | Fin q => round64 (q / y)
  | other => other
  end.

(** [Math.round(x)]: the integer nearest to [x], a tie going up. *)
Definition Math_round (x : jsnum) : jsnum :=
  match x with
  | Fin q => round64 (inject_Z (Qfloor (q + (1 # 2))))
  | other => other
  end.

End JS.
Import JS.

(* ===================================================================== *)
(** ** The Player collection                                            *)
(* ===================================================================== *)

(** A document of the Player model ([PlayerSchema]).  [createdAt] is the
    stamp that [timestamps: true] sets at creation; [updatedAt], which no
    handler reads, is left out. *)
Record Player : Type := {
  username : string;
  level : Q;
  profilePicture : option string;
  gamesPlayed : Z;
  lastUpdated : Z;
  createdAt : Z
}.

(** The collection: its documents in natural order. *)
Definition store : Type := list Player.

(** The [profilePicture] of a request body, which is any JSON value, as the
    handler and the schema see it: it is not there ([null] or [undefined]);
    or it is a value that the String type of the schema casts to [cast] (a
    string is cast to itself, a number or a boolean to its [toString()]) and
    that is truthy or not ([""], [0] and [false] are not); or it is a value
    that does not cast to a string (an object, an array), which is truthy. *)
Inductive picture : Type :=
| NoPicture
| Castable (is_truthy : bool) (cast : string)
| Uncastable.

(** A picture given as a string. *)
Definition text (p : string) : picture := Castable (negb (p =? "")%string) p.

(** [profilePicture || existing], cast by the schema when the update is
    run; [None] is the cast error. *)
Definition picture_or (pic : picture) (existing : option string) : option (option string) :=
  match pic with
  | NoPicture | Castable false _ => Some existing
  | Castable true cast => Some (Some cast)
  | Uncastable => None
  end.

(** [profilePicture] cast by the schema when a document is created
    ([undefined] takes the default [null]); [None] is the cast error. *)
Definition picture_cast (pic : picture) : option (option string) :=
  match pic with
  | NoPicture => Some None
  | Castable _ cast => Some (Some cast)
  | Uncastable => None
  end.

(** The two readings of the clock that a request can take: [new Date()] in
    the handler ([date]), and the later reading by which [timestamps: true]
    stamps [createdAt] when a document is saved ([timestamp]). *)
Record clock : Type := { date : Z; timestamp : Z }.

(** Both readings at the same instant; an integer stands for this clock
    where a clock is expected. *)
Definition tick (t : Z) : clock := {| date := t; timestamp := t |}.
Coercion tick : Z >-> clock.

Module Query.

(** The document of the collection stored under the user name [k]. *)
Definition lookup (k : string) (s : store) : option Player :=
  find (fun p => (username p =? k)%string) s.

(** [Player.findOne({ username: q })]: the filter is cast by the schema, whose
    [trim: true] setter trims the user name. *)
Definition findOne (q : string) (s : store) : option Player :=
  lookup (trim q) s.

(** The first document stored under [k] is replaced by its image under [f]. *)
Fixpoint modify (k : string) (f : Player -> Player) (s : store) : store :=
  match s with
  | [] => []
  | p :: t => if (username p =? k)%string then f p :: t else p :: modify k f t
  end.

(** [Player.updateOne({ username: q }, update)]: the first match is changed
    by [$set]ting the fields of the update; update validators do not run. *)
Definition updateOne (q : string) (f : Player -> Player) (s : store) : store :=
  modify (trim q) f s.

(** The validators of the schema, run when a document is saved: [username] is
    required (and not empty) and at most 50 long, [level] is between 1 and
    1000. *)
Definition validates (p : Player) : bool :=
  negb (username p =? "")%string
  && (String.length (username p) <=? 50)%nat
  && Qle_bool 1 (level p) && Qle_bool (level p) 1000.

(** [Player.create(doc)]: the picture is cast and the setter of the schema
    trims the user name, the document is validated, [createdAt] is stamped,
    the unique index on [username] refuses a second document under the same
    name, and the document is added at the end.  [None] is a rejected save
    (the promise rejects). *)
Definition create (username0 : string) (level0 : Q) (profilePicture0 : picture)
    (gamesPlayed0 lastUpdated0 createdAt0 : Z) (s : store) : option store :=
  match picture_cast profilePicture0 with
  | None => None
  | Some picture0 =>
      let doc := {| username := trim username0; level := level0;
                    profilePicture := picture0; gamesPlayed := gamesPlayed0;
                    lastUpdated := lastUpdated0; createdAt := createdAt0 |} in
      if validates doc
      then match lookup (username doc) s with
           | Some _ => None
           | None => Some (s ++ [doc])
           end
      else None
  end.

(** [Player.countDocuments(filter)]. *)
Definition countDocuments (filter : Player -> bool) (s : store) : Z :=
  Z.of_nat (List.length (List.filter filter s)).

(** Stable insertion of [x] in a list sorted by [before]: [x] goes in front of
    the first document that does not come strictly before it. *)
Fixpoint insert (before : Player -> Player -> bool) (x : Player) (l : list Player)
    : list Player :=
  match l with
  | [] => [x]
  | y :: t => if before y x then y :: insert before x t else x :: y :: t
  end.

(** [.sort(keys)], where [before a b] says that the keys put [a] strictly in
    front of [b]. *)
Fixpoint sort (before : Player -> Player -> bool) (l : list Player) : list Player :=
  match l with
  | [] => []
  | x :: t => insert before x (sort before t)
  end.

(** [{ level: -1, lastUpdated: 1 }]. *)
Definition by_level_desc_lastUpdated_asc (a b : Player) : bool :=
  Qlt_bool (level b) (level a)
  || (Qeq_bool (level a) (level b) && (lastUpdated a <? lastUpdated b)).

(** [{ level: -1 }]. *)
Definition by_level_desc (a b : Player) : bool :=
  Qlt_bool (level b) (level a).

(** [.limit(n)]: the first [n] documents; [0] is no limit, and a negative
    limit asks for [-n] documents (in a single batch). *)
Definition limit (n : Z) (l : list Player) : list Player :=
  if n =? 0 then l else firstn (Z.to_nat (Z.abs n)) l.

(** The documents as the index [{ level: -1, lastUpdated: 1 }] of the schema
    lists them: by level descending, then by [lastUpdated] ascending, then in
    natural order. *)
Definition index_order (s : store) : list Player :=
  sort by_level_desc_lastUpdated_asc s.

(** [$group: { _id: null, avgLevel: { $avg: '$level' } }]: no group on an
    empty collection; otherwise the sum of the levels (the store adds them
    with a compensated sum, taken here as the exact sum rounded once) divided
    by their number. *)
Definition aggregate_avgLevel (s : store) : list jsnum :=
  match s with
  | [] => []
  | _ => [num_div (round64 (fold_right (fun p acc => level p + acc)%Q 0%Q s))
                  (inject_Z (Z.of_nat (List.length s)))]
  end.

End Query.
Import Query.

(* ===================================================================== *)
(** ** Responses                                                        *)
(* ===================================================================== *)

(** What a handler sends: [res.json(body)] (status 200), or
    [res.status(400).json({ success: false, error })], or the same with
    status 500 from the [catch] block. *)
Inductive response (A : Type) : Type :=
| Ok (body : A)
| BadRequest (error : string)
| ServerError (error : string).
Arguments Ok {A} body.
Arguments BadRequest {A} error.
Arguments ServerError {A} error.

Definition status {A : Type} (r : response A) : Z :=
  match r with
  | Ok _ => 200
  | BadRequest _ => 400
  | ServerError _ => 500
  end.

(** An entry of the leaderboard. *)
Record entry : Type := {
  e_rank : Z;
  e_username : string;
  e_level : Q;
  e_gamesPlayed : Z;
  e_lastUpdated : Z;
  e_avatar : string
}.

Record leaderboard_body : Type := {
  lb_success : bool;
  lb_data : list entry;
  lb_total : Z;
  lb_timestamp : Z
}.

(** The [data] object of the three successful answers to a score update, in
    the order of the source: record update, no record, new player. *)
Inductive update_data : Type :=
| RecordUpdate (username0 : string) (level0 previousBest : Q) (newRank : Z)
    (isInTop20 : bool) (gamesPlayed0 : Z)
| NoRecord (username0 : string) (currentBest submittedLevel : Q) (currentRank : Z)
    (isInTop20 : bool) (gamesPlayed0 : Z)
| NewPlayer (username0 : string) (level0 : Q) (rank : Z)
    (isInTop20 : bool) (gamesPlayed0 : Z).

Record update_body : Type := {
  u_success : bool;
  u_newRecord : bool;
  u_message : string;
  u_data : update_data
}.

(** The rank field of an answer, whatever its name ([newRank], [currentRank]
    or [rank]). *)
Definition data_rank (d : update_data) : Z :=
  match d with
  | RecordUpdate _ _ _ r _ _ | NoRecord _ _ _ r _ _ | NewPlayer _ _ r _ _ => r
  end.

Definition data_isInTop20 (d : update_data) : bool :=
  match d with
  | RecordUpdate _ _ _ _ b _ | NoRecord _ _ _ _ b _ | NewPlayer _ _ _ b _ => b
  end.

Definition data_gamesPlayed (d : update_data) : Z :=
  match d with
  | RecordUpdate _ _ _ _ _ g | NoRecord _ _ _ _ _ g | NewPlayer _ _ _ _ g => g
  end.

Definition data_username (d : update_data) : string :=
  match d with
  | RecordUpdate u _ _ _ _ _ | NoRecord u _ _ _ _ _ | NewPlayer u _ _ _ _ => u
  end.

(** The [data] object of [GET /api/player/:username]; [None] is [null] for
    [rank] and [profilePicture], and an absent property for the others. *)
Record player_data : Type := {
  p_username : string;
  p_level : Q;
  p_rank : option Z;
  p_isInTop20 : bool;
  p_profilePicture : option string;
  p_gamesPlayed : Z;
  p_joinedAt : option Z;
  p_lastPlayed : option Z;
  p_message : option string
}.

Record player_body : Type := {
  pb_success : bool;
  pb_data : player_data
}.

Record stats_data : Type := {
  totalPlayers : Z;
  highestLevel : Q;
  topPlayer : option string;
  averageLevel : jsnum;
  competitorsInTop20 : Z
}.

Record stats_body : Type := {
  sb_success : bool;
  sb_data : stats_data
}.

(** The body of [POST /api/leaderboard/update]. *)
Record update_request : Type := {
  req_username : jsval;
  req_level : jsval;
  req_profilePicture : picture
}.

(* ===================================================================== *)
(** ** The handlers                                                     *)
(* ===================================================================== *)

Module Server.

Definition default_avatar : string :=
  "https://images.unsplash.com/photo-1494790108755-2616b612b1c5?w=150&h=150&fit=crop&crop=face".

(** [players.map((player, index) => f player index)], counting from [index]. *)
Fixpoint map_index {A B : Type} (f : A -> Z -> B) (index : Z) (l : list A) : list B :=
  match l with
  | [] => []
  | x :: t => f x index :: map_index f (index + 1) t
  end.

(** [Math.min(parseInt(req.query.limit) || 20, 50)]; a missing parameter is
    [undefined], which [parseInt] reads as [NaN]. *)
Definition leaderboard_limit (query_limit : option string) : Z :=
  Z.min (num_or (match query_limit with Some q => parseInt q | None => None end) 20) 50.

(** The documents fetched by the leaderboard:
    [Player.find().sort({ level: -1, lastUpdated: 1 }).limit(limit)]. *)
Definition leaderboard_players (query_limit : option string) (s : store) : list Player :=
  limit (leaderboard_limit query_limit) (sort by_level_desc_lastUpdated_asc s).

Definition leaderboard_entry (player : Player) (index : Z) : entry :=
  {| e_rank := index + 1;
     e_username := username player;
     e_level := level player;
     e_gamesPlayed := num_or (Some (gamesPlayed player)) 1;
     e_lastUpdated := lastUpdated player;
     e_avatar := match profilePicture player with
                 | Some EmptyString | None => default_avatar
                 | Some a => a
                 end |}.

(** [GET /api/leaderboard]. *)
Definition get_leaderboard (query_limit : option string) (now : Z) (s : store)
    : response leaderboard_body :=
  let players := leaderboard_players query_limit s in
  let leaderboard := map_index leaderboard_entry 0 players in
  Ok {| lb_success := true;
        lb_data := leaderboard;
        lb_total := Z.of_nat (List.length players);
        lb_timestamp := now |}.

(** [typeof level !== 'number' || level < 1 || level > 1000]. *)
Definition not_a_level (v : jsval) : bool :=
  match v with
  | JNum n => num_lt n (Fin 1) || num_lt (Fin 1000) n
  | _ => true
  end.

(** [username.trim().substring(0, 50)]. *)
Definition clean (u : string) : string := substring 0 50 (trim u).

(** The update of the record branch (source lines 150-155). *)
Definition set_record (l : Q) (pic : option string) (gp now : Z) (p : Player) : Player :=
  {| username := username p; level := l; profilePicture := pic;
     gamesPlayed := gp; lastUpdated := now; createdAt := createdAt p |}.

(** The update of the other branch (source lines 186-190): no [level]. *)
Definition set_play (pic : option string) (gp now : Z) (p : Player) : Player :=
  {| username := username p; level := level p; profilePicture := pic;
     gamesPlayed := gp; lastUpdated := now; createdAt := createdAt p |}.

(** [Player.countDocuments({ level: { $gt: l } })]. *)
Definition playersAbove (l : Q) (s : store) : Z :=
  countDocuments (fun p => Qlt_bool l (level p)) s.

Definition failed_update : response update_body := ServerError "Failed to update score".

(** [POST /api/leaderboard/update].  A [username] that is truthy and not a
    string has no [trim] method: the call raises a [TypeError], which the
    [catch] block answers with status 500.  A rejected [Player.create] ends
    there too, and so does the [Player.updateOne] of either branch when the
    picture of its update, [profilePicture || existingPlayer.profilePicture],
    does not cast. *)
Definition post_update (req : update_request) (now : clock) (s : store)
    : response update_body * store :=
  let profilePicture0 := req_profilePicture req in
  if negb (truthy (req_username req)) || negb (truthy (req_level req)) then
    (BadRequest "Username and level are required", s)
  else if not_a_level (req_level req) then
    (BadRequest "Level must be a number between 1 and 1000", s)
  else
    match req_level req, req_username req with
    | JNum (Fin level0), JStr username0 =>
        let cleanUsername := clean username0 in
        match findOne cleanUsername s with
        | Some existingPlayer =>
            let played := to_double (num_or (Some (gamesPlayed existingPlayer)) 0 + 1) in
            match picture_or profilePicture0 (profilePicture existingPlayer) with
            | None => (failed_update, s)
            | Some picture0 =>
                if Qlt_bool (level existingPlayer) level0 then
                  let s1 := updateOne cleanUsername
                              (set_record level0 picture0 played (date now)) s in
                  let newRank := playersAbove level0 s1 + 1 in
                  let isInTop20 := newRank <=? 20 in
                  (Ok {| u_success := true;
                         u_newRecord := true;
                         u_message := if isInTop20 then "New record in top 20!"
                                      else "New personal best!";
                         u_data := RecordUpdate cleanUsername level0 (level existingPlayer)
                                     newRank isInTop20 played |}, s1)
                else
                  let s1 := updateOne cleanUsername (set_play picture0 played (date now)) s in
                  let currentRank := playersAbove (level existingPlayer) s1 + 1 in
                  (Ok {| u_success := true;
                         u_newRecord := false;
                         u_message := "Score not high enough for new record";
                         u_data := NoRecord cleanUsername (level existingPlayer) level0
                                     currentRank (currentRank <=? 20) played |}, s1)
            end
        | None =>
            match create cleanUsername level0 profilePicture0 1 (date now) (timestamp now) s with
            | Some s1 =>
                let rank := playersAbove level0 s1 + 1 in
                let isInTop20 := rank <=? 20 in
                (Ok {| u_success := true;
                       u_newRecord := true;
                       u_message := if isInTop20 then "Welcome to top 20!"
                                    else "Welcome to the leaderboard!";
                       u_data := NewPlayer cleanUsername level0 rank isInTop20 1 |}, s1)
            | None => (failed_update, s)
            end
        end
    | _, _ => (failed_update, s)
    end.

(** [GET /api/player/:username]. *)
Definition get_player (username0 : string) (s : store) : response player_body :=
  let cleanUsername := trim username0 in
  match findOne cleanUsername s with
  | Some player =>
      let rank := playersAbove (level player) s + 1 in
      Ok {| pb_success := true;
            pb_data := {| p_username := username player;
                          p_level := level player;
                          p_rank := Some rank;
                          p_isInTop20 := rank <=? 20;
                          p_profilePicture := profilePicture player;
                          p_gamesPlayed := num_or (Some (gamesPlayed player)) 1;
                          p_joinedAt := Some (createdAt player);
                          p_lastPlayed := Some (lastUpdated player);
                          p_message := None |} |}
  | None =>
      Ok {| pb_success := true;
            pb_data := {| p_username := cleanUsername;
                          p_level := 0%Q;
                          p_rank := None;
                          p_isInTop20 := false;
                          p_profilePicture := None;
                          p_gamesPlayed := 0;
                          p_joinedAt := None;
                          p_lastPlayed := None;
                          p_message := Some "Player not found"%string |} |}
  end.

(** [Player.findOne().sort({ level: -1 })].  The query names the level
    only; the index declared on the schema provides this sort, and the store
    walks it, so documents of equal level come in the order of the index. *)
Definition findOne_sort_level (s : store) : option Player :=
  hd_error (sort by_level_desc (index_order s)).

(** [GET /api/stats]; the fourth query, [top20Count], is not used. *)
Definition get_stats (s : store) : response stats_body :=
  let totalPlayers0 := countDocuments (fun _ => true) s in
  let topPlayer0 := findOne_sort_level s in
  let avgLevelResult := aggregate_avgLevel s in
  Ok {| sb_success := true;
        sb_data := {| totalPlayers := totalPlayers0;
                      highestLevel := match topPlayer0 with
                                      | Some p => level p
                                      | None => 0%Q
                                      end;
                      topPlayer := match topPlayer0 with
                                   | Some p => Some (username p)
                                   | None => None
                                   end;
                      averageLevel := match avgLevelResult with
                                      | avgLevel :: _ =>
                                          num_div (Math_round (num_mul avgLevel 10)) 10
                                      | [] => Fin 0
                                      end;
                      competitorsInTop20 := Z.min totalPlayers0 20 |} |}.

End Server.
Import Server.

(* ===================================================================== *)
(** ** The paths of a score update                                      *)
(* ===================================================================== *)

(** The answers of [post_update], one constructor per path of the handler. *)
Inductive outcome (req : update_request) (now : clock) (s : store)
    : response update_body * store -> Prop :=
| out_required :
    truthy (req_username req) = false \/ truthy (req_level req) = false ->
    outcome req now s (BadRequest "Username and level are required", s)
| out_range :
    truthy (req_username req) = true -> truthy (req_level req) = true ->
    not_a_level (req_level req) = true ->
    outcome req now s (BadRequest "Level must be a number between 1 and 1000", s)
| out_type_error :
    truthy (req_username req) = true -> (forall u, req_username req <> JStr u) ->
    truthy (req_level req) = true -> not_a_level (req_level req) = false ->
    outcome req now s (failed_update, s)
| out_record u l e pic0 :
    req_username req = JStr u -> u <> ""%string ->
    req_level req = JNum (Fin l) -> (1 <= l)%Q -> (l <= 1000)%Q ->
    findOne (clean u) s = Some e ->
    picture_or (req_profilePicture req) (profilePicture e) = Some pic0 ->
    (level e < l)%Q ->
    let played := to_double (num_or (Some (gamesPlayed e)) 0 + 1) in
    let s1 := updateOne (clean u) (set_record l pic0 played (date now)) s in
    let newRank := playersAbove l s1 + 1 in
    outcome req now s
      (Ok {| u_success := true; u_newRecord := true;
             u_message := if newRank <=? 20 then "New record in top 20!"
                          else "New personal best!";
             u_data := RecordUpdate (clean u) l (level e) newRank (newRank <=? 20) played |},
       s1)
| out_play u l e pic0 :
    req_username req = JStr u -> u <> ""%string ->
    req_level req = JNum (Fin l) -> (1 <= l)%Q -> (l <= 1000)%Q ->
    findOne (clean u) s = Some e ->
    picture_or (req_profilePicture req) (profilePicture e) = Some pic0 ->
    (l <= level e)%Q ->
    let played := to_double (num_or (Some (gamesPlayed e)) 0 + 1) in
    let s1 := updateOne (clean u) (set_play pic0 played (date now)) s in
    let currentRank := playersAbove (level e) s1 + 1 in
    outcome req now s
      (Ok {| u_success := true; u_newRecord := false;
             u_message := "Score not high enough for new record";
             u_data := NoRecord (clean u) (level e) l currentRank (currentRank <=? 20) played |},
       s1)
| out_new u l s1 :
    req_username req = JStr u -> u <> ""%string ->
    req_level req = JNum (Fin l) -> (1 <= l)%Q -> (l <= 1000)%Q ->
    findOne (clean u) s = None ->
    create (clean u) l (req_profilePicture req) 1 (date now) (timestamp now) s = Some s1 ->
    let rank := playersAbove l s1 + 1 in
    outcome req now s
      (Ok {| u_success := true; u_newRecord := true;
             u_message := if rank <=? 20 then "Welcome to top 20!"
                          else "Welcome to the leaderboard!";
             u_data := NewPlayer (clean u) l rank (rank <=? 20) 1 |},
       s1)
| out_rejected u l :
    req_username req = JStr u -> u <> ""%string ->
    req_level req = JNum (Fin l) -> (1 <= l)%Q -> (l <= 1000)%Q ->
    findOne (clean u) s = None ->
    create (clean u) l (req_profilePicture req) 1 (date now) (timestamp now) s = None ->
    outcome req now s (failed_update, s)
| out_cast u l e :
    req_username req = JStr u -> u <> ""%string ->
    req_level req = JNum (Fin l) -> (1 <= l)%Q -> (l <= 1000)%Q ->
    findOne (clean u) s = Some e ->
    picture_or (req_profilePicture req) (profilePicture e) = None ->
    outcome req now s (failed_update, s).

(* ===================================================================== *)
(** ** Score updates that overlap                                       *)
(* ===================================================================== *)

(** The handler of [POST /api/leaderboard/update] gives the event loop back at
    each [await]: at [findOne], at [updateOne] or [create], and at
    [countDocuments].  Between two of them it runs alone, and each query is
    one operation on the collection.  A request in progress is a [task], and a
    [step] runs it up to and including its next query. *)
Module Concurrent.

Inductive task : Type :=
| Start (req : update_request)
| Found (cleanUsername : string) (level0 : Q) (profilePicture0 : picture)
    (existingPlayer : option Player)
| Written (cleanUsername : string) (level0 : Q) (existingPlayer : option Player)
| Done (r : response update_body).

Definition step (now : clock) (t : task) (s : store) : task * store :=
  match t with
  | Start req =>
      if negb (truthy (req_username req)) || negb (truthy (req_level req)) then
        (Done (BadRequest "Username and level are required"), s)
      else if not_a_level (req_level req) then
        (Done (BadRequest "Level must be a number between 1 and 1000"), s)
      else
        match req_level req, req_username req with
        | JNum (Fin level0), JStr username0 =>
            let cleanUsername := clean username0 in
            (Found cleanUsername level0 (req_profilePicture req) (findOne cleanUsername s), s)
        | _, _ => (Done failed_update, s)
        end
  | Found cleanUsername level0 profilePicture0 (Some existingPlayer) =>
      let played := to_double (num_or (Some (gamesPlayed existingPlayer)) 0 + 1) in
      match picture_or profilePicture0 (profilePicture existingPlayer) with
      | None => (Done failed_update, s)
      | Some picture0 =>
          if Qlt_bool (level existingPlayer) level0 then
            (Written cleanUsername level0 (Some existingPlayer),
             updateOne cleanUsername (set_record level0 picture0 played (date now)) s)
          else
            (Written cleanUsername level0 (Some existingPlayer),
             updateOne cleanUsername (set_play picture0 played (date now)) s)
      end
  | Found cleanUsername level0 profilePicture0 None =>
      match create cleanUsername level0 profilePicture0 1 (date now) (timestamp now) s with
      | Some s1 => (Written cleanUsername level0 None, s1)
      | None => (Done failed_update, s)
      end
  | Written cleanUsername level0 (Some existingPlayer) =>
      let played := to_double (num_or (Some (gamesPlayed existingPlayer)) 0 + 1) in
      if Qlt_bool (level existingPlayer) level0 then
        let newRank := playersAbove level0 s + 1 in
        let isInTop20 := newRank <=? 20 in
        (Done (Ok {| u_success := true;
                     u_newRecord := true;
                     u_message := if isInTop20 then "New record in top 20!"
                                  else "New personal best!";
                     u_data := RecordUpdate cleanUsername level0 (level existingPlayer)
                                 newRank isInTop20 played |}), s)
      else
        let currentRank := playersAbove (level existingPlayer) s + 1 in
        (Done (Ok {| u_success := true;
                     u_newRecord := false;
                     u_message := "Score not high enough for new record";
                     u_data := NoRecord cleanUsername (level existingPlayer) level0
                                 currentRank (currentRank <=? 20) played |}), s)
  | Written cleanUsername level0 None =>
      let rank := playersAbove level0 s + 1 in
      let isInTop20 := rank <=? 20 in
      (Done (Ok {| u_success := true;
                   u_newRecord := true;
                   u_message := if isInTop20 then "Welcome to top 20!"
                                else "Welcome to the leaderboard!";
                   u_data := NewPlayer cleanUsername level0 rank isInTop20 1 |}), s)
  | Done r => (Done r, s)
  end.

(** A request served with nothing in between: its three steps in a row. *)
Definition alone (now : clock) (req : update_request) (s : store) : task * store :=
  let '(t1, s1) := step now (Start req) s in
  let '(t2, s2) := step now t1 s1 in
  step now t2 s2.

Fixpoint set_nth {A : Type} (i : nat) (x : A) (l : list A) : list A :=
  match l, i with
  | [], _ => []
  | _ :: t, O => x :: t
  | y :: t, S j => y :: set_nth j x t
  end.

(** The requests in progress and the collection, after the event loop has
    resumed the tasks in the order of [schedule]; each resumption comes with
    the reading of the clock. *)
Fixpoint run (schedule : list (nat * clock)) (pool : list task) (s : store)
    : list task * store :=
  match schedule with
  | [] => (pool, s)
  | (i, now) :: rest =>
      match nth_error pool i with
      | Some t => let '(t', s') := step now t s in run rest (set_nth i t' pool) s'
      | None => run rest pool s
      end
  end.

End Concurrent.

(* ===================================================================== *)
(** ** Sample collections                                               *)
(* ===================================================================== *)

(** A document with no picture, played once, last updated and created at [t]. *)
Definition player (u : string) (l : Q) (t : Z) : Player :=
  {| username := u; level := l; profilePicture := None;
     gamesPlayed := 1; lastUpdated := t; createdAt := t |}.

Definition three_players : store :=
  [player "ann" 30 1; player "bob" 20 2; player "cy" 10 3].

(** Zed has a picture and a document that counts no game. *)
Definition zed_and_ann : store :=
  [ {| username := "zed"; level := 50; profilePicture := Some "zed.png"%string;
       gamesPlayed := 0; lastUpdated := 5; createdAt := 5 |};
    player "ann" 30 1 ].

(* ===================================================================== *)
(** ** Validation, as specified, and sample requests                    *)
(* ===================================================================== *)

(** The level is a number between 1 and 1000. *)
Definition number_in_range (v : jsval) : Prop :=
  exists l : Q, v = JNum (Fin l) /\ (1 <= l)%Q /\ (l <= 1000)%Q.

(** The validation rule in the words of the specification: the identity is
    empty or missing, or the level is not an integer in [1,1000]. *)
Module Spec.

Definition identity_missing (v : jsval) : bool :=
  match v with
  | JUndefined | JNull | JStr EmptyString => true
  | _ => false
  end.

Definition integer_in_range (v : jsval) : bool :=
  match v with
  | JNum (Fin q) => Qeq_bool (inject_Z (Qfloor q)) q && Qle_bool 1 q && Qle_bool q 1000
  | _ => false
  end.

Definition validation_fails (req : update_request) : bool :=
  identity_missing (req_username req) || negb (integer_in_range (req_level req)).

End Spec.

Definition missing_name : update_request :=
  {| req_username := JUndefined; req_level := JNum (Fin 7); req_profilePicture := NoPicture |}.

Definition bob_two_and_a_half : update_request :=
  {| req_username := JStr "bob"; req_level := JNum (Fin (5 # 2));
     req_profilePicture := NoPicture |}.

Definition submission (u : string) (l : Q) (pic : picture) : update_request :=
  {| req_username := JStr u; req_level := JNum (Fin l); req_profilePicture := pic |}.

(** A picture that the schema casts to a string, or no picture. *)
Definition castable (pic : picture) : bool :=
  match pic with
  | Uncastable => false
  | _ => true
  end.

(** The level of a valid request for the player stored under [k]: the user
    name is a string that is [k] once cleaned, the level is a number between
    1 and 1000, and the picture, if any, is cast to a string. *)
Definition valid_level (k : string) (req : update_request) : option Q :=
  match req_username req, req_level req with
  | JStr u, JNum (Fin l) =>
      if (trim (clean u) =? k)%string && Qle_bool 1 l && Qle_bool l 1000
         && castable (req_profilePicture req)
      then Some l else None
  | _, _ => None
  end.

(* ===================================================================== *)
(** ** Sequences of score updates                                       *)
(* ===================================================================== *)

(** The requests are served one after the other, each with its reading of the
    clock. *)
Fixpoint serve (reqs : list (update_request * clock)) (s : store) : store :=
  match reqs with
  | [] => s
  | (req, now) :: rest => serve rest (snd (post_update req now s))
  end.

(** The level of the request, when it is accepted (status 200) and is for the
    player stored under [k]. *)
Definition submitted_level (k : string) (req : update_request) (now : clock) (s : store)
    : option Q :=
  match fst (post_update req now s), req_username req, req_level req with
  | Ok _, JStr u, JNum (Fin l) => if (trim (clean u) =? k)%string then Some l else None
  | _, _, _ => None
  end.

(** The levels submitted for [k] by the accepted requests of the sequence. *)
Fixpoint submitted (k : string) (reqs : list (update_request * clock)) (s : store) : list Q :=
  match reqs with
  | [] => []
  | (req, now) :: rest =>
      let later := submitted k rest (snd (post_update req now s)) in
      match submitted_level k req now s with
      | Some l => l :: later
      | None => later
      end
  end.

(** The levels of the valid requests for [k] in the sequence. *)
Fixpoint valid_levels (k : string) (reqs : list (update_request * clock)) : list Q :=
  match reqs with
  | [] => []
  | (req, _) :: rest =>
      match valid_level k req with
      | Some l => l :: valid_levels k rest
      | None => valid_levels k rest
      end
  end.

(** [m] is the maximum of [ls]. *)
Definition is_max (m : Q) (ls : list Q) : Prop :=
  In m ls /\ forall x, In x ls -> (x <= m)%Q.

Definition five_three_nine : list (update_request * clock) :=
  [(submission "bob" 5 NoPicture, tick 1); (submission "bob" 3 NoPicture, tick 2);
   (submission "bob" 9 NoPicture, tick 3)].

(** Ann reaches level 10, then Bob does, then Ann plays again without a
    record: Bob has the earlier [lastUpdated]. *)
Definition ann_bob_ann : list (update_request * clock) :=
  [(submission "ann" 10 NoPicture, tick 1); (submission "bob" 10 NoPicture, tick 2);
   (submission "ann" 10 NoPicture, tick 3)].

Definition tied_store : store := serve ann_bob_ann [].

(* ===================================================================== *)
(** ** Two requests in progress                                         *)
(* ===================================================================== *)

Definition alice_store : store := [player "alice" 1 0].

Definition two_requests : list Concurrent.task :=
  [Concurrent.Start (submission "alice" 9 NoPicture);
   Concurrent.Start (submission "alice" 5 NoPicture)].

(** Both requests read Alice's document before either writes. *)
Definition both_read_first : list (nat * clock) :=
  [(0%nat, tick 10); (1%nat, tick 11); (0%nat, tick 12); (1%nat, tick 13);
   (0%nat, tick 14); (1%nat, tick 15)].

(* ===================================================================== *)
(** ** The order of the leaderboard                                     *)
(* ===================================================================== *)

(** [a] is not behind [b]: its level is at least the level of [b], and at
    equal levels it was not updated later. *)
Definition not_behind (a b : Player) : Prop :=
  (level b <= level a)%Q /\
  ((level a == level b)%Q -> lastUpdated a <= lastUpdated b).

(** The same on the entries of an answer. *)
Definition entry_not_behind (a b : entry) : Prop :=
  (e_level b <= e_level a)%Q /\
  ((e_level a == e_level b)%Q -> e_lastUpdated a <= e_lastUpdated b).

(* ===================================================================== *)
(** ** The document of a player after an update                         *)
(* ===================================================================== *)

(** The picture that is stored, once it has been cast. *)
Definition stored_as (cast : option (option string)) : option string :=
  match cast with
  | Some picture0 => picture0
  | None => None
  end.

(** What the three paths of the handler leave for the player: the record
    update and the other update on the document [e] read before, or the new
    document when there was none. *)
Definition updated (u : string) (l : Q) (pic : picture) (now : clock)
    (before : option Player) : Player :=
  match before with
  | Some e =>
      let played := to_double (num_or (Some (gamesPlayed e)) 0 + 1) in
      let picture := stored_as (picture_or pic (profilePicture e)) in
      if Qlt_bool (level e) l then set_record l picture played (date now) e
      else set_play picture played (date now) e
  | None =>
      {| username := trim (clean u); level := l;
         profilePicture := stored_as (picture_cast pic);
         gamesPlayed := 1; lastUpdated := date now; createdAt := timestamp now |}
  end.

(** The user names of the collection are pairwise distinct. *)
Definition unique_names (s : store) : Prop := NoDup (map username s).

(** A document as the schema wants it: a user name that is trimmed, not empty
    and at most 50 long, a level between 1 and 1000, at least one game. *)
Definition well_formed (p : Player) : Prop :=
  username p <> ""%string /\ trim (username p) = username p /\
  (String.length (username p) <= 50)%nat /\
  (1 <= level p)%Q /\ (level p <= 1000)%Q /\
  1 <= gamesPlayed p.

(* ===================================================================== *)
(** ** A request in progress and the document of its player             *)
(* ===================================================================== *)

(** The request [req], for the user name [u], is at the state [t] while the
    document of its player is [o]: it has not written yet and the document
    is the one of [s0], or it has written and the document is the one that
    serving the request alone on [s0] leaves, for some reading of the
    clock. *)
Definition in_progress (s0 : store) (req : update_request) (u : string)
    (t : Concurrent.task) (o : option Player) : Prop :=
  match t with
  | Concurrent.Start r => r = req /\ o = lookup (trim (clean u)) s0
  | Concurrent.Found c l pic e =>
      fst (Concurrent.step (tick 0) (Concurrent.Start req) s0) = Concurrent.Found c l pic e /\
      c = clean u /\ o = lookup (trim (clean u)) s0
  | Concurrent.Written _ _ _ | Concurrent.Done _ =>
      exists tw, o = lookup (trim (clean u)) (snd (post_update req tw s0))
  end.

Definition bob_and_dan : list Concurrent.task :=
  [Concurrent.Start (submission "bob" 40 NoPicture);
   Concurrent.Start (submission "dan" 25 NoPicture)].

(** A user name of white space only. *)
Definition blank_name : update_request :=
  {| req_username := JStr "   "; req_level := JNum (Fin 7); req_profilePicture := NoPicture |}.

(* ===================================================================== *)
(** * Theorems                                                          *)
(* ===================================================================== *)

(* ===================================================================== *)
(** ** JavaScript helpers                                               *)
(* ===================================================================== *)

Example parseInt_examples :
  parseInt "5" = Some 5 /\ parseInt "1000" = Some 1000 /\ parseInt "0" = Some 0 /\
  parseInt " -12px" = Some (-12) /\ parseInt "0x1F" = Some 31 /\
  parseInt "abc" = None /\ parseInt "" = None /\ parseInt "2.5" = Some 2.
Proof. repeat split; reflexivity. Qed.

Example trim_examples :
  trim "  bob " = "bob"%string /\ trim "   " = ""%string /\ trim "a b" = "a b"%string.
Proof. repeat split; reflexivity. Qed.

(* ===================================================================== *)
(** ** Facts about numbers and queries                                  *)
(* ===================================================================== *)

Section Numbers.

Lemma Qlt_bool_iff (x y : Q) : Qlt_bool x y = true <-> (x < y)%Q.
Proof.
  unfold Qlt_bool. rewrite negb_true_iff. split.
  - intros H. apply Qnot_le_lt. intros Hle.
    apply Qle_bool_iff in Hle. congruence.
  - intros H. destruct (Qle_bool y x) eqn:E; [|reflexivity].
    apply Qle_bool_iff in E. exfalso. exact (Qlt_not_le _ _ H E).
Qed.

Lemma Qlt_bool_false_iff (x y : Q) : Qlt_bool x y = false <-> (y <= x)%Q.
Proof.
  unfold Qlt_bool. rewrite negb_false_iff. apply Qle_bool_iff.
Qed.

(** The two checks of the handler leave a finite number between 1 and 1000. *)
Lemma level_checked (v : jsval) :
  truthy v = true -> not_a_level v = false ->
  exists l : Q, v = JNum (Fin l) /\ (1 <= l)%Q /\ (l <= 1000)%Q.
Proof.
  destruct v as [| |b|n|str|]; simpl; try discriminate.
  destruct n as [q| | |]; simpl; try discriminate.
  intros _ H. apply orb_false_iff in H. destruct H as [H1 H2].
  exists q. repeat split; [now apply Qlt_bool_false_iff in H1 | now apply Qlt_bool_false_iff in H2].
Qed.

Lemma level_in_range_checked (l : Q) :
  (1 <= l)%Q -> (l <= 1000)%Q ->
  truthy (JNum (Fin l)) = true /\ not_a_level (JNum (Fin l)) = false.
Proof.
  intros H1 H2. split; simpl.
  - apply negb_true_iff. destruct (Qeq_bool l 0) eqn:E; [|reflexivity].
    apply Qeq_bool_iff in E. rewrite E in H1.
    exfalso. apply (Qle_not_lt _ _ H1). reflexivity.
  - apply orb_false_iff. split; now apply Qlt_bool_false_iff.
Qed.

Lemma truthy_string (u : string) : truthy (JStr u) = true <-> u <> ""%string.
Proof.
  simpl. rewrite negb_true_iff. apply String.eqb_neq.
Qed.

End Numbers.

Section Queries.

Lemma length_insert before x l :
  List.length (insert before x l) = S (List.length l).
Proof.
  induction l as [|y t IH]; simpl; [reflexivity|].
  destruct (before y x); simpl; [now rewrite IH | reflexivity].
Qed.

Lemma length_sort before l : List.length (sort before l) = List.length l.
Proof.
  induction l as [|x t IH]; simpl; [reflexivity|].
  now rewrite length_insert, IH.
Qed.

Lemma length_limit n l :
  n <> 0 ->
  Z.of_nat (List.length (limit n l)) = Z.min (Z.abs n) (Z.of_nat (List.length l)).
Proof.
  intros Hn. unfold limit. apply Z.eqb_neq in Hn. rewrite Hn.
  rewrite length_firstn. lia.
Qed.

Lemma length_map_index {A B : Type} (f : A -> Z -> B) i l :
  List.length (map_index f i l) = List.length l.
Proof.
  revert i. induction l as [|x t IH]; intros i; simpl; [reflexivity|].
  now rewrite IH.
Qed.

Lemma leaderboard_limit_nonzero q : leaderboard_limit q <> 0.
Proof.
  unfold leaderboard_limit, num_or.
  destruct (match q with Some q0 => parseInt q0 | None => None end) as [v|]; [|lia].
  destruct (v =? 0) eqn:E; [lia|]. apply Z.eqb_neq in E. lia.
Qed.

(** Looking a name up after an update that keeps user names. *)
Lemma lookup_modify_same k f s p :
  (forall x, username (f x) = username x) ->
  lookup k s = Some p -> lookup k (modify k f s) = Some (f p).
Proof.
  intros Hf. unfold lookup. induction s as [|x t IH]; simpl; [discriminate|].
  destruct (username x =? k)%string eqn:E; simpl.
  - intros H. injection H as <-. now rewrite Hf, E.
  - intros H. rewrite E. auto.
Qed.

Lemma lookup_modify_other j k f s :
  (forall x, username (f x) = username x) ->
  j <> k -> lookup j (modify k f s) = lookup j s.
Proof.
  intros Hf Hjk. unfold lookup. induction s as [|x t IH]; simpl; [reflexivity|].
  destruct (username x =? k)%string eqn:E; simpl.
  - apply String.eqb_eq in E. rewrite Hf.
    destruct (username x =? j)%string eqn:E'; [|reflexivity].
    apply String.eqb_eq in E'. congruence.
  - destruct (username x =? j)%string; [reflexivity|exact IH].
Qed.

Lemma length_modify k f s : List.length (modify k f s) = List.length s.
Proof.
  induction s as [|x t IH]; simpl; [reflexivity|].
  destruct (username x =? k)%string; simpl; [reflexivity | now rewrite IH].
Qed.

Lemma lookup_app k s t :
  lookup k (s ++ t) = match lookup k s with Some p => Some p | None => lookup k t end.
Proof.
  unfold lookup. induction s as [|x s' IH]; simpl; [reflexivity|].
  destruct (username x =? k)%string; [reflexivity|exact IH].
Qed.

(** What a successful [create] leaves. *)
Lemma create_inv u l pic gp lu now s s1 :
  create u l pic gp lu now s = Some s1 ->
  lookup (trim u) s = None /\
  s1 = s ++ [{| username := trim u; level := l;
                profilePicture := stored_as (picture_cast pic);
                gamesPlayed := gp; lastUpdated := lu; createdAt := now |}].
Proof.
  unfold create. destruct (picture_cast pic) as [cast|]; [|discriminate]. simpl.
  destruct (validates _); [|discriminate].
  destruct (lookup (trim u) s); [discriminate|].
  intros H. injection H as <-. split; reflexivity.
Qed.

(** [create] accepts only a picture that is cast to a string. *)
Lemma create_cast u l pic gp lu now s s1 :
  create u l pic gp lu now s = Some s1 -> pic <> Uncastable.
Proof.
  unfold create. destruct pic; simpl; congruence.
Qed.

Lemma username_set_record l pic gp now x : username (set_record l pic gp now x) = username x.
Proof. reflexivity. Qed.

Lemma username_set_play pic gp now x : username (set_play pic gp now x) = username x.
Proof. reflexivity. Qed.

End Queries.

(* ===================================================================== *)
(** ** Trimmed and cleaned user names                                   *)
(* ===================================================================== *)

Section Strings.

Local Open Scope string_scope.

Lemma append_nil_r s : s ++ "" = s.
Proof. induction s as [|c t IH]; simpl; [reflexivity | now rewrite IH]. Qed.

Lemma append_assoc a b c : (a ++ b) ++ c = a ++ (b ++ c).
Proof. induction a as [|x t IH]; simpl; [reflexivity | now rewrite IH]. Qed.

Lemma rev_append_app s : forall acc, rev_append s acc = reverse s ++ acc.
Proof.
  unfold reverse. induction s as [|c t IH]; intros acc; simpl; [reflexivity|].
  rewrite IH, (IH (String c "")), append_assoc. reflexivity.
Qed.

Lemma reverse_cons c t : reverse (String c t) = reverse t ++ String c "".
Proof. unfold reverse at 1. simpl. apply rev_append_app. Qed.

Lemma reverse_app a b : reverse (a ++ b) = reverse b ++ reverse a.
Proof.
  induction a as [|c t IH]; simpl.
  - now rewrite append_nil_r.
  - now rewrite !reverse_cons, IH, append_assoc.
Qed.

Lemma reverse_involutive s : reverse (reverse s) = s.
Proof.
  induction s as [|c t IH]; [reflexivity|].
  rewrite reverse_cons, reverse_app, IH. reflexivity.
Qed.

Lemma length_append a b : String.length (a ++ b) = (String.length a + String.length b)%nat.
Proof. induction a as [|c t IH]; simpl; [reflexivity | now rewrite IH]. Qed.

Lemma length_reverse s : String.length (reverse s) = String.length s.
Proof.
  induction s as [|c t IH]; [reflexivity|].
  rewrite reverse_cons, length_append, IH. simpl. lia.
Qed.

Lemma length_trimStart s : (String.length (trimStart s) <= String.length s)%nat.
Proof.
  induction s as [|c t IH]; simpl; [lia|].
  destruct (is_space c); simpl; lia.
Qed.

(** A string that [trimStart] keeps does not start with white space. *)
Lemma trimStart_fixed_cons c t :
  trimStart (String c t) = String c t <-> is_space c = false.
Proof.
  simpl. destruct (is_space c); split; try reflexivity; try discriminate.
  intros H. pose proof (length_trimStart t) as L. rewrite H in L. simpl in L. lia.
Qed.

Lemma trimStart_idem s : trimStart (trimStart s) = trimStart s.
Proof.
  induction s as [|c t IH]; simpl; [reflexivity|].
  destruct (is_space c) eqn:E; [exact IH|]. simpl. now rewrite E.
Qed.

(** What [trimStart] removes is in front of what it keeps. *)
Lemma trimStart_split s : exists w, s = w ++ trimStart s.
Proof.
  induction s as [|c t [w IH]]; simpl; [now exists ""|].
  destruct (is_space c).
  - exists (String c w). simpl. now rewrite <- IH.
  - now exists "".
Qed.

(** Only white space can be removed entirely. *)
Lemma trimStart_empty a c b : trimStart (a ++ String c b) = "" -> is_space c = true.
Proof.
  induction a as [|d t IH]; simpl.
  - destruct (is_space c); [reflexivity | discriminate].
  - destruct (is_space d); [exact IH | discriminate].
Qed.

Lemma length_trim s : (String.length (trim s) <= String.length s)%nat.
Proof.
  unfold trim, trimEnd. rewrite length_reverse.
  pose proof (length_trimStart (reverse (trimStart s))) as H.
  rewrite length_reverse in H. pose proof (length_trimStart s). lia.
Qed.

(** A trimmed string has white space at neither end. *)
Lemma trim_no_trailing s : trimStart (reverse (trim s)) = reverse (trim s).
Proof.
  unfold trim, trimEnd. rewrite reverse_involutive. apply trimStart_idem.
Qed.

Lemma trim_no_leading s : trimStart (trim s) = trim s.
Proof.
  unfold trim, trimEnd.
  set (t := trimStart s).
  assert (Ht : trimStart t = t) by apply trimStart_idem.
  destruct (trimStart_split (reverse t)) as [w Hw].
  set (r := trimStart (reverse t)) in *.
  destruct (reverse r) as [|c r'] eqn:Er; [reflexivity|].
  apply trimStart_fixed_cons.
  assert (E : t = String c (r' ++ reverse w)).
  { rewrite <- (reverse_involutive t), Hw, reverse_app, Er. reflexivity. }
  rewrite E in Ht. now apply trimStart_fixed_cons in Ht.
Qed.

Lemma trim_idem s : trim (trim s) = trim s.
Proof.
  unfold trim at 1. unfold trimEnd.
  rewrite trim_no_leading, trim_no_trailing. apply reverse_involutive.
Qed.

Lemma length_substring n s : (String.length (substring 0 n s) <= n)%nat.
Proof.
  revert s. induction n as [|n IH]; intros s; destruct s as [|c t]; simpl; try lia.
  specialize (IH t). lia.
Qed.

(** The cleaned name is empty only when the name is white space only. *)
Lemma trim_clean_empty u : trim (clean u) = "" <-> trim u = "".
Proof.
  unfold clean. split.
  - intros H. destruct (trim u) as [|c t] eqn:E; [reflexivity|]. exfalso.
    assert (Hc : is_space c = false).
    { apply (trimStart_fixed_cons c t). rewrite <- E. apply trim_no_leading. }
    simpl in H. unfold trim in H. simpl in H. rewrite Hc in H.
    unfold trimEnd in H.
    assert (H' : trimStart (reverse (String c (substring 0 49 t))) = "").
    { rewrite <- (reverse_involutive (trimStart _)), H. reflexivity. }
    rewrite reverse_cons in H'. apply trimStart_empty in H'. congruence.
  - intros ->. reflexivity.
Qed.

Lemma length_trim_clean u : (String.length (trim (clean u)) <= 50)%nat.
Proof.
  pose proof (length_trim (clean u)). pose proof (length_substring 50 (trim u)).
  unfold clean in *. lia.
Qed.

End Strings.

(* ===================================================================== *)
(** ** Creating a document                                              *)
(* ===================================================================== *)

(** A document that [create] accepts passes the validators of the schema. *)
Lemma create_valid u l pic gp lu now s s1 :
  create u l pic gp lu now s = Some s1 ->
  trim u <> ""%string /\ (String.length (trim u) <= 50)%nat /\
  (1 <= l)%Q /\ (l <= 1000)%Q.
Proof.
  unfold create. destruct (picture_cast pic) as [cast|]; [|discriminate].
  unfold validates. cbn [username level].
  destruct (negb (trim u =? "")%string) eqn:E1; [|discriminate].
  destruct (String.length (trim u) <=? 50)%nat eqn:E2; [|discriminate].
  destruct (Qle_bool 1 l) eqn:E3; [|discriminate].
  destruct (Qle_bool l 1000) eqn:E4; [|discriminate].
  intros _. apply negb_true_iff, String.eqb_neq in E1.
  apply Nat.leb_le in E2. apply Qle_bool_iff in E3. apply Qle_bool_iff in E4.
  repeat split; assumption.
Qed.

(** [create] accepts every document with a name that is not empty once
    cleaned, a level in range, a picture that is cast to a string, and no
    document under that name. *)
Lemma create_accepts u l pic gp lu now s :
  trim u <> ""%string -> (1 <= l)%Q -> (l <= 1000)%Q ->
  pic <> Uncastable ->
  lookup (trim (clean u)) s = None ->
  create (clean u) l pic gp lu now s =
    Some (s ++ [{| username := trim (clean u); level := l;
                   profilePicture := stored_as (picture_cast pic);
                   gamesPlayed := gp; lastUpdated := lu; createdAt := now |}]).
Proof.
  intros Hne H1 H2 Hpic Hnone. unfold create.
  destruct (picture_cast pic) as [cast|] eqn:Ec;
    [|destruct pic; [discriminate | discriminate | congruence]].
  unfold validates. cbn [username level stored_as].
  assert (E1 : (trim (clean u) =? "")%string = false).
  { apply String.eqb_neq. intros H. exact (Hne (proj1 (trim_clean_empty u) H)). }
  assert (E2 : (String.length (trim (clean u)) <=? 50)%nat = true).
  { apply Nat.leb_le. apply length_trim_clean. }
  apply Qle_bool_iff in H1. apply Qle_bool_iff in H2.
  rewrite E1, E2, H1, H2, Hnone. reflexivity.
Qed.

(* ===================================================================== *)
(** ** The paths of a score update                                      *)
(* ===================================================================== *)

Lemma post_update_outcome req now s : outcome req now s (post_update req now s).
Proof.
  unfold post_update.
  destruct (truthy (req_username req)) eqn:Hu; simpl;
    [|apply out_required; now left].
  destruct (truthy (req_level req)) eqn:Hl; simpl;
    [|apply out_required; now right].
  destruct (not_a_level (req_level req)) eqn:Hr; [now apply out_range|].
  destruct (level_checked _ Hl Hr) as (l & El & Hl1 & Hl2). rewrite El.
  destruct (req_username req) as [| |b|n|u|] eqn:Eu;
    try (apply out_type_error;
         [rewrite Eu; exact Hu | rewrite Eu; discriminate | exact Hl | exact Hr]).
  assert (Hne : u <> ""%string) by now apply truthy_string.
  destruct (findOne (clean u) s) as [e|] eqn:Ef.
  - destruct (picture_or (req_profilePicture req) (profilePicture e)) as [pic0|] eqn:Ep;
      [|now apply (out_cast req now s u l e)].
    destruct (Qlt_bool (level e) l) eqn:Hlt.
    + apply Qlt_bool_iff in Hlt. now apply (out_record req now s u l e pic0).
    + apply Qlt_bool_false_iff in Hlt. now apply (out_play req now s u l e pic0).
  - destruct (create (clean u) l (req_profilePicture req) 1 (date now) (timestamp now) s)
      as [s1|] eqn:Ec.
    + now apply (out_new req now s u l s1).
    + now apply (out_rejected req now s u l).
Qed.

(** The same, for a named result. *)
Lemma post_update_inv req now s r :
  post_update req now s = r -> outcome req now s r.
Proof. intros <-. apply post_update_outcome. Qed.

Lemma picture_or_castable pic existing :
  picture_or pic existing = None <-> pic = Uncastable.
Proof.
  destruct pic as [|[|] cast|]; simpl; split; congruence.
Qed.

(** A valid request is accepted: a user name that is a string with more than
    white space, a level between 1 and 1000, and a picture that is cast to a
    string, are answered with status 200 on every collection. *)
Lemma post_update_accepts req now s u l :
  req_username req = JStr u -> trim u <> ""%string ->
  req_level req = JNum (Fin l) -> (1 <= l)%Q -> (l <= 1000)%Q ->
  req_profilePicture req <> Uncastable ->
  exists body, fst (post_update req now s) = Ok body.
Proof.
  intros Hu Hne Hl H1 H2 Hpic.
  assert (Hne' : u <> ""%string) by (intros ->; now apply Hne).
  destruct (level_in_range_checked l H1 H2) as [Ht Hr].
  pose proof (post_update_outcome req now s) as H.
  remember (post_update req now s) as r eqn:Er.
  destruct H as [Hf | Hu' Hl' Hr' | Hu' Hn Hl' Hr' | u0 l0 e pic0 Hu0 Hne0 Hl0 H10 H20 Hfind Hp Hlt
                | u0 l0 e pic0 Hu0 Hne0 Hl0 H10 H20 Hfind Hp Hle
                | u0 l0 s1 Hu0 Hne0 Hl0 H10 H20 Hfind Hc
                | u0 l0 Hu0 Hne0 Hl0 H10 H20 Hfind Hc | u0 l0 e Hu0 Hne0 Hl0 H10 H20 Hfind Hp];
    cbn [fst]; try (eexists; reflexivity); exfalso.
  - rewrite Hu, Hl in Hf. apply truthy_string in Hne'. destruct Hf; congruence.
  - rewrite Hl in Hr'. congruence.
  - exact (Hn u Hu).
  - assert (u0 = u) by congruence. assert (l0 = l) by congruence. subst u0 l0.
    rewrite (create_accepts u l _ 1 (date now) (timestamp now) s Hne H1 H2 Hpic Hfind) in Hc.
    discriminate.
  - apply picture_or_castable in Hp. contradiction.
Qed.

(** An accepted request is a valid one. *)
Lemma post_update_accepted req now s body s' :
  post_update req now s = (Ok body, s') ->
  exists u l, req_username req = JStr u /\ u <> ""%string /\
    req_level req = JNum (Fin l) /\ (1 <= l)%Q /\ (l <= 1000)%Q /\
    req_profilePicture req <> Uncastable /\
    (findOne (clean u) s = None -> trim u <> ""%string).
Proof.
  intros E. pose proof (post_update_inv _ _ _ _ E) as H.
  inversion H as [ | | | u l e pic0 Hu Hne Hl H1 H2 Hfind Hpic Hlt
                 | u l e pic0 Hu Hne Hl H1 H2 Hfind Hpic Hle
                 | u l s1 Hu Hne Hl H1 H2 Hfind Hc | | ];
    subst; clear H; exists u, l; (do 5 (split; [assumption|])).
  - split; [|congruence]. intros Hp. apply (picture_or_castable _ (profilePicture e)) in Hp.
    congruence.
  - split; [|congruence]. intros Hp. apply (picture_or_castable _ (profilePicture e)) in Hp.
    congruence.
  - split; [exact (create_cast _ _ _ _ _ _ _ _ Hc)|]. intros _.
    apply create_valid in Hc. destruct Hc as [Hc _].
    intros Hw. apply Hc. exact (proj2 (trim_clean_empty u) Hw).
Qed.

(* ===================================================================== *)
(** ** Requests in progress                                             *)
(* ===================================================================== *)

(** Served alone, a request does what [post_update] says. *)
Lemma alone_post_update now req s :
  Concurrent.alone now req s =
  (Concurrent.Done (fst (post_update req now s)), snd (post_update req now s)).
Proof.
  unfold Concurrent.alone, post_update. simpl.
  destruct (negb (truthy (req_username req)) || negb (truthy (req_level req)));
    [reflexivity|].
  destruct (not_a_level (req_level req)); [reflexivity|].
  destruct (req_level req) as [| |b|[q| | |]|str|]; try reflexivity.
  destruct (req_username req) as [| |b|n|u|]; try reflexivity.
  destruct (findOne (clean u) s) as [e|]; cbn [Concurrent.step].
  - destruct (picture_or (req_profilePicture req) (profilePicture e)); [|reflexivity].
    destruct (Qlt_bool (level e) q) eqn:E; cbn [Concurrent.step]; rewrite E; reflexivity.
  - destruct (create (clean u) q (req_profilePicture req) 1 (date now) (timestamp now) s);
      reflexivity.
Qed.

(* ===================================================================== *)
(** ** The leaderboard window                                           *)
(* ===================================================================== *)

(** The number of entries of the answer. *)
Lemma leaderboard_window q now s :
  exists body, get_leaderboard q now s = Ok body /\
    lb_total body = Z.of_nat (List.length (lb_data body)) /\
    Z.of_nat (List.length (lb_data body)) =
      Z.min (Z.abs (leaderboard_limit q)) (Z.of_nat (List.length s)).
Proof.
  unfold get_leaderboard. eexists. split; [reflexivity|]. simpl.
  rewrite length_map_index. split; [reflexivity|].
  unfold leaderboard_players.
  rewrite length_limit by apply leaderboard_limit_nonzero.
  now rewrite length_sort.
Qed.

(** C1, as the code has it: the [total] field of the leaderboard answer is
    the number of entries of [data]; for a positive effective limit that is
    the smaller of the limit and the number of documents of the collection, so
    it is not the number of documents when the window is shorter. *)
Theorem leaderboard_total_is_window_size (q : option string) (now : Z) (s : store) :
  exists body, get_leaderboard q now s = Ok body /\
    lb_total body = Z.of_nat (List.length (lb_data body)) /\
    (0 < leaderboard_limit q ->
     lb_total body = Z.min (leaderboard_limit q) (Z.of_nat (List.length s))).
Proof.
  destruct (leaderboard_window q now s) as (body & Hb & Ht & Hl).
  exists body. repeat split; [exact Hb | exact Ht |].
  intros Hpos. rewrite Ht, Hl. lia.
Qed.

Lemma leaderboard_total_is_window_size_witness :
  0 < leaderboard_limit (Some "2"%string) /\
  exists body, get_leaderboard (Some "2"%string) 7 three_players = Ok body /\
    lb_total body = Z.of_nat (List.length (lb_data body)) /\
    lb_total body = Z.min (leaderboard_limit (Some "2"%string))
                      (Z.of_nat (List.length three_players)).
Proof.
  assert (Hpos : 0 < leaderboard_limit (Some "2"%string)) by (vm_compute; reflexivity).
  split; [exact Hpos|].
  destruct (leaderboard_total_is_window_size (Some "2"%string) 7 three_players)
    as (body & Hb & Ht & Hl).
  exists body. split; [exact Hb|]. split; [exact Ht | exact (Hl Hpos)].
Defined.

(** C1 fails as stated: with three documents and [limit=2], [total] is 2, which
    is neither the number of documents nor greater than the length of [data]. *)
Lemma leaderboard_total_not_store_count :
  exists body, get_leaderboard (Some "2"%string) 0 three_players = Ok body /\
    lb_total body = 2 /\
    Z.of_nat (List.length three_players) = 3 /\
    lb_total body <> Z.of_nat (List.length three_players) /\
    ~ (lb_total body > Z.of_nat (List.length (lb_data body))).
Proof.
  eexists. split; [reflexivity|]. simpl. repeat split; lia.
Qed.

(** C8: the leaderboard returns at most [min(limit, 50)] entries when the
    [limit] parameter parses to a positive number and at most 20 when there is
    no parameter; [limit=1000] gives at most 50 entries and [limit=5] at most
    5. *)
Theorem leaderboard_window_cap (now : Z) (s : store) :
  (forall str n, parseInt str = Some n -> 0 < n ->
     exists body, get_leaderboard (Some str) now s = Ok body /\
       Z.of_nat (List.length (lb_data body)) <= Z.min n 50) /\
  (exists body, get_leaderboard None now s = Ok body /\
     Z.of_nat (List.length (lb_data body)) <= 20) /\
  (exists body, get_leaderboard (Some "1000"%string) now s = Ok body /\
     Z.of_nat (List.length (lb_data body)) <= 50) /\
  (exists body, get_leaderboard (Some "5"%string) now s = Ok body /\
     Z.of_nat (List.length (lb_data body)) <= 5).
Proof.
  assert (H : forall str n, parseInt str = Some n -> 0 < n ->
     exists body, get_leaderboard (Some str) now s = Ok body /\
       Z.of_nat (List.length (lb_data body)) <= Z.min n 50).
  { intros str n Hp Hn.
    destruct (leaderboard_window (Some str) now s) as (body & Hb & _ & Hl).
    exists body. split; [exact Hb|]. rewrite Hl.
    unfold leaderboard_limit, num_or. rewrite Hp.
    destruct (n =? 0) eqn:E; [apply Z.eqb_eq in E; lia|]. lia. }
  split; [exact H|]. split; [|split].
  - destruct (leaderboard_window None now s) as (body & Hb & _ & Hl).
    exists body. split; [exact Hb|]. rewrite Hl. unfold leaderboard_limit. simpl. lia.
  - apply (H "1000"%string 1000); [reflexivity|lia].
  - apply (H "5"%string 5); [reflexivity|lia].
Qed.

Lemma leaderboard_window_cap_witness :
  parseInt "2" = Some 2 /\ 0 < 2 /\
  exists body, get_leaderboard (Some "2"%string) 7 three_players = Ok body /\
    Z.of_nat (List.length (lb_data body)) <= Z.min 2 50.
Proof.
  split; [reflexivity|]. split; [lia|].
  apply (proj1 (leaderboard_window_cap 7 three_players) "2"%string 2); [reflexivity|lia].
Defined.

(** C10: when the [limit] parameter parses to 0 the effective limit is the
    default 20, as for every falsy value ([NaN] too): the answer is the one
    given with no parameter, with up to 20 entries and not an empty list. *)
Theorem limit_zero_is_default (str : string) (now : Z) (s : store) :
  parseInt str = Some 0 \/ parseInt str = None ->
  leaderboard_limit (Some str) = 20 /\
  get_leaderboard (Some str) now s = get_leaderboard None now s /\
  exists body, get_leaderboard (Some str) now s = Ok body /\
    Z.of_nat (List.length (lb_data body)) = Z.min 20 (Z.of_nat (List.length s)).
Proof.
  intros Hp.
  assert (Hl : leaderboard_limit (Some str) = 20).
  { unfold leaderboard_limit. destruct Hp as [-> | ->]; reflexivity. }
  split; [exact Hl|]. split.
  - unfold get_leaderboard, leaderboard_players. rewrite Hl. reflexivity.
  - destruct (leaderboard_window (Some str) now s) as (body & Hb & _ & Hn).
    exists body. split; [exact Hb|]. rewrite Hn, Hl. reflexivity.
Qed.

Lemma limit_zero_is_default_witness :
  parseInt "0" = Some 0 /\
  leaderboard_limit (Some "0"%string) = 20 /\
  exists body, get_leaderboard (Some "0"%string) 7 three_players = Ok body /\
    Z.of_nat (List.length (lb_data body)) = Z.min 20 (Z.of_nat (List.length three_players)).
Proof.
  split; [reflexivity|].
  destruct (limit_zero_is_default "0" 7 three_players (or_introl eq_refl)) as (H1 & _ & H3).
  split; [exact H1 | exact H3].
Defined.

(* ===================================================================== *)
(** ** Validation of a score update                                     *)
(* ===================================================================== *)

Lemma number_in_range_checked v :
  number_in_range v -> truthy v = true /\ not_a_level v = false.
Proof.
  intros (l & -> & H1 & H2). now apply level_in_range_checked.
Qed.

(** C2, as the code has it: a score update is answered with status 400 and
    [{success: false, error}] exactly when the user name is falsy (missing,
    [null], empty, [false], 0 or [NaN]) or the level is not a number between 1
    and 1000, whole or not; such an answer leaves the collection as it was. *)
Theorem validation_fails_iff (req : update_request) (now : clock) (s : store) :
  (status (fst (post_update req now s)) = 400 <->
     truthy (req_username req) = false \/ ~ number_in_range (req_level req)) /\
  (status (fst (post_update req now s)) = 400 ->
     exists e, post_update req now s = (BadRequest e, s)).
Proof.
  pose proof (post_update_outcome req now s) as H.
  remember (post_update req now s) as r eqn:Er.
  destruct H as [Hf | Hu Hl Hr | Hu Hn Hl Hr | u l e pic0 Hu Hne Hl H1 H2 Hfind Hpic Hlt
                | u l e pic0 Hu Hne Hl H1 H2 Hfind Hpic Hle | u l s1 Hu Hne Hl H1 H2 Hfind Hc
                | u l Hu Hne Hl H1 H2 Hfind Hc | u l e Hu Hne Hl H1 H2 Hfind Hpic]; simpl.
  - split; [|eauto]. split; [intros _|reflexivity].
    destruct Hf as [Hf | Hf]; [now left | right].
    intros Hin. apply number_in_range_checked in Hin. destruct Hin; congruence.
  - split; [|eauto]. split; [intros _|reflexivity].
    right. intros Hin. apply number_in_range_checked in Hin. destruct Hin; congruence.
  - split; [|discriminate]. split; [discriminate|].
    intros [Hf | Hf]; [congruence|].
    exfalso. apply Hf. now apply level_checked.
  - split; [|discriminate]. split; [discriminate|].
    intros [Hf | Hf].
    + rewrite Hu in Hf. apply truthy_string in Hne. congruence.
    + exfalso. apply Hf. exists l. auto.
  - split; [|discriminate]. split; [discriminate|].
    intros [Hf | Hf].
    + rewrite Hu in Hf. apply truthy_string in Hne. congruence.
    + exfalso. apply Hf. exists l. auto.
  - split; [|discriminate]. split; [discriminate|].
    intros [Hf | Hf].
    + rewrite Hu in Hf. apply truthy_string in Hne. congruence.
    + exfalso. apply Hf. exists l. auto.
  - split; [|discriminate]. split; [discriminate|].
    intros [Hf | Hf].
    + rewrite Hu in Hf. apply truthy_string in Hne. congruence.
    + exfalso. apply Hf. exists l. auto.
  - split; [|discriminate]. split; [discriminate|].
    intros [Hf | Hf].
    + rewrite Hu in Hf. apply truthy_string in Hne. congruence.
    + exfalso. apply Hf. exists l. auto.
Qed.

Lemma validation_fails_iff_witness :
  truthy (req_username missing_name) = false /\
  status (fst (post_update missing_name 3 three_players)) = 400 /\
  exists e, post_update missing_name 3 three_players = (BadRequest e, three_players).
Proof.
  split; [reflexivity|].
  destruct (validation_fails_iff missing_name 3 three_players) as [Hiff Hsame].
  assert (H400 : status (fst (post_update missing_name 3 three_players)) = 400).
  { apply Hiff. left. reflexivity. }
  split; [exact H400 | exact (Hsame H400)].
Defined.

(** C2 fails as stated: the level 2.5 is not an integer, and the update is
    answered with status 200 and creates the document. *)
Lemma fractional_level_accepted :
  Spec.validation_fails bob_two_and_a_half = true /\
  status (fst (post_update bob_two_and_a_half 10 [])) = 200 /\
  snd (post_update bob_two_and_a_half 10 []) = [player "bob" (5 # 2) 10].
Proof.
  repeat split; reflexivity.
Qed.

(* ===================================================================== *)
(** ** Rank                                                             *)
(* ===================================================================== *)


(** The document found under the name of an accepted update, once the
    update is done. *)
Lemma post_update_stored req now s body s' :
  post_update req now s = (Ok body, s') ->
  exists u l p,
    req_username req = JStr u /\ req_level req = JNum (Fin l) /\
    findOne (clean u) s' = Some p /\
    level p = match findOne (clean u) s with
              | Some e => if Qlt_bool (level e) l then l else level e
              | None => l
              end /\
    data_rank (u_data body) = playersAbove (level p) s' + 1 /\
    data_isInTop20 (u_data body) = (data_rank (u_data body) <=? 20) /\
    data_username (u_data body) = clean u.
Proof.
  intros E. pose proof (post_update_inv _ _ _ _ E) as H.
  inversion H as [ | | | u l e pic0 Hu Hne Hl H1 H2 Hfind Hpic Hlt
                 | u l e pic0 Hu Hne Hl H1 H2 Hfind Hpic Hle
                 | u l s1 Hu Hne Hl H1 H2 Hfind Hc | | ];
    subst; clear H.
  - exists u, l, (set_record l pic0 (to_double (num_or (Some (gamesPlayed e)) 0 + 1))
                    (date now) e).
    rewrite Hfind. apply Qlt_bool_iff in Hlt. rewrite Hlt.
    repeat split; try assumption; try reflexivity.
    unfold findOne, updateOne in *.
    now apply lookup_modify_same.
  - exists u, l, (set_play pic0 (to_double (num_or (Some (gamesPlayed e)) 0 + 1))
                    (date now) e).
    rewrite Hfind. apply Qlt_bool_false_iff in Hle. rewrite Hle.
    repeat split; try assumption; try reflexivity.
    unfold findOne, updateOne in *.
    now apply lookup_modify_same.
  - apply create_inv in Hc. destruct Hc as [Hnone ->].
    exists u, l, {| username := trim (clean u); level := l;
                    profilePicture := stored_as (picture_cast (req_profilePicture req));
                    gamesPlayed := 1;
                    lastUpdated := date now; createdAt := timestamp now |}.
    rewrite Hfind.
    repeat split; try assumption; try reflexivity.
    unfold findOne in *. rewrite lookup_app, Hfind. unfold lookup. simpl.
    rewrite String.eqb_refl. reflexivity.
Qed.



(** Bob, at level 20 behind Ann at 30, reaches 25 and is answered rank 2;
    he reaches 30 and is answered rank 1, as Ann is. *)
Example rank_after_record :
  option_map (fun body => data_rank (u_data body))
    (match fst (post_update (submission "bob" 25 NoPicture) 9 three_players) with
     | Ok body => Some body
     | _ => None
     end) = Some 2 /\
  option_map (fun body => data_rank (u_data body))
    (match fst (post_update (submission "bob" 30 NoPicture) 9 three_players) with
     | Ok body => Some body
     | _ => None
     end) = Some 1 /\
  option_map (fun body => p_rank (pb_data body))
    (match get_player "ann" (snd (post_update (submission "bob" 30 NoPicture) 9 three_players))
     with
     | Ok body => Some body
     | _ => None
     end) = Some (Some 1).
Proof. repeat split; reflexivity. Qed.

(* ===================================================================== *)
(** ** Lookup of an unknown player                                      *)
(* ===================================================================== *)

(** C7: the lookup of a player with no document succeeds, with level 0, no
    rank ([null]), the top-20 flag off and 0 games played. *)
Theorem unknown_player_is_success (username0 : string) (s : store) :
  findOne (trim username0) s = None ->
  exists body, get_player username0 s = Ok body /\
    status (get_player username0 s) = 200 /\
    pb_success body = true /\
    p_level (pb_data body) = 0%Q /\
    p_rank (pb_data body) = None /\
    p_isInTop20 (pb_data body) = false /\
    p_gamesPlayed (pb_data body) = 0.
Proof.
  intros H. unfold get_player. rewrite H. eexists. repeat split.
Qed.

Lemma unknown_player_is_success_witness :
  findOne (trim "ghost") three_players = None /\
  exists body, get_player "ghost" three_players = Ok body /\
    status (get_player "ghost" three_players) = 200 /\
    pb_success body = true /\
    p_level (pb_data body) = 0%Q /\
    p_rank (pb_data body) = None /\
    p_isInTop20 (pb_data body) = false /\
    p_gamesPlayed (pb_data body) = 0.
Proof.
  split; [reflexivity|].
  exact (unknown_player_is_success "ghost" three_players eq_refl).
Defined.

(* ===================================================================== *)
(** ** A submission that is not a record                                *)
(* ===================================================================== *)

Lemma num_or_zero (g : Z) : num_or (Some g) 0 = g.
Proof.
  unfold num_or. destruct (g =? 0) eqn:E; [|reflexivity].
  apply Z.eqb_eq in E. now subst.
Qed.

(** A count of games that is added to without rounding. *)
Lemma to_double_exact (x : Z) : Z.abs x <= 2 ^ 53 -> to_double x = x.
Proof.
  intros H. unfold to_double. apply Z.leb_le in H. now rewrite H.
Qed.

Lemma round_half_even_ge (a b : Z) : a / b <= round_half_even a b.
Proof.
  unfold round_half_even. cbv zeta.
  destruct (2 * (a mod b) <? b); [lia|].
  destruct (b <? 2 * (a mod b)); [lia|].
  destruct (Z.even (a / b)); lia.
Qed.

(** A count of at least 1 stays at least 1, rounded or not. *)
Lemma to_double_ge_1 (x : Z) : 1 <= x -> 1 <= to_double x.
Proof.
  intros H. unfold to_double. rewrite (Z.abs_eq x) by lia.
  destruct (x <=? 2 ^ 53) eqn:E; [exact H|]. apply Z.leb_gt in E.
  cbv zeta. rewrite Z.sgn_pos by lia.
  assert (Hlog : 53 <= Z.log2 x) by (apply Z.log2_le_pow2; lia).
  set (u := 2 ^ (Z.log2 x - 52)).
  assert (Hu : 0 < u) by (apply Z.pow_pos_nonneg; lia).
  assert (Hux : u <= x).
  { unfold u. transitivity (2 ^ Z.log2 x).
    - apply Z.pow_le_mono_r; lia.
    - apply Z.log2_spec. lia. }
  pose proof (round_half_even_ge x u) as Hr.
  assert (Hq : 1 <= x / u) by (apply Z.div_le_lower_bound; lia).
  nia.
Qed.

(** The handler on its non-improving path. *)
Lemma post_update_play u l pic now s e :
  u <> ""%string -> (1 <= l)%Q -> (l <= 1000)%Q ->
  findOne (clean u) s = Some e -> (l <= level e)%Q ->
  pic <> Uncastable ->
  let played := to_double (gamesPlayed e + 1) in
  let kept := stored_as (picture_or pic (profilePicture e)) in
  let e1 := set_play kept played (date now) e in
  let s1 := updateOne (clean u) (set_play kept played (date now)) s in
  let currentRank := playersAbove (level e) s1 + 1 in
  post_update (submission u l pic) now s =
    (Ok {| u_success := true; u_newRecord := false;
           u_message := "Score not high enough for new record";
           u_data := NoRecord (clean u) (level e) l currentRank (currentRank <=? 20)
                       played |}, s1) /\
  findOne (clean u) s1 = Some e1.
Proof.
  intros Hne H1 H2 Hf Hle Hpic. simpl. split.
  - unfold post_update. cbn [submission req_username req_level req_profilePicture].
    apply truthy_string in Hne. rewrite Hne.
    destruct (level_in_range_checked l H1 H2) as [Ht Hr]. rewrite Ht, Hr.
    cbn [negb orb]. rewrite Hf.
    destruct (picture_or pic (profilePicture e)) as [pic0|] eqn:Ep;
      [|apply picture_or_castable in Ep; contradiction].
    apply Qlt_bool_false_iff in Hle. rewrite Hle, num_or_zero. reflexivity.
  - unfold findOne, updateOne in *. now apply lookup_modify_same.
Qed.

(** C6: for a player with a document, a valid submission of a level not above
    the stored one is accepted; it keeps [level], keeps [profilePicture]
    unless a truthy picture comes with it (which then replaces it, cast to a
    string), adds exactly 1 to [gamesPlayed] (a count below 2^53, where the
    addition of doubles is exact), sets [lastUpdated] to the time of the
    submission, and answers [newRecord: false] with [currentBest] the stored
    level and [submittedLevel] the submitted one; a second such submission
    again leaves [level] alone, and [profilePicture] too when it brings no
    picture or an empty one. *)
Theorem non_improving_submission (u : string) (l : Q) (pic pic2 : picture)
    (now now2 : clock) (s : store) (e : Player) :
  u <> ""%string -> (1 <= l)%Q -> (l <= 1000)%Q ->
  findOne (clean u) s = Some e -> (l <= level e)%Q ->
  pic <> Uncastable -> pic2 <> Uncastable ->
  0 <= gamesPlayed e -> gamesPlayed e + 2 <= 2 ^ 53 ->
  let s1 := snd (post_update (submission u l pic) now s) in
  let s2 := snd (post_update (submission u l pic2) now2 s1) in
  let kept := match pic with
              | Castable true cast => Some cast
              | _ => profilePicture e
              end in
  (exists body rank top20,
     fst (post_update (submission u l pic) now s) = Ok body /\
     u_success body = true /\ u_newRecord body = false /\
     u_data body = NoRecord (clean u) (level e) l rank top20 (gamesPlayed e + 1)) /\
  (exists e1, findOne (clean u) s1 = Some e1 /\
     level e1 = level e /\
     profilePicture e1 = kept /\
     gamesPlayed e1 = gamesPlayed e + 1 /\
     lastUpdated e1 = date now) /\
  (exists body2 e2,
     fst (post_update (submission u l pic2) now2 s1) = Ok body2 /\
     findOne (clean u) s2 = Some e2 /\
     level e2 = level e /\
     profilePicture e2 = match pic2 with
                         | Castable true cast => Some cast
                         | _ => kept
                         end /\
     gamesPlayed e2 = gamesPlayed e + 2 /\
     lastUpdated e2 = date now2) /\
  (text "" = Castable false ""%string /\
   forall c t, text (String c t) = Castable true (String c t)).
Proof.
  intros Hne H1 H2 Hf Hle Hpic Hpic2 Hg0 Hg s1 s2 kept.
  assert (Hk : stored_as (picture_or pic (profilePicture e)) = kept).
  { unfold kept. destruct pic as [|[|] cast|];
      [reflexivity | reflexivity | reflexivity | contradiction]. }
  assert (Hk2 : stored_as (picture_or pic2 kept) =
                match pic2 with Castable true cast => Some cast | _ => kept end).
  { destruct pic2 as [|[|] cast|];
      [reflexivity | reflexivity | reflexivity | contradiction]. }
  assert (Hd1 : to_double (gamesPlayed e + 1) = gamesPlayed e + 1)
    by (apply to_double_exact; lia).
  assert (Hd2 : to_double (gamesPlayed e + 1 + 1) = gamesPlayed e + 2).
  { rewrite to_double_exact by lia. lia. }
  destruct (post_update_play u l pic now s e Hne H1 H2 Hf Hle Hpic) as [E1 F1].
  rewrite Hd1, Hk in E1, F1.
  assert (Es1 : s1 = updateOne (clean u) (set_play kept (gamesPlayed e + 1) (date now)) s).
  { unfold s1. now rewrite E1. }
  rewrite <- Es1 in F1.
  destruct (post_update_play u l pic2 now2 s1 _ Hne H1 H2 F1 Hle Hpic2) as [E2 F2].
  cbn [level profilePicture gamesPlayed set_play] in E2, F2.
  rewrite Hd2, Hk2 in E2, F2.
  split; [|split; [|split]].
  - rewrite E1. do 3 eexists. cbn [fst]. repeat split.
  - eexists. split; [exact F1|]. repeat split.
  - do 2 eexists. split; [rewrite E2; reflexivity|].
    split; [unfold s2; rewrite E2; exact F2|].
    cbn [level profilePicture gamesPlayed lastUpdated set_play].
    repeat split.
  - split; [reflexivity|]. intros c t. reflexivity.
Qed.

Lemma non_improving_submission_witness :
  "bob"%string <> ""%string /\ (1 <= 15)%Q /\ (15 <= 1000)%Q /\
  findOne (clean "bob") three_players = Some (player "bob" 20 2) /\
  (15 <= level (player "bob" 20 2))%Q /\
  text "pic.png" <> Uncastable /\ NoPicture <> Uncastable /\
  0 <= gamesPlayed (player "bob" 20 2) /\ gamesPlayed (player "bob" 20 2) + 2 <= 2 ^ 53 /\
  exists body2 e2,
    fst (post_update (submission "bob" 15 NoPicture) 9
           (snd (post_update (submission "bob" 15 (text "pic.png")) 8 three_players)))
      = Ok body2 /\
    findOne (clean "bob")
      (snd (post_update (submission "bob" 15 NoPicture) 9
         (snd (post_update (submission "bob" 15 (text "pic.png")) 8 three_players))))
      = Some e2 /\
    level e2 = 20%Q /\ profilePicture e2 = Some "pic.png"%string /\
    gamesPlayed e2 = 3 /\ lastUpdated e2 = 9.
Proof.
  assert (H0 : "bob"%string <> ""%string) by discriminate.
  assert (H1 : (1 <= 15)%Q) by (unfold Qle; simpl; lia).
  assert (H2 : (15 <= 1000)%Q) by (unfold Qle; simpl; lia).
  assert (H3 : (15 <= level (player "bob" 20 2))%Q) by (unfold Qle; simpl; lia).
  assert (H4 : text "pic.png" <> Uncastable) by discriminate.
  assert (H5 : NoPicture <> Uncastable) by discriminate.
  assert (H6 : 0 <= gamesPlayed (player "bob" 20 2)) by (simpl; lia).
  assert (H7 : gamesPlayed (player "bob" 20 2) + 2 <= 2 ^ 53) by (simpl; lia).
  repeat (split; [assumption || reflexivity|]).
  exact (proj1 (proj2 (proj2
           (non_improving_submission "bob" 15 (text "pic.png") NoPicture 8 9 three_players
              (player "bob" 20 2) H0 H1 H2 eq_refl H3 H4 H5 H6 H7)))).
Defined.

(** Past 2^53 the count of games stays where it is: adding 1 to the double
    2^53 gives 2^53. *)
Example games_played_past_2_53 :
  let e := {| username := "bob"; level := 20; profilePicture := None;
              gamesPlayed := 2 ^ 53; lastUpdated := 2; createdAt := 2 |} in
  option_map gamesPlayed
    (findOne "bob" (snd (post_update (submission "bob" 15 NoPicture) 9 [e])))
  = Some (2 ^ 53).
Proof. reflexivity. Qed.

(* ===================================================================== *)
(** ** The stored level over a sequence of submissions                  *)
(* ===================================================================== *)

Section Levels.

Variable k : string.

(** A request that is refused leaves the collection as it was. *)
Lemma post_update_refused req now s :
  (forall body, fst (post_update req now s) <> Ok body) ->
  snd (post_update req now s) = s.
Proof.
  intros Hno. pose proof (post_update_outcome req now s) as H.
  remember (post_update req now s) as r eqn:Er.
  destruct H; try reflexivity; exfalso; eapply Hno; reflexivity.
Qed.

(** A request for another player leaves the document of [k]. *)
Lemma post_update_other req now s :
  (forall u, req_username req = JStr u -> trim (clean u) <> k) ->
  lookup k (snd (post_update req now s)) = lookup k s.
Proof.
  intros Hk. pose proof (post_update_outcome req now s) as H.
  remember (post_update req now s) as r eqn:Er.
  destruct H as [ | | | u l e pic0 Hu Hne Hl H1 H2 Hfind Hpic Hlt
                | u l e pic0 Hu Hne Hl H1 H2 Hfind Hpic Hle
                | u l s1 Hu Hne Hl H1 H2 Hfind Hc | | ];
    try reflexivity; cbn [snd].
  - apply lookup_modify_other; [apply username_set_record|].
    intros E. exact (Hk u Hu (eq_sym E)).
  - apply lookup_modify_other; [apply username_set_play|].
    intros E. exact (Hk u Hu (eq_sym E)).
  - apply create_inv in Hc. destruct Hc as [Hnone ->].
    rewrite lookup_app. destruct (lookup k s); [reflexivity|].
    unfold lookup. simpl.
    destruct (trim (clean u) =? k)%string eqn:E; [|reflexivity].
    apply String.eqb_eq in E. exfalso. exact (Hk u Hu E).
Qed.

(** The effect of one request on the level stored for [k]. *)
Lemma serve_one req now s :
  match submitted_level k req now s with
  | Some l =>
      exists p', lookup k (snd (post_update req now s)) = Some p' /\
        level p' = match lookup k s with
                   | Some p => if Qlt_bool (level p) l then l else level p
                   | None => l
                   end
  | None => lookup k (snd (post_update req now s)) = lookup k s
  end.
Proof.
  unfold submitted_level.
  destruct (fst (post_update req now s)) as [body| |] eqn:Ef.
  - destruct (post_update req now s) as [r s'] eqn:E. cbn [fst] in Ef. subst r.
    destruct (post_update_stored _ _ _ _ _ E) as (u & l & p & Hu & Hl & Hf & Hp & _).
    rewrite Hu, Hl. cbn [snd].
    destruct (trim (clean u) =? k)%string eqn:Ek.
    + apply String.eqb_eq in Ek. unfold findOne in *. rewrite Ek in *.
      exists p. split; assumption.
    + apply String.eqb_neq in Ek.
      replace s' with (snd (post_update req now s)) by now rewrite E.
      apply post_update_other. intros u' Hu'. congruence.
  - rewrite post_update_refused; [reflexivity|]. intros body. rewrite Ef. discriminate.
  - rewrite post_update_refused; [reflexivity|]. intros body. rewrite Ef. discriminate.
Qed.

(** The accepted requests for [k] are the valid ones. *)
Lemma submitted_level_valid :
  k <> ""%string ->
  forall req now s, submitted_level k req now s = valid_level k req.
Proof.
  intros Hk req now s. unfold submitted_level, valid_level.
  destruct (fst (post_update req now s)) as [body| |] eqn:Ef.
  - destruct (post_update req now s) as [r s'] eqn:E. cbn [fst] in Ef. subst r.
    destruct (post_update_accepted _ _ _ _ _ E)
      as (u & l & -> & _ & -> & H1 & H2 & Hpic & _).
    destruct (trim (clean u) =? k)%string; [|reflexivity].
    apply Qle_bool_iff in H1. apply Qle_bool_iff in H2. rewrite H1, H2.
    destruct (req_profilePicture req); [reflexivity | reflexivity | contradiction].
  - destruct (req_username req) as [| |b|x|u|] eqn:Eu; try reflexivity.
    destruct (req_level req) as [| |b|[l| | |]|str|] eqn:El; try reflexivity.
    destruct ((trim (clean u) =? k)%string && Qle_bool 1 l && Qle_bool l 1000
              && castable (req_profilePicture req)) eqn:Ev; [|reflexivity].
    apply andb_true_iff in Ev. destruct Ev as [Ev Hc].
    apply andb_true_iff in Ev. destruct Ev as [Ev H2].
    apply andb_true_iff in Ev. destruct Ev as [Ek H1].
    apply String.eqb_eq in Ek. apply Qle_bool_iff in H1. apply Qle_bool_iff in H2.
    assert (Hne : trim u <> ""%string).
    { intros Hw. apply Hk. rewrite <- Ek. exact (proj2 (trim_clean_empty u) Hw). }
    assert (Hpic : req_profilePicture req <> Uncastable).
    { intros Hp. rewrite Hp in Hc. discriminate. }
    destruct (post_update_accepts req now s u l Eu Hne El H1 H2 Hpic) as [body Hb].
    congruence.
  - destruct (req_username req) as [| |b|x|u|] eqn:Eu; try reflexivity.
    destruct (req_level req) as [| |b|[l| | |]|str|] eqn:El; try reflexivity.
    destruct ((trim (clean u) =? k)%string && Qle_bool 1 l && Qle_bool l 1000
              && castable (req_profilePicture req)) eqn:Ev; [|reflexivity].
    apply andb_true_iff in Ev. destruct Ev as [Ev Hc].
    apply andb_true_iff in Ev. destruct Ev as [Ev H2].
    apply andb_true_iff in Ev. destruct Ev as [Ek H1].
    apply String.eqb_eq in Ek. apply Qle_bool_iff in H1. apply Qle_bool_iff in H2.
    assert (Hne : trim u <> ""%string).
    { intros Hw. apply Hk. rewrite <- Ek. exact (proj2 (trim_clean_empty u) Hw). }
    assert (Hpic : req_profilePicture req <> Uncastable).
    { intros Hp. rewrite Hp in Hc. discriminate. }
    destruct (post_update_accepts req now s u l Eu Hne El H1 H2 Hpic) as [body Hb].
    congruence.
Qed.

Lemma submitted_valid_levels :
  k <> ""%string ->
  forall reqs s, submitted k reqs s = valid_levels k reqs.
Proof.
  intros Hk reqs. induction reqs as [|[req now] rest IH]; intros s; [reflexivity|].
  cbn [submitted valid_levels]. rewrite (submitted_level_valid Hk), IH. reflexivity.
Qed.

(** The level stored for [k] once the requests are served, whatever was
    stored before. *)
Lemma serve_level reqs : forall s,
  match lookup k s with
  | Some p0 =>
      exists p, lookup k (serve reqs s) = Some p /\
        is_max (level p) (level p0 :: submitted k reqs s)
  | None =>
      match lookup k (serve reqs s) with
      | Some p => is_max (level p) (submitted k reqs s)
      | None => submitted k reqs s = []
      end
  end.
Proof.
  induction reqs as [|[req now] rest IH]; intros s.
  - simpl. destruct (lookup k s) as [p0|]; [|reflexivity].
    exists p0. split; [reflexivity|]. split; [now left|].
    intros x [<- | []]. apply Qle_refl.
  - cbn [serve submitted].
    pose proof (serve_one req now s) as H1.
    specialize (IH (snd (post_update req now s))).
    destruct (submitted_level k req now s) as [l|].
    + destruct H1 as (p' & Hp' & Hl'). rewrite Hp' in IH.
      destruct IH as (p & Hp & Hin & Hmax).
      destruct (lookup k s) as [p0|].
      * exists p. split; [exact Hp|]. split.
        -- destruct Hin as [Hin | Hin]; [|now right; right].
           rewrite <- Hin, Hl'.
           destruct (Qlt_bool (level p0) l); [right; now left | now left].
        -- assert (Hp'max : (level p' <= level p)%Q) by (apply Hmax; now left).
           intros x [<- | [<- | Hx]].
           ++ apply Qle_trans with (level p'); [|exact Hp'max].
              rewrite Hl'. destruct (Qlt_bool (level p0) l) eqn:E; [|apply Qle_refl].
              apply Qlt_bool_iff in E. now apply Qlt_le_weak.
           ++ apply Qle_trans with (level p'); [|exact Hp'max].
              rewrite Hl'. destruct (Qlt_bool (level p0) l) eqn:E; [apply Qle_refl|].
              now apply Qlt_bool_false_iff in E.
           ++ apply Hmax. now right.
      * rewrite Hp. rewrite Hl' in *. split; [exact Hin | exact Hmax].
    + rewrite H1 in IH. exact IH.
Qed.

(** One request never lowers the level stored for [k]. *)
Lemma post_update_never_lowers req now s p :
  lookup k s = Some p ->
  exists p', lookup k (snd (post_update req now s)) = Some p' /\ (level p <= level p')%Q.
Proof.
  intros Hp. pose proof (serve_one req now s) as H.
  destruct (submitted_level k req now s) as [l|].
  - destruct H as (p' & Hp' & Hl'). exists p'. split; [exact Hp'|].
    rewrite Hl', Hp. destruct (Qlt_bool (level p) l) eqn:E; [|apply Qle_refl].
    apply Qlt_bool_iff in E. now apply Qlt_le_weak.
  - exists p. split; [congruence | apply Qle_refl].
Qed.

End Levels.

(** C3: for every player name and every sequence of score updates served one
    after the other from a collection without that player, every valid update
    for that name is answered with status 200, and the level stored after
    each update is the maximum of the levels submitted so far for that name
    by the valid updates (there is no document while there was none); and no
    update lowers a stored level. *)
Theorem stored_level_is_max (k : string) (reqs : list (update_request * clock))
    (s : store) (n : nat) :
  k <> ""%string -> lookup k s = None ->
  (forall req now s0 l, valid_level k req = Some l ->
     exists body, fst (post_update req now s0) = Ok body) /\
  (valid_levels k (firstn n reqs) = [] ->
     lookup k (serve (firstn n reqs) s) = None) /\
  (forall l ls, valid_levels k (firstn n reqs) = l :: ls ->
     exists p, lookup k (serve (firstn n reqs) s) = Some p /\
       is_max (level p) (l :: ls)) /\
  (forall req now s0 p, lookup k s0 = Some p ->
     exists p', lookup k (snd (post_update req now s0)) = Some p' /\
       (level p <= level p')%Q).
Proof.
  intros Hk Hnone.
  pose proof (serve_level k (firstn n reqs) s) as H.
  rewrite Hnone, (submitted_valid_levels k Hk) in H.
  split; [|split; [|split]].
  - intros req now s0 l Hv.
    pose proof (submitted_level_valid k Hk req now s0) as E. rewrite Hv in E.
    unfold submitted_level in E.
    destruct (fst (post_update req now s0)) as [body| |]; [now exists body | |];
      discriminate.
  - intros E. rewrite E in H.
    destruct (lookup k (serve (firstn n reqs) s)) as [p|]; [|reflexivity].
    destruct H as [[] _].
  - intros l ls E. rewrite E in H.
    destruct (lookup k (serve (firstn n reqs) s)) as [p|]; [|discriminate].
    now exists p.
  - intros req now s0 p. apply post_update_never_lowers.
Qed.

(** After 5, then 3, then 9, the stored level is 5, then 5, then 9. *)
Lemma stored_level_is_max_witness :
  "bob"%string <> ""%string /\ lookup "bob" [] = None /\
  (exists body, fst (post_update (submission "bob" 3 NoPicture) 2
                       (serve (firstn 1 five_three_nine) [])) = Ok body) /\
  (exists p, lookup "bob" (serve (firstn 1 five_three_nine) []) = Some p /\
     is_max (level p) [5%Q] /\ level p = 5%Q) /\
  (exists p, lookup "bob" (serve (firstn 2 five_three_nine) []) = Some p /\
     is_max (level p) [5%Q; 3%Q] /\ level p = 5%Q) /\
  (exists p, lookup "bob" (serve (firstn 3 five_three_nine) []) = Some p /\
     is_max (level p) [5%Q; 3%Q; 9%Q] /\ level p = 9%Q).
Proof.
  assert (H0 : "bob"%string <> ""%string) by discriminate.
  assert (H1 : lookup "bob" [] = None) by reflexivity.
  split; [exact H0|]. split; [exact H1|]. split; [|split; [|split]].
  - exact (proj1 (stored_level_is_max "bob" five_three_nine [] 1 H0 H1)
             (submission "bob" 3 NoPicture) (tick 2) _ 3%Q eq_refl).
  - destruct (proj1 (proj2 (proj2 (stored_level_is_max "bob" five_three_nine [] 1 H0 H1)))
                _ _ eq_refl) as (p & Hp & Hmax).
    exists p. split; [exact Hp|]. split; [exact Hmax|].
    vm_compute in Hp. injection Hp as <-. reflexivity.
  - destruct (proj1 (proj2 (proj2 (stored_level_is_max "bob" five_three_nine [] 2 H0 H1)))
                _ _ eq_refl) as (p & Hp & Hmax).
    exists p. split; [exact Hp|]. split; [exact Hmax|].
    vm_compute in Hp. injection Hp as <-. reflexivity.
  - destruct (proj1 (proj2 (proj2 (stored_level_is_max "bob" five_three_nine [] 3 H0 H1)))
                _ _ eq_refl) as (p & Hp & Hmax).
    exists p. split; [exact Hp|]. split; [exact Hmax|].
    vm_compute in Hp. injection Hp as <-. reflexivity.
Defined.

(* ===================================================================== *)
(** ** Sorting                                                          *)
(* ===================================================================== *)

Section Sorting.

Variable before : Player -> Player -> bool.

(** [a] may stand in front of [b]: [b] does not come strictly before [a]. *)
Let ok (a b : Player) : Prop := before b a = false.

Hypothesis before_asym : forall a b, before a b = true -> before b a = false.
Hypothesis ok_trans : forall a b c, ok a b -> ok b c -> ok a c.

Lemma insert_perm x l : Permutation (insert before x l) (x :: l).
Proof.
  induction l as [|y t IH]; simpl; [reflexivity|].
  destruct (before y x); [|reflexivity].
  rewrite IH. apply perm_swap.
Qed.

Lemma sort_perm l : Permutation (sort before l) l.
Proof.
  induction l as [|x t IH]; simpl; [reflexivity|].
  rewrite insert_perm. now constructor.
Qed.

Lemma insert_sorted x l :
  StronglySorted ok l -> StronglySorted ok (insert before x l).
Proof.
  induction l as [|y t IH]; intros Hs; simpl.
  - constructor; [constructor | constructor].
  - apply StronglySorted_inv in Hs. destruct Hs as [Ht Hy].
    destruct (before y x) eqn:E.
    + constructor; [now apply IH|].
      apply Forall_forall. intros z Hz.
      apply (Permutation_in _ (insert_perm x t)) in Hz.
      destruct Hz as [<- | Hz].
      * unfold ok. now apply before_asym.
      * rewrite Forall_forall in Hy. now apply Hy.
    + constructor; [now constructor|].
      constructor; [exact E|].
      apply Forall_forall. intros z Hz. rewrite Forall_forall in Hy.
      apply ok_trans with y; [exact E | now apply Hy].
Qed.

Lemma sort_sorted l : StronglySorted ok (sort before l).
Proof.
  induction l as [|x t IH]; simpl; [constructor | now apply insert_sorted].
Qed.

End Sorting.

Lemma StronglySorted_firstn {A : Type} (R : A -> A -> Prop) n l :
  StronglySorted R l -> StronglySorted R (firstn n l).
Proof.
  revert l. induction n as [|n IH]; intros l Hs; simpl; [constructor|].
  destruct l as [|x t]; [constructor|].
  apply StronglySorted_inv in Hs. destruct Hs as [Ht Hx].
  constructor; [now apply IH|].
  apply Forall_forall. intros z Hz. rewrite Forall_forall in Hx.
  apply Hx. revert Hz. clear. revert t.
  induction n as [|n IH]; intros t; simpl; [intros []|].
  destruct t as [|y t]; [intros []|]. intros [-> | Hz]; [now left | right; now apply IH].
Qed.

Lemma by_level_lastUpdated_ok a b :
  by_level_desc_lastUpdated_asc b a = false <-> not_behind a b.
Proof.
  unfold by_level_desc_lastUpdated_asc, not_behind.
  rewrite orb_false_iff, andb_false_iff, Qlt_bool_false_iff.
  split.
  - intros [Hle [Hne | Hlu]]; split; try exact Hle.
    + intros Heq. apply Qeq_bool_neq in Hne. exfalso. apply Hne. now symmetry.
    + intros _. apply Z.ltb_ge in Hlu. exact Hlu.
  - intros [Hle Hlu]. split; [exact Hle|].
    destruct (Qeq_bool (level b) (level a)) eqn:E; [right | now left].
    apply Qeq_bool_iff in E. apply Z.ltb_ge. apply Hlu. now symmetry.
Qed.

Lemma not_behind_trans a b c : not_behind a b -> not_behind b c -> not_behind a c.
Proof.
  intros [H1 L1] [H2 L2]. split.
  - now apply Qle_trans with (level b).
  - intros Heq.
    assert (Hab : (level a == level b)%Q).
    { apply Qle_antisym; [|exact H1]. rewrite Heq. exact H2. }
    assert (Hbc : (level b == level c)%Q) by (rewrite <- Hab; exact Heq).
    specialize (L1 Hab). specialize (L2 Hbc). lia.
Qed.

Lemma by_level_lastUpdated_asym a b :
  by_level_desc_lastUpdated_asc a b = true -> by_level_desc_lastUpdated_asc b a = false.
Proof.
  unfold by_level_desc_lastUpdated_asc.
  rewrite orb_true_iff, andb_true_iff, orb_false_iff, andb_false_iff.
  rewrite Qlt_bool_iff, Qlt_bool_false_iff.
  intros [Hlt | [Heq Hlu]].
  - split; [now apply Qlt_le_weak|].
    left. destruct (Qeq_bool (level b) (level a)) eqn:E; [|reflexivity].
    apply Qeq_bool_iff in E. rewrite E in Hlt. exfalso. exact (Qlt_irrefl _ Hlt).
  - apply Qeq_bool_iff in Heq. apply Z.ltb_lt in Hlu. split.
    + rewrite Heq. apply Qle_refl.
    + right. apply Z.ltb_ge. lia.
Qed.

(** The collection sorted for the leaderboard. *)
Lemma leaderboard_sort_sorted s :
  StronglySorted not_behind (sort by_level_desc_lastUpdated_asc s).
Proof.
  eapply StronglySorted_ind with (P := fun l => StronglySorted not_behind l);
    [constructor | | apply (sort_sorted by_level_desc_lastUpdated_asc)].
  - intros a l _ IH Hall. constructor; [exact IH|].
    eapply Forall_impl; [|exact Hall]. intros z Hz. now apply by_level_lastUpdated_ok.
  - apply by_level_lastUpdated_asym.
  - intros a b c Hab Hbc. apply by_level_lastUpdated_ok.
    apply not_behind_trans with b; now apply by_level_lastUpdated_ok.
Qed.

(** The documents fetched for the leaderboard, in their order. *)
Lemma leaderboard_players_sorted q s :
  StronglySorted not_behind (leaderboard_players q s).
Proof.
  unfold leaderboard_players, limit.
  pose proof (leaderboard_sort_sorted s) as H.
  destruct (leaderboard_limit q =? 0); [exact H | now apply StronglySorted_firstn].
Qed.

(* ===================================================================== *)
(** ** The top player of the statistics                                 *)
(* ===================================================================== *)

Section TopPlayer.

Lemma StronglySorted_weaken {A : Type} (R R' : A -> A -> Prop) l :
  (forall a b, R a b -> R' a b) -> StronglySorted R l -> StronglySorted R' l.
Proof.
  intros HR. induction 1 as [|a l _ IH Hall]; constructor; [exact IH|].
  eapply Forall_impl; [|exact Hall]. intros b. apply HR.
Qed.

(** The stable sort leaves a sorted list as it is. *)
Lemma sort_sorted_same before l :
  StronglySorted (fun a b => before b a = false) l -> sort before l = l.
Proof.
  induction l as [|x t IH]; intros Hs; [reflexivity|].
  apply StronglySorted_inv in Hs. destruct Hs as [Ht Hx].
  cbn [sort]. rewrite (IH Ht).
  destruct t as [|y t']; [reflexivity|].
  apply Forall_inv in Hx. cbn [insert]. now rewrite Hx.
Qed.

Lemma not_behind_refl a : not_behind a a.
Proof. split; [apply Qle_refl | intros _; lia]. Qed.

(** The query of the statistics takes the first document of the index. *)
Lemma findOne_sort_level_index (s : store) :
  findOne_sort_level s = hd_error (sort by_level_desc_lastUpdated_asc s).
Proof.
  unfold findOne_sort_level, index_order. rewrite sort_sorted_same; [reflexivity|].
  apply (StronglySorted_weaken not_behind); [|apply leaderboard_sort_sorted].
  intros a b [Hle _]. unfold by_level_desc. now apply Qlt_bool_false_iff.
Qed.

(** It is a document that no document of the collection is ahead of. *)
Lemma findOne_sort_level_first (s : store) :
  match findOne_sort_level s with
  | Some p => In p s /\ forall q, In q s -> not_behind p q
  | None => s = []
  end.
Proof.
  rewrite findOne_sort_level_index.
  pose proof (leaderboard_sort_sorted s) as Hs.
  pose proof (sort_perm by_level_desc_lastUpdated_asc s) as Hp.
  destruct (sort by_level_desc_lastUpdated_asc s) as [|p t]; cbn [hd_error].
  - apply Permutation_nil. exact Hp.
  - apply StronglySorted_inv in Hs. destruct Hs as [_ Hall].
    split; [apply (Permutation_in _ Hp); now left|].
    intros q Hq. apply (Permutation_in _ (Permutation_sym Hp)) in Hq.
    destruct Hq as [<- | Hq]; [apply not_behind_refl|].
    rewrite Forall_forall in Hall. now apply Hall.
Qed.

(** It is a document of the highest level, whenever there is a document. *)
Lemma findOne_sort_level_highest (s : store) :
  match findOne_sort_level s with
  | Some p => In p s /\ forall q, In q s -> (level q <= level p)%Q
  | None => s = []
  end.
Proof.
  pose proof (findOne_sort_level_first s) as H.
  destruct (findOne_sort_level s) as [p|]; [|exact H].
  destruct H as [Hin Hall]. split; [exact Hin|].
  intros q Hq. exact (proj1 (Hall q Hq)).
Qed.

(** The first document of the leaderboard, whatever the limit. *)
Lemma leaderboard_players_first q s p t :
  sort by_level_desc_lastUpdated_asc s = p :: t ->
  exists rest, leaderboard_players q s = p :: rest.
Proof.
  intros E. unfold leaderboard_players, limit. rewrite E.
  pose proof (leaderboard_limit_nonzero q) as Hn.
  destruct (leaderboard_limit q =? 0) eqn:E0; [now exists t|].
  destruct (Z.to_nat (Z.abs (leaderboard_limit q))) as [|m] eqn:Em; [lia|].
  now exists (firstn m t).
Qed.

End TopPlayer.

(** C5: for every non-empty collection, the top player of the statistics
    ([topPlayer] and [highestLevel]) is the first document in the order of the
    leaderboard, level descending and then [lastUpdated] ascending: no
    document has a higher level, among the documents of that level none was
    updated earlier, and it is the first entry of the leaderboard for every
    limit. *)
Theorem stats_top_player_is_leaderboard_first (s : store) :
  s <> [] ->
  exists body p,
    get_stats s = Ok body /\ In p s /\
    topPlayer (sb_data body) = Some (username p) /\
    highestLevel (sb_data body) = level p /\
    (forall x, In x s -> (level x <= level p)%Q) /\
    (forall x, In x s -> (level x == level p)%Q -> lastUpdated p <= lastUpdated x) /\
    (forall q now, exists board rest,
       get_leaderboard q now s = Ok board /\
       lb_data board = leaderboard_entry p 0 :: rest).
Proof.
  intros Hne.
  pose proof (findOne_sort_level_first s) as H.
  pose proof (findOne_sort_level_index s) as Hi.
  unfold get_stats.
  destruct (findOne_sort_level s) as [p|]; [|contradiction].
  destruct H as [Hin Hall].
  eexists. exists p. split; [reflexivity|]. cbn [sb_data topPlayer highestLevel].
  split; [exact Hin|]. split; [reflexivity|]. split; [reflexivity|].
  split; [|split].
  - intros x Hx. exact (proj1 (Hall x Hx)).
  - intros x Hx Heq. apply (proj2 (Hall x Hx)). now symmetry.
  - intros q now.
    destruct (sort by_level_desc_lastUpdated_asc s) as [|p' t] eqn:E; [discriminate|].
    cbn [hd_error] in Hi. injection Hi as <-.
    destruct (leaderboard_players_first q s p t E) as [rest Hrest].
    unfold get_leaderboard. rewrite Hrest.
    eexists. eexists. split; [reflexivity|]. reflexivity.
Qed.

(** Ann and Bob are tied at level 10 and Bob was updated earlier: the
    statistics name Bob, who is first on the leaderboard. *)
Lemma stats_top_player_is_leaderboard_first_witness :
  tied_store <> [] /\
  map (fun p => (username p, level p, lastUpdated p)) tied_store =
    [("ann"%string, 10%Q, 3); ("bob"%string, 10%Q, 2)] /\
  exists body p,
    get_stats tied_store = Ok body /\
    topPlayer (sb_data body) = Some (username p) /\
    highestLevel (sb_data body) = level p /\
    username p = "bob"%string /\ level p = 10%Q /\
    exists board rest,
      get_leaderboard None 4 tied_store = Ok board /\
      lb_data board = leaderboard_entry p 0 :: rest.
Proof.
  assert (H0 : tied_store <> []) by (vm_compute; discriminate).
  split; [exact H0|]. split; [reflexivity|].
  destruct (stats_top_player_is_leaderboard_first tied_store H0)
    as (body & p & Hb & _ & Ht & Hh & _ & _ & Hboard).
  exists body, p. split; [exact Hb|]. split; [exact Ht|]. split; [exact Hh|].
  assert (Et : match get_stats tied_store with
               | Ok b => topPlayer (sb_data b)
               | _ => None
               end = Some "bob"%string) by reflexivity.
  assert (Eh : match get_stats tied_store with
               | Ok b => highestLevel (sb_data b)
               | _ => 0%Q
               end = 10%Q) by reflexivity.
  rewrite Hb in Et, Eh. rewrite Ht in Et. rewrite Hh in Eh. injection Et as Et.
  split; [exact Et|]. split; [exact Eh|].
  exact (Hboard None 4).
Defined.

(* ===================================================================== *)
(** ** Two updates of one player at the same time                       *)
(* ===================================================================== *)

(** C9, on the code: the handler reads the document, decides, and writes what
    it computed from that reading.  When two requests for Alice (stored at
    level 1 after one game) read before either writes, both are answered as
    records, the write of level 5 lands on the write of level 9, and one
    game is lost: the collection ends with level 5 and 2 games, where serving
    the requests one after the other ends with level 9 and 3 games. *)
Theorem concurrent_updates_lose_one :
  (exists b1 b2 p,
     Concurrent.run both_read_first two_requests alice_store =
       ([Concurrent.Done (Ok b1); Concurrent.Done (Ok b2)], [p]) /\
     u_newRecord b1 = true /\ u_newRecord b2 = true /\
     username p = "alice"%string /\ level p = 5%Q /\ gamesPlayed p = 2) /\
  (exists p,
     serve [(submission "alice" 9 NoPicture, tick 10); (submission "alice" 5 NoPicture, tick 11)] alice_store
       = [p] /\ level p = 9%Q /\ gamesPlayed p = 3) /\
  (exists p,
     serve [(submission "alice" 5 NoPicture, tick 10); (submission "alice" 9 NoPicture, tick 11)] alice_store
       = [p] /\ level p = 9%Q /\ gamesPlayed p = 3).
Proof.
  split; [|split].
  - do 3 eexists. split; [reflexivity|]. repeat split.
  - eexists. split; [reflexivity|]. split; reflexivity.
  - eexists. split; [reflexivity|]. split; reflexivity.
Qed.

(** For a player with no document yet, both requests find nothing and both
    create: the unique index refuses the second, which is answered with status
    500, and the collection keeps the level of the first with 1 game. *)
Example concurrent_creates_lose_one :
  exists b1 p,
    Concurrent.run both_read_first two_requests [] =
      ([Concurrent.Done (Ok b1); Concurrent.Done failed_update], [p]) /\
    level p = 9%Q /\ gamesPlayed p = 1.
Proof.
  do 2 eexists. split; [reflexivity|]. split; reflexivity.
Qed.

(* ===================================================================== *)
(** * Further properties of the handlers                                *)
(* ===================================================================== *)

(* ===================================================================== *)
(** ** The entries of the leaderboard                                   *)
(* ===================================================================== *)

Section Entries.

Lemma nth_error_map_index {A B : Type} (f : A -> Z -> B) l : forall k i e,
  nth_error (map_index f k l) i = Some e ->
  exists x, nth_error l i = Some x /\ e = f x (k + Z.of_nat i).
Proof.
  induction l as [|x t IH]; intros k i e; simpl.
  - destruct i; discriminate.
  - destruct i as [|i]; simpl.
    + intros H. injection H as <-. exists x. split; [reflexivity|].
      f_equal. lia.
    + intros H. destruct (IH _ _ _ H) as (y & Hy & ->).
      exists y. split; [exact Hy|]. f_equal. lia.
Qed.

Lemma in_map_index {A B : Type} (f : A -> Z -> B) l k e :
  In e (map_index f k l) -> exists x i, In x l /\ e = f x i.
Proof.
  revert k. induction l as [|x t IH]; intros k; simpl; [intros []|].
  intros [<- | H].
  - exists x, k. split; [now left | reflexivity].
  - destruct (IH _ H) as (y & i & Hy & ->). exists y, i. split; [now right | reflexivity].
Qed.

Lemma map_index_sorted l : forall k,
  StronglySorted not_behind l ->
  StronglySorted entry_not_behind (map_index leaderboard_entry k l).
Proof.
  induction l as [|x t IH]; intros k Hs; simpl; [constructor|].
  apply StronglySorted_inv in Hs. destruct Hs as [Ht Hx].
  constructor; [now apply IH|].
  apply Forall_forall. intros e He.
  destruct (in_map_index _ _ _ _ He) as (y & i & Hy & ->).
  rewrite Forall_forall in Hx. exact (Hx y Hy).
Qed.

Lemma sorted_app_cross {A : Type} (R : A -> A -> Prop) l1 l2 :
  StronglySorted R (l1 ++ l2) -> forall a b, In a l1 -> In b l2 -> R a b.
Proof.
  induction l1 as [|x t IH]; simpl; intros Hs a b Ha Hb; [destruct Ha|].
  apply StronglySorted_inv in Hs. destruct Hs as [Ht Hx].
  destruct Ha as [<- | Ha].
  - rewrite Forall_forall in Hx. apply Hx. apply in_or_app. now right.
  - now apply IH.
Qed.

Lemma filter_length_perm {A : Type} (f : A -> bool) l l' :
  Permutation l l' -> List.length (filter f l) = List.length (filter f l').
Proof.
  induction 1 as [|x l l' _ IH|x y l|l l' l'' _ IH1 _ IH2]; simpl.
  - reflexivity.
  - destruct (f x); simpl; now rewrite IH.
  - destruct (f x), (f y); reflexivity.
  - now rewrite IH1.
Qed.

Lemma playersAbove_perm l s s' :
  Permutation s s' -> playersAbove l s = playersAbove l s'.
Proof.
  intros H. unfold playersAbove, countDocuments. f_equal. now apply filter_length_perm.
Qed.

Lemma playersAbove_app l s t :
  playersAbove l (s ++ t) = playersAbove l s + playersAbove l t.
Proof.
  unfold playersAbove, countDocuments. rewrite filter_app, length_app. lia.
Qed.

Lemma playersAbove_le_length l s : 0 <= playersAbove l s <= Z.of_nat (List.length s).
Proof.
  unfold playersAbove, countDocuments. split; [lia|].
  apply Nat2Z.inj_le. induction s as [|x t IH]; simpl; [lia|].
  destruct (Qlt_bool l (level x)); simpl; lia.
Qed.

Lemma playersAbove_none l s :
  (forall p, In p s -> (level p <= l)%Q) -> playersAbove l s = 0.
Proof.
  intros H. unfold playersAbove, countDocuments.
  induction s as [|x t IH]; simpl; [reflexivity|].
  assert (E : Qlt_bool l (level x) = false).
  { apply Qlt_bool_false_iff. apply H. now left. }
  rewrite E. apply IH. intros p Hp. apply H. now right.
Qed.

(** The window is a prefix of the sorted collection. *)
Lemma leaderboard_players_prefix q s :
  exists rest,
    sort by_level_desc_lastUpdated_asc s = leaderboard_players q s ++ rest /\
    StronglySorted not_behind (leaderboard_players q s ++ rest).
Proof.
  pose proof (leaderboard_sort_sorted s) as H.
  unfold leaderboard_players, limit.
  destruct (leaderboard_limit q =? 0).
  - exists []. rewrite app_nil_r. split; [reflexivity | exact H].
  - exists (skipn (Z.to_nat (Z.abs (leaderboard_limit q)))
              (sort by_level_desc_lastUpdated_asc s)).
    rewrite firstn_skipn. split; [reflexivity | exact H].
Qed.

End Entries.

Lemma In_firstn {A : Type} (x : A) n l : In x (firstn n l) -> In x l.
Proof.
  revert l. induction n as [|n IH]; intros l; simpl; [intros []|].
  destruct l as [|y t]; [intros []|].
  intros [-> | H]; [now left | right; now apply IH].
Qed.

(** The leaderboard is in order: an entry has at least the level of every
    entry after it, and among entries of equal level the one updated earlier
    comes first. *)
Theorem leaderboard_in_order (q : option string) (now : Z) (s : store) :
  exists body, get_leaderboard q now s = Ok body /\
    StronglySorted entry_not_behind (lb_data body).
Proof.
  unfold get_leaderboard. eexists. split; [reflexivity|]. cbn [lb_data].
  apply map_index_sorted. apply leaderboard_players_sorted.
Qed.

(** The ranks of the leaderboard are the positions: the entry at index [i]
    (from 0) has rank [i + 1]. *)
Theorem leaderboard_rank_is_position (q : option string) (now : Z) (s : store) :
  exists body, get_leaderboard q now s = Ok body /\
    forall i e, nth_error (lb_data body) i = Some e -> e_rank e = Z.of_nat i + 1.
Proof.
  unfold get_leaderboard. eexists. split; [reflexivity|]. cbn [lb_data].
  intros i e H. destruct (nth_error_map_index _ _ _ _ _ H) as (x & _ & ->).
  cbn [leaderboard_entry e_rank]. lia.
Qed.

Lemma leaderboard_rank_is_position_witness :
  exists body, get_leaderboard None 7 three_players = Ok body /\
    exists e, nth_error (lb_data body) 1 = Some e /\ e_rank e = Z.of_nat 1 + 1.
Proof.
  destruct (leaderboard_rank_is_position None 7 three_players) as (body & Hb & H).
  exists body. split; [exact Hb|].
  injection Hb as <-.
  eexists. split; [reflexivity|]. apply (H 1%nat). reflexivity.
Defined.

(** The leaderboard shows the best of the collection: its entries are
    documents of the collection, each shown once, and no document left out
    is ahead of a document shown. *)
Theorem leaderboard_shows_the_best (q : option string) (now : Z) (s : store) :
  exists body shown rest,
    get_leaderboard q now s = Ok body /\
    Permutation (shown ++ rest) s /\
    map e_username (lb_data body) = map username shown /\
    map e_level (lb_data body) = map level shown /\
    map e_lastUpdated (lb_data body) = map lastUpdated shown /\
    forall a b, In a shown -> In b rest -> not_behind a b.
Proof.
  destruct (leaderboard_players_prefix q s) as (rest & Hsort & Hs).
  exists {| lb_success := true;
            lb_data := map_index leaderboard_entry 0 (leaderboard_players q s);
            lb_total := Z.of_nat (List.length (leaderboard_players q s));
            lb_timestamp := now |}, (leaderboard_players q s), rest.
  split; [reflexivity|]. split; [rewrite <- Hsort; apply sort_perm|].
  cbn [lb_data].
  assert (Hmap : forall (B : Type) (f : entry -> B) (g : Player -> B),
            (forall p i, f (leaderboard_entry p i) = g p) ->
            forall l k, map f (map_index leaderboard_entry k l) = map g l).
  { intros B f g Hfg l. induction l as [|x t IH]; intros k; simpl; [reflexivity|].
    now rewrite Hfg, IH. }
  repeat split; try (apply Hmap; reflexivity).
  - now apply (sorted_app_cross _ _ _ Hs).
  - now apply (sorted_app_cross _ _ _ Hs).
Qed.

Lemma leaderboard_shows_the_best_witness :
  exists body shown rest,
    get_leaderboard (Some "2"%string) 7 three_players = Ok body /\
    Permutation (shown ++ rest) three_players /\
    map e_username (lb_data body) = map username shown /\
    forall a b, In a shown -> In b rest -> not_behind a b.
Proof.
  destruct (leaderboard_shows_the_best (Some "2"%string) 7 three_players)
    as (body & shown & rest & Hb & Hp & Hu & _ & _ & H).
  exists body, shown, rest. repeat split; try assumption; now apply H.
Defined.

Lemma Forall2_map_index {A B : Type} (f : A -> Z -> B) (R : B -> A -> Prop) l :
  (forall x i, R (f x i) x) -> forall k, Forall2 R (map_index f k l) l.
Proof.
  intros HR. induction l as [|x t IH]; intros k; simpl; constructor; auto.
Qed.

(** What an entry of the leaderboard shows of its document.  The entries are,
    in order, those of the documents fetched, which are documents of the
    collection; an entry has the user name, the level and [lastUpdated] of its
    document; its avatar is the stored picture when there is one that is not
    empty, and the default picture otherwise; its [gamesPlayed] is the stored
    count, and 1 when that is 0.  So no entry has an empty avatar or 0
    games. *)
Theorem leaderboard_entry_defaults (q : option string) (now : Z) (s : store) :
  exists body, get_leaderboard q now s = Ok body /\
    Forall2 (fun e p =>
               e_username e = username p /\ e_level e = level p /\
               e_lastUpdated e = lastUpdated p /\
               e_avatar e = match profilePicture p with
                            | Some (String c t) => String c t
                            | _ => default_avatar
                            end /\
               e_gamesPlayed e = (if gamesPlayed p =? 0 then 1 else gamesPlayed p) /\
               e_avatar e <> ""%string /\ e_gamesPlayed e <> 0)
            (lb_data body) (leaderboard_players q s) /\
    (forall p, In p (leaderboard_players q s) -> In p s).
Proof.
  unfold get_leaderboard. eexists. split; [reflexivity|]. cbn [lb_data]. split.
  - apply Forall2_map_index. intros p i.
    cbn [leaderboard_entry e_avatar e_gamesPlayed e_username e_level e_lastUpdated].
    unfold num_or.
    repeat (split; [reflexivity|]). split; [|split; [|split]].
    + destruct (profilePicture p) as [[|c t]|]; reflexivity.
    + destruct (gamesPlayed p =? 0); reflexivity.
    + destruct (profilePicture p) as [[|c t]|]; discriminate.
    + destruct (gamesPlayed p =? 0) eqn:E; [discriminate|]. now apply Z.eqb_neq in E.
  - intros p Hp. unfold leaderboard_players, limit in Hp.
    apply (Permutation_in _ (sort_perm by_level_desc_lastUpdated_asc s)).
    destruct (leaderboard_limit q =? 0); [exact Hp|].
    eapply In_firstn; exact Hp.
Qed.

(** Zed's picture is shown and his 0 games are shown as 1; Ann, who has no
    picture, is shown with the default one. *)
Lemma leaderboard_entry_defaults_witness :
  exists body e1 e2,
    get_leaderboard None 7 zed_and_ann = Ok body /\
    lb_data body = [e1; e2] /\
    e_username e1 = "zed"%string /\ e_avatar e1 = "zed.png"%string /\
    e_gamesPlayed e1 = 1 /\
    e_username e2 = "ann"%string /\ e_avatar e2 = default_avatar /\
    e_gamesPlayed e2 = 1.
Proof.
  destruct (leaderboard_entry_defaults None 7 zed_and_ann) as (body & Hb & Hall & _).
  exists body.
  replace (leaderboard_players None zed_and_ann) with zed_and_ann in Hall by reflexivity.
  unfold zed_and_ann in Hall.
  inversion Hall as [|e1 p1 es1 ps1 (Hu1 & _ & _ & Ha1 & Hg1 & _) Hrest1 E1 E2]. subst.
  inversion Hrest1 as [|e2 p2 es2 ps2 (Hu2 & _ & _ & Ha2 & Hg2 & _) Hrest2 E3 E4]. subst.
  inversion Hrest2. subst.
  exists e1, e2. split; [exact Hb|]. split; [reflexivity|].
  repeat split; assumption.
Defined.

Lemma sorted_app_r {A : Type} (R : A -> A -> Prop) l1 l2 :
  StronglySorted R (l1 ++ l2) -> StronglySorted R l2.
Proof.
  induction l1 as [|x t IH]; simpl; intros Hs; [exact Hs|].
  apply StronglySorted_inv in Hs. now apply IH.
Qed.

(** The position of a document on the sorted collection bounds the number of
    documents above its level. *)
Lemma playersAbove_at_position s i x :
  nth_error (sort by_level_desc_lastUpdated_asc s) i = Some x ->
  playersAbove (level x) s <= Z.of_nat i.
Proof.
  intros Hn.
  rewrite <- (playersAbove_perm _ _ _ (sort_perm by_level_desc_lastUpdated_asc s)).
  pose proof (leaderboard_sort_sorted s) as Hs.
  destruct (nth_error_split _ _ Hn) as (l1 & l2 & E & Hlen).
  rewrite E in *. rewrite playersAbove_app.
  apply sorted_app_r in Hs. apply StronglySorted_inv in Hs. destruct Hs as [_ Hx].
  rewrite (playersAbove_none (level x) (x :: l2)).
  - pose proof (playersAbove_le_length (level x) l1). lia.
  - intros p [<- | Hp]; [apply Qle_refl|].
    rewrite Forall_forall in Hx. exact (proj1 (Hx p Hp)).
Qed.

(** The rank of the player lookup is never worse than the rank on the
    leaderboard: an entry of rank [r] has fewer than [r] documents strictly
    above its level, so [playersAbove + 1], the rank that the player lookup
    and the score update answer, is at most [r]. *)
Theorem leaderboard_rank_bounds_player_rank (q : option string) (now : Z) (s : store) :
  exists body, get_leaderboard q now s = Ok body /\
    forall e, In e (lb_data body) -> playersAbove (e_level e) s + 1 <= e_rank e.
Proof.
  unfold get_leaderboard. eexists. split; [reflexivity|]. cbn [lb_data].
  intros e He. apply In_nth_error in He. destruct He as (i & Hi).
  destruct (nth_error_map_index _ _ _ _ _ Hi) as (x & Hx & ->).
  cbn [leaderboard_entry e_level e_rank].
  assert (Hsort : nth_error (sort by_level_desc_lastUpdated_asc s) i = Some x).
  { destruct (leaderboard_players_prefix q s) as (rest & -> & _).
    rewrite nth_error_app1; [exact Hx|].
    apply nth_error_Some. congruence. }
  pose proof (playersAbove_at_position s i x Hsort). lia.
Qed.

Lemma leaderboard_rank_bounds_player_rank_witness :
  exists body, get_leaderboard None 7 tied_store = Ok body /\
    exists e, In e (lb_data body) /\ e_rank e = 2 /\
      playersAbove (e_level e) tied_store + 1 <= e_rank e.
Proof.
  destruct (leaderboard_rank_bounds_player_rank None 7 tied_store) as (body & Hb & H).
  exists body. split; [exact Hb|].
  injection Hb as <-.
  eexists. split; [right; left; reflexivity|].
  split; [reflexivity | apply H; right; left; reflexivity].
Defined.

(* ===================================================================== *)
(** ** What a score update leaves                                       *)
(* ===================================================================== *)

Section Documents.


(** An update changes the document that a lookup finds. *)
Lemma modify_found k f s e :
  lookup k s = Some e -> modify k f s = modify k (fun _ => f e) s.
Proof.
  unfold lookup. induction s as [|x t IH]; simpl; [reflexivity|].
  destruct (username x =? k)%string.
  - intros H. now injection H as ->.
  - intros H. f_equal. now apply IH.
Qed.

(** The collection and the document of the player after an accepted update. *)
Lemma post_update_document req now s body s' :
  post_update req now s = (Ok body, s') ->
  exists u l,
    req_username req = JStr u /\ u <> ""%string /\
    req_level req = JNum (Fin l) /\ (1 <= l)%Q /\ (l <= 1000)%Q /\
    data_username (u_data body) = clean u /\
    let doc := updated u l (req_profilePicture req) now (findOne (clean u) s) in
    findOne (clean u) s' = Some doc /\
    data_gamesPlayed (u_data body) = gamesPlayed doc /\
    s' = match findOne (clean u) s with
         | Some e => updateOne (clean u) (fun _ => doc) s
         | None => s ++ [doc]
         end /\
    (findOne (clean u) s = None -> trim (clean u) <> ""%string).
Proof.
  intros E. pose proof (post_update_inv _ _ _ _ E) as H.
  inversion H as [ | | | u l e pic0 Hu Hne Hl H1 H2 Hfind Hpic Hlt
                 | u l e pic0 Hu Hne Hl H1 H2 Hfind Hpic Hle
                 | u l s1 Hu Hne Hl H1 H2 Hfind Hc | | ];
    subst; clear H; exists u, l; rewrite Hfind; cbn [updated];
    try rewrite Hpic; cbn [stored_as];
    (do 6 (split; [assumption || reflexivity|])).
  - apply Qlt_bool_iff in Hlt. rewrite Hlt.
    split; [|split; [reflexivity|split; [|discriminate]]].
    + unfold findOne, updateOne in *. now apply lookup_modify_same.
    + unfold findOne, updateOne in *. now apply modify_found.
  - apply Qlt_bool_false_iff in Hle. rewrite Hle.
    split; [|split; [reflexivity|split; [|discriminate]]].
    + unfold findOne, updateOne in *. now apply lookup_modify_same.
    + unfold findOne, updateOne in *. now apply modify_found.
  - pose proof (create_valid _ _ _ _ _ _ _ _ Hc) as [Hvalid _].
    apply create_inv in Hc. destruct Hc as [Hnone ->].
    split; [|split; [reflexivity|split; [reflexivity|intros _; exact Hvalid]]].
    unfold findOne in *. rewrite lookup_app, Hfind. unfold lookup. simpl.
    now rewrite String.eqb_refl.
Qed.

End Documents.


(* ===================================================================== *)
(** ** New players, records, and the other documents                    *)
(* ===================================================================== *)

Section Updates.


Lemma playersAbove_snoc_same l s doc :
  level doc = l -> playersAbove l (s ++ [doc]) = playersAbove l s.
Proof.
  intros <-. rewrite playersAbove_app.
  rewrite (playersAbove_none (level doc) [doc]); [lia|].
  intros p [<- | []]. apply Qle_refl.
Qed.

Lemma lookup_None_names k s : lookup k s = None -> ~ In k (map username s).
Proof.
  unfold lookup. induction s as [|x t IH]; simpl; [tauto|].
  destruct (username x =? k)%string eqn:E; [discriminate|].
  apply String.eqb_neq in E. intros H [H' | H']; [exact (E H') | exact (IH H H')].
Qed.

Lemma names_modify k f s :
  (forall x, username (f x) = username x) ->
  map username (modify k f s) = map username s.
Proof.
  intros Hf. induction s as [|x t IH]; simpl; [reflexivity|].
  destruct (username x =? k)%string; simpl; [now rewrite Hf | now rewrite IH].
Qed.

End Updates.

(** A first submission.  A request with a user name that is not empty and a
    level in range, for a name under which there is no document, creates the
    document at the end of the collection: the level as submitted, the
    picture cast to a string (none when none came), 1 game, [lastUpdated]
    the date read by the handler and [createdAt] the time stamp of the
    store; it answers [newRecord: true] with the rank counted on the
    documents that were there.  When the name is white space only, or the
    picture is not cast to a string, the answer has status 500 and nothing
    is created. *)
Theorem first_submission (u : string) (l : Q) (pic : picture) (now : clock) (s : store) :
  u <> ""%string -> (1 <= l)%Q -> (l <= 1000)%Q ->
  findOne (clean u) s = None ->
  (trim u = ""%string \/ pic = Uncastable ->
     post_update (submission u l pic) now s = (failed_update, s) /\
     status (fst (post_update (submission u l pic) now s)) = 500) /\
  (trim u <> ""%string -> pic <> Uncastable ->
     let doc := {| username := trim (clean u); level := l;
                   profilePicture := match pic with
                                     | Castable _ cast => Some cast
                                     | _ => None
                                     end;
                   gamesPlayed := 1; lastUpdated := date now;
                   createdAt := timestamp now |} in
     let rank := playersAbove l s + 1 in
     exists message,
       post_update (submission u l pic) now s =
         (Ok {| u_success := true; u_newRecord := true; u_message := message;
                u_data := NewPlayer (clean u) l rank (rank <=? 20) 1 |},
          s ++ [doc])).
Proof.
  intros Hne H1 H2 Hnone.
  assert (Hpre : forall r,
            match create (clean u) l pic 1 (date now) (timestamp now) s with
            | Some s1 =>
                (Ok {| u_success := true; u_newRecord := true;
                       u_message := if playersAbove l s1 + 1 <=? 20
                                    then "Welcome to top 20!"%string
                                    else "Welcome to the leaderboard!"%string;
                       u_data := NewPlayer (clean u) l (playersAbove l s1 + 1)
                                   (playersAbove l s1 + 1 <=? 20) 1 |}, s1)
            | None => (failed_update, s)
            end = r ->
            post_update (submission u l pic) now s = r).
  { intros r <-. unfold post_update.
    cbn [submission req_username req_level req_profilePicture].
    pose proof Hne as Ht. apply truthy_string in Ht. rewrite Ht.
    destruct (level_in_range_checked l H1 H2) as [Hl Hr]. rewrite Hl, Hr.
    cbn [negb orb]. rewrite Hnone. reflexivity. }
  split.
  - intros Hw.
    assert (Hc : create (clean u) l pic 1 (date now) (timestamp now) s = None).
    { destruct (create (clean u) l pic 1 (date now) (timestamp now) s) as [s1|] eqn:E;
        [|reflexivity].
      exfalso. destruct Hw as [Hw | Hw].
      - apply create_valid in E. destruct E as [E _].
        apply E. exact (proj2 (trim_clean_empty u) Hw).
      - exact (create_cast _ _ _ _ _ _ _ _ E Hw). }
    rewrite Hc in Hpre. rewrite (Hpre _ eq_refl). split; reflexivity.
  - intros Hw Hpic doc rank.
    unfold findOne in Hnone.
    rewrite (create_accepts u l pic 1 (date now) (timestamp now) s Hw H1 H2 Hpic Hnone)
      in Hpre.
    eexists. rewrite (Hpre _ eq_refl).
    assert (Ed : {| username := trim (clean u); level := l;
                    profilePicture := stored_as (picture_cast pic);
                    gamesPlayed := 1; lastUpdated := date now;
                    createdAt := timestamp now |} = doc).
    { unfold doc. destruct pic; [reflexivity | reflexivity | contradiction]. }
    rewrite Ed. rewrite (playersAbove_snoc_same l s doc eq_refl).
    reflexivity.
Qed.

Lemma first_submission_witness :
  "dan"%string <> ""%string /\ (1 <= 25)%Q /\ (25 <= 1000)%Q /\
  findOne (clean "dan") three_players = None /\ trim "dan" <> ""%string /\
  text "dan.png" <> Uncastable /\
  exists message,
    post_update (submission "dan" 25 (text "dan.png")) {| date := 9; timestamp := 10 |}
      three_players =
      (Ok {| u_success := true; u_newRecord := true; u_message := message;
             u_data := NewPlayer (clean "dan") 25 (playersAbove 25 three_players + 1)
                         (playersAbove 25 three_players + 1 <=? 20) 1 |},
       three_players ++ [{| username := trim (clean "dan"); level := 25;
                            profilePicture := Some "dan.png"%string; gamesPlayed := 1;
                            lastUpdated := 9; createdAt := 10 |}]).
Proof.
  assert (H0 : "dan"%string <> ""%string) by discriminate.
  assert (H1 : (1 <= 25)%Q) by (unfold Qle; simpl; lia).
  assert (H2 : (25 <= 1000)%Q) by (unfold Qle; simpl; lia).
  assert (H3 : trim "dan" <> ""%string) by (vm_compute; discriminate).
  assert (H4 : text "dan.png" <> Uncastable) by discriminate.
  repeat (split; [assumption || reflexivity|]).
  exact (proj2 (first_submission "dan" 25 (text "dan.png") {| date := 9; timestamp := 10 |}
                  three_players H0 H1 H2 eq_refl) H3 H4).
Defined.

(** A picture that is an object is not cast to a string: the request is
    answered with status 500 and Dan gets no document. *)
Example first_submission_with_object :
  post_update (submission "dan" 25 Uncastable) 9 three_players
  = (failed_update, three_players).
Proof. reflexivity. Qed.

Lemma playersAbove_cons l p s :
  playersAbove l (p :: s) = (if Qlt_bool l (level p) then 1 else 0) + playersAbove l s.
Proof.
  change (p :: s) with ([p] ++ s). rewrite playersAbove_app. f_equal.
  unfold playersAbove, countDocuments. simpl. now destruct (Qlt_bool l (level p)).
Qed.

(** Replacing a document by one of at least its level moves every count of
    documents above a level up by at most 1. *)
Lemma playersAbove_modify l k d s e :
  lookup k s = Some e -> (level e <= level d)%Q ->
  playersAbove l s <= playersAbove l (modify k (fun _ => d) s) <= playersAbove l s + 1.
Proof.
  unfold lookup. induction s as [|x t IH]; simpl; [discriminate|].
  destruct (username x =? k)%string.
  - intros H Hle. injection H as ->. rewrite !playersAbove_cons.
    destruct (Qlt_bool l (level e)) eqn:E1; destruct (Qlt_bool l (level d)) eqn:E2; try lia.
    exfalso. apply Qlt_bool_iff in E1. apply Qlt_bool_false_iff in E2.
    apply (Qlt_irrefl l). apply Qlt_le_trans with (level e); [exact E1|].
    now apply Qle_trans with (level d).
  - intros H Hle. rewrite !playersAbove_cons. specialize (IH H Hle). lia.
Qed.

(** Replacing a document by one of its level changes no count. *)
Lemma playersAbove_modify_same l k d s e :
  lookup k s = Some e -> level d = level e ->
  playersAbove l (modify k (fun _ => d) s) = playersAbove l s.
Proof.
  unfold lookup. induction s as [|x t IH]; simpl; [discriminate|].
  destruct (username x =? k)%string.
  - intros H Hd. injection H as ->. rewrite !playersAbove_cons. now rewrite Hd.
  - intros H Hd. rewrite !playersAbove_cons. now rewrite (IH H Hd).
Qed.

Lemma updated_level_ge u l pic now e : (level e <= level (updated u l pic now (Some e)))%Q.
Proof.
  cbn [updated]. destruct (Qlt_bool (level e) l) eqn:E; cbn [set_record set_play level].
  - apply Qlt_bool_iff in E. now apply Qlt_le_weak.
  - apply Qle_refl.
Qed.

(** A record.  A valid submission above the level stored for the player is
    accepted; it sets the level to the submitted one, keeps the picture
    unless a truthy one comes with it (which is stored cast to a string),
    adds 1 to [gamesPlayed] (a count below 2^53, where the addition of
    doubles is exact), sets [lastUpdated] to the date read by the handler,
    and keeps the user name and [createdAt]; it answers [newRecord: true]
    with [previousBest] the level that was stored, and the rank it answers is
    also 1 plus the number of documents above the new level before the
    update. *)
Theorem improving_submission (u : string) (l : Q) (pic : picture) (now : clock)
    (s : store) (e : Player) :
  u <> ""%string -> (1 <= l)%Q -> (l <= 1000)%Q ->
  findOne (clean u) s = Some e -> (level e < l)%Q ->
  pic <> Uncastable ->
  0 <= gamesPlayed e -> gamesPlayed e + 1 <= 2 ^ 53 ->
  let e1 := {| username := username e; level := l;
               profilePicture := match pic with
                                 | Castable true cast => Some cast
                                 | _ => profilePicture e
                                 end;
               gamesPlayed := gamesPlayed e + 1; lastUpdated := date now;
               createdAt := createdAt e |} in
  let rank := playersAbove l s + 1 in
  exists message s1,
    post_update (submission u l pic) now s =
      (Ok {| u_success := true; u_newRecord := true; u_message := message;
             u_data := RecordUpdate (clean u) l (level e) rank (rank <=? 20)
                         (gamesPlayed e + 1) |}, s1) /\
    findOne (clean u) s1 = Some e1 /\
    List.length s1 = List.length s.
Proof.
  intros Hne H1 H2 Hf Hlt Hpic Hg0 Hg e1 rank.
  assert (Hd : to_double (gamesPlayed e + 1) = gamesPlayed e + 1)
    by (apply to_double_exact; lia).
  assert (Hp : picture_or pic (profilePicture e) = Some (profilePicture e1)).
  { unfold e1. cbn [profilePicture]. destruct pic as [|[|] cast|];
      [reflexivity | reflexivity | reflexivity | contradiction]. }
  set (s1 := updateOne (clean u) (set_record l (profilePicture e1)
                                    (gamesPlayed e + 1) (date now)) s).
  assert (Hrank : playersAbove l s1 = playersAbove l s).
  { unfold s1, updateOne. unfold findOne in Hf.
    rewrite (modify_found _ _ _ _ Hf).
    change (set_record l (profilePicture e1) (gamesPlayed e + 1) (date now) e) with e1.
    assert (Heq : playersAbove l (modify (trim (clean u)) (fun _ => e1) s) = playersAbove l s).
    { unfold lookup in Hf. clear Hp s1. induction s as [|x t IH]; simpl in *; [discriminate|].
      destruct (username x =? trim (clean u))%string.
      - injection Hf as ->. rewrite !playersAbove_cons. cbn [level e1].
        assert (E1 : Qlt_bool l l = false) by (apply Qlt_bool_false_iff, Qle_refl).
        assert (E2 : Qlt_bool l (level e) = false)
          by (apply Qlt_bool_false_iff; now apply Qlt_le_weak).
        now rewrite E1, E2.
      - rewrite !playersAbove_cons. now rewrite (IH Hf). }
    exact Heq. }
  exists (if playersAbove l s1 + 1 <=? 20 then "New record in top 20!"%string
          else "New personal best!"%string), s1.
  split; [|split].
  - unfold post_update. cbn [submission req_username req_level req_profilePicture].
    pose proof Hne as Ht. apply truthy_string in Ht. rewrite Ht.
    destruct (level_in_range_checked l H1 H2) as [Hl Hr]. rewrite Hl, Hr.
    cbn [negb orb]. rewrite Hf, Hp.
    apply Qlt_bool_iff in Hlt. rewrite Hlt, num_or_zero, Hd.
    fold s1. unfold rank. rewrite Hrank. reflexivity.
  - unfold s1, findOne, updateOne in *.
    now rewrite (lookup_modify_same _ _ _ _ (username_set_record _ _ _ _) Hf).
  - unfold s1, updateOne. apply length_modify.
Qed.

Lemma improving_submission_witness :
  "bob"%string <> ""%string /\ (1 <= 40)%Q /\ (40 <= 1000)%Q /\
  findOne (clean "bob") three_players = Some (player "bob" 20 2) /\
  (level (player "bob" 20 2) < 40)%Q /\
  text "bob.png" <> Uncastable /\
  0 <= gamesPlayed (player "bob" 20 2) /\ gamesPlayed (player "bob" 20 2) + 1 <= 2 ^ 53 /\
  exists message s1,
    post_update (submission "bob" 40 (text "bob.png")) {| date := 9; timestamp := 10 |}
      three_players =
      (Ok {| u_success := true; u_newRecord := true; u_message := message;
             u_data := RecordUpdate (clean "bob") 40 20
                         (playersAbove 40 three_players + 1)
                         (playersAbove 40 three_players + 1 <=? 20) 2 |}, s1) /\
    findOne (clean "bob") s1 =
      Some {| username := "bob"; level := 40; profilePicture := Some "bob.png"%string;
              gamesPlayed := 2; lastUpdated := 9; createdAt := 2 |} /\
    List.length s1 = List.length three_players.
Proof.
  assert (H0 : "bob"%string <> ""%string) by discriminate.
  assert (H1 : (1 <= 40)%Q) by (unfold Qle; simpl; lia).
  assert (H2 : (40 <= 1000)%Q) by (unfold Qle; simpl; lia).
  assert (H3 : (level (player "bob" 20 2) < 40)%Q) by (unfold Qlt; simpl; lia).
  assert (H4 : text "bob.png" <> Uncastable) by discriminate.
  assert (H5 : 0 <= gamesPlayed (player "bob" 20 2)) by (simpl; lia).
  assert (H6 : gamesPlayed (player "bob" 20 2) + 1 <= 2 ^ 53) by (simpl; lia).
  repeat (split; [assumption || reflexivity|]).
  exact (improving_submission "bob" 40 (text "bob.png") {| date := 9; timestamp := 10 |}
           three_players (player "bob" 20 2) H0 H1 H2 eq_refl H3 H4 H5 H6).
Defined.

(* ===================================================================== *)
(** ** What every score update keeps                                    *)
(* ===================================================================== *)

Section Invariants.

(** The collection after a request, in the two shapes it can take. *)
Lemma post_update_shape req now s :
  snd (post_update req now s) = s \/
  exists body u l,
    fst (post_update req now s) = Ok body /\
    req_username req = JStr u /\ req_level req = JNum (Fin l) /\
    (1 <= l)%Q /\ (l <= 1000)%Q /\
    let doc := updated u l (req_profilePicture req) now (findOne (clean u) s) in
    match findOne (clean u) s with
    | Some e => snd (post_update req now s) = modify (trim (clean u)) (fun _ => doc) s
    | None => snd (post_update req now s) = s ++ [doc] /\ trim (clean u) <> ""%string
    end.
Proof.
  destruct (post_update req now s) as [r s'] eqn:E.
  destruct r as [body| |].
  - right. pose proof (post_update_document _ _ _ _ _ E)
      as (u & l & Hu & Hne & Hl & H1 & H2 & _ & _ & _ & Hs & Hn).
    exists body, u, l. cbn [fst snd]. repeat (split; [assumption || reflexivity|]).
    cbn zeta. unfold updateOne in Hs.
    destruct (findOne (clean u) s) as [e|] eqn:Ef; [exact Hs|].
    split; [exact Hs | now apply Hn].
  - left. cbn [snd].
    pose proof (post_update_refused req now s) as H. rewrite E in H. cbn [fst snd] in H.
    apply H. discriminate.
  - left. cbn [snd].
    pose proof (post_update_refused req now s) as H. rewrite E in H. cbn [fst snd] in H.
    apply H. discriminate.
Qed.

Lemma username_updated u l pic now e : username (updated u l pic now (Some e)) = username e.
Proof. cbn [updated]. now destruct (Qlt_bool (level e) l). Qed.

Lemma lookup_In k s e : lookup k s = Some e -> In e s /\ username e = k.
Proof.
  unfold lookup. intros H. apply find_some in H. destruct H as [Hin H].
  split; [exact Hin | now apply String.eqb_eq].
Qed.

Lemma names_modify_found k d s e :
  lookup k s = Some e -> username d = username e ->
  map username (modify k (fun _ => d) s) = map username s.
Proof.
  unfold lookup. induction s as [|x t IH]; simpl; [reflexivity|].
  destruct (username x =? k)%string.
  - intros H Hd. injection H as ->. simpl. now rewrite Hd.
  - intros H Hd. simpl. now rewrite IH.
Qed.

Lemma Forall_modify_found (P : Player -> Prop) k d s :
  Forall P s -> P d -> Forall P (modify k (fun _ => d) s).
Proof.
  intros Hs Hd. induction s as [|x t IH]; simpl; [constructor|].
  apply Forall_cons_iff in Hs. destruct Hs as [Hx Ht].
  destruct (username x =? k)%string; constructor; auto.
Qed.

Lemma well_formed_updated u l pic now e :
  (1 <= l)%Q -> (l <= 1000)%Q -> well_formed e ->
  well_formed (updated u l pic now (Some e)).
Proof.
  intros H1 H2 (Hn & Ht & Hlen & Hl1 & Hl2 & Hg). cbn [updated]. rewrite num_or_zero.
  destruct (Qlt_bool (level e) l); unfold well_formed;
    cbn [set_record set_play username level gamesPlayed];
    repeat split; try assumption; apply to_double_ge_1; lia.
Qed.

Lemma well_formed_created u l pic now :
  (1 <= l)%Q -> (l <= 1000)%Q -> trim (clean u) <> ""%string ->
  well_formed (updated u l pic now None).
Proof.
  intros H1 H2 Hn. unfold well_formed. cbn [updated username level gamesPlayed].
  repeat split; try assumption; try lia.
  - apply trim_idem.
  - apply length_trim_clean.
Qed.

(** One request keeps the user names distinct. *)
Lemma post_update_unique req now s :
  unique_names s -> unique_names (snd (post_update req now s)).
Proof.
  intros Hs. destruct (post_update_shape req now s)
    as [-> | (body & u & l & _ & _ & _ & _ & _ & H)]; [exact Hs|].
  cbn zeta in H. unfold unique_names in *.
  destruct (findOne (clean u) s) as [e|] eqn:Ef.
  - rewrite H. unfold findOne in Ef.
    rewrite (names_modify_found _ _ _ _ Ef); [exact Hs | apply username_updated].
  - destruct H as [-> _]. rewrite map_app. cbn [map updated username].
    apply NoDup_app_remove_l with (l := []). simpl.
    apply (Permutation_NoDup (l := trim (clean u) :: map username s)).
    + apply Permutation_cons_append.
    + constructor; [|exact Hs]. now apply lookup_None_names.
Qed.

(** One request keeps the documents well formed. *)
Lemma post_update_well_formed req now s :
  Forall well_formed s -> Forall well_formed (snd (post_update req now s)).
Proof.
  intros Hs. destruct (post_update_shape req now s)
    as [-> | (body & u & l & _ & _ & _ & H1 & H2 & H)]; [exact Hs|].
  cbn zeta in H. destruct (findOne (clean u) s) as [e|] eqn:Ef.
  - rewrite H. apply Forall_modify_found; [exact Hs|].
    apply well_formed_updated; try assumption.
    unfold findOne in Ef. apply lookup_In in Ef. destruct Ef as [Hin _].
    rewrite Forall_forall in Hs. now apply Hs.
  - destruct H as [-> Hn]. apply Forall_app. split; [exact Hs|].
    constructor; [|constructor]. now apply well_formed_created.
Qed.

End Invariants.

(** The user names stay distinct: whatever requests are served, one after the
    other, a collection with one document per name keeps one document per
    name; so does the collection built from nothing. *)
Theorem names_stay_unique (reqs : list (update_request * clock)) (s : store) :
  (unique_names s -> unique_names (serve reqs s)) /\ unique_names (serve reqs []).
Proof.
  assert (H : forall s0, unique_names s0 -> unique_names (serve reqs s0)).
  { induction reqs as [|[req now] rest IH]; intros s0 Hs; simpl; [exact Hs|].
    apply IH. now apply post_update_unique. }
  split; [apply H | apply H; constructor].
Qed.

Lemma names_stay_unique_witness :
  unique_names three_players /\ unique_names (serve five_three_nine three_players).
Proof.
  assert (H : unique_names three_players).
  { unfold unique_names. simpl.
    repeat (constructor; [simpl; intuition discriminate|]). constructor. }
  split; [exact H|].
  exact (proj1 (names_stay_unique five_three_nine three_players) H).
Defined.

(** The documents stay as the schema wants them, although [updateOne] runs no
    validator: whatever requests are served, every document keeps a trimmed,
    non-empty user name of at most 50 characters, a level between 1 and 1000
    and at least 1 game; so does every document of a collection built from
    nothing. *)
Theorem documents_stay_well_formed (reqs : list (update_request * clock)) (s : store) :
  (Forall well_formed s -> Forall well_formed (serve reqs s)) /\
  Forall well_formed (serve reqs []).
Proof.
  assert (H : forall s0, Forall well_formed s0 -> Forall well_formed (serve reqs s0)).
  { induction reqs as [|[req now] rest IH]; intros s0 Hs; simpl; [exact Hs|].
    apply IH. now apply post_update_well_formed. }
  split; [apply H | apply H; constructor].
Qed.

Lemma documents_stay_well_formed_witness :
  Forall well_formed three_players /\
  Forall well_formed (serve five_three_nine three_players).
Proof.
  assert (H : Forall well_formed three_players).
  { repeat constructor; try discriminate; try (simpl; lia);
      unfold Qle; simpl; lia. }
  split; [exact H|].
  exact (proj1 (documents_stay_well_formed five_three_nine three_players) H).
Defined.

(** A score update touches one document at most.  A request that is not
    answered with status 200 leaves the collection as it was; any request
    leaves the documents stored under other names as they were, keeps every
    name where it was, and adds at most one name, at the end. *)
Theorem update_touches_one_document (req : update_request) (now : clock) (s : store) :
  (status (fst (post_update req now s)) <> 200 -> snd (post_update req now s) = s) /\
  (forall k, (forall u, req_username req = JStr u -> trim (clean u) <> k) ->
     lookup k (snd (post_update req now s)) = lookup k s) /\
  (exists added, map username (snd (post_update req now s)) = map username s ++ added /\
     (List.length added <= 1)%nat).
Proof.
  split; [|split].
  - intros Hst. apply post_update_refused. intros body Hb.
    rewrite Hb in Hst. now apply Hst.
  - intros k Hk. now apply post_update_other.
  - destruct (post_update_shape req now s)
      as [-> | (body & u & l & _ & _ & _ & _ & _ & H)].
    + exists []. rewrite app_nil_r. split; [reflexivity | simpl; lia].
    + cbn zeta in H. destruct (findOne (clean u) s) as [e|] eqn:Ef.
      * exists []. rewrite app_nil_r, H. split; [|simpl; lia].
        unfold findOne in Ef. apply (names_modify_found _ _ _ _ Ef), username_updated.
      * destruct H as [-> _]. eexists. rewrite map_app. split; [reflexivity | simpl; lia].
Qed.

Lemma update_touches_one_document_witness :
  (forall u, req_username (submission "bob" 40 NoPicture) = JStr u -> trim (clean u) <> "ann"%string) /\
  lookup "ann" (snd (post_update (submission "bob" 40 NoPicture) 9 three_players)) =
    lookup "ann" three_players.
Proof.
  assert (H : forall u, req_username (submission "bob" 40 NoPicture) = JStr u ->
                        trim (clean u) <> "ann"%string).
  { intros u Hu. injection Hu as <-. vm_compute. discriminate. }
  split; [exact H|].
  exact (proj1 (proj2 (update_touches_one_document (submission "bob" 40 NoPicture) 9 three_players))
           "ann"%string H).
Defined.

(** No score update moves anyone up: for every level, the number of documents
    strictly above it does not go down with a request, and goes up by 1 at
    most; so the rank [playersAbove + 1] of a player who is not the one
    submitting can only stay or get worse by 1. *)
Theorem update_moves_ranks_by_one (req : update_request) (now : clock) (s : store) (l : Q) :
  playersAbove l s <= playersAbove l (snd (post_update req now s)) <= playersAbove l s + 1.
Proof.
  destruct (post_update_shape req now s)
    as [-> | (body & u & l0 & _ & _ & _ & _ & _ & H)]; [lia|].
  cbn zeta in H. destruct (findOne (clean u) s) as [e|] eqn:Ef.
  - rewrite H. unfold findOne in Ef.
    apply (playersAbove_modify l _ _ _ e Ef). apply updated_level_ge.
  - destruct H as [-> _]. rewrite playersAbove_app.
    pose proof (playersAbove_le_length l [updated u l0 (req_profilePicture req) now None]).
    simpl in *. lia.
Qed.

(** A submission that is not a record changes no rank: the number of
    documents above any level is the same before and after. *)
Theorem no_record_changes_no_rank (u : string) (l : Q) (pic : picture) (now : clock)
    (s : store) (e : Player) (l' : Q) :
  u <> ""%string -> (1 <= l)%Q -> (l <= 1000)%Q ->
  findOne (clean u) s = Some e -> (l <= level e)%Q ->
  playersAbove l' (snd (post_update (submission u l pic) now s)) = playersAbove l' s.
Proof.
  intros Hne H1 H2 Hf Hle.
  destruct (post_update_shape (submission u l pic) now s)
    as [-> | (body & u' & l0 & _ & Hu & Hl & _ & _ & H)]; [reflexivity|].
  cbn [submission req_username req_level req_profilePicture] in Hu, Hl, H.
  injection Hu as <-. injection Hl as <-.
  cbn zeta in H. rewrite Hf in H. rewrite H. cbn [updated].
  apply Qlt_bool_false_iff in Hle. rewrite Hle.
  unfold findOne in Hf. now apply (playersAbove_modify_same l' _ _ _ e Hf).
Qed.

Lemma no_record_changes_no_rank_witness :
  "bob"%string <> ""%string /\ (1 <= 15)%Q /\ (15 <= 1000)%Q /\
  findOne (clean "bob") three_players = Some (player "bob" 20 2) /\
  (15 <= level (player "bob" 20 2))%Q /\
  playersAbove 10 (snd (post_update (submission "bob" 15 NoPicture) 9 three_players)) =
    playersAbove 10 three_players.
Proof.
  assert (H0 : "bob"%string <> ""%string) by discriminate.
  assert (H1 : (1 <= 15)%Q) by (unfold Qle; simpl; lia).
  assert (H2 : (15 <= 1000)%Q) by (unfold Qle; simpl; lia).
  assert (H3 : (15 <= level (player "bob" 20 2))%Q) by (unfold Qle; simpl; lia).
  repeat (split; [assumption || reflexivity|]).
  exact (no_record_changes_no_rank "bob" 15 NoPicture 9 three_players (player "bob" 20 2) 10
           H0 H1 H2 eq_refl H3).
Defined.

(* ===================================================================== *)
(** ** Games played                                                     *)
(* ===================================================================== *)

Section Games.

Variable k : string.

(** The effect of one request on the games counted for [k]. *)
Lemma serve_one_games req now s :
  match submitted_level k req now s with
  | Some _ =>
      exists p', lookup k (snd (post_update req now s)) = Some p' /\
        gamesPlayed p' = match lookup k s with
                         | Some p => to_double (gamesPlayed p + 1)
                         | None => 1
                         end
  | None => lookup k (snd (post_update req now s)) = lookup k s
  end.
Proof.
  pose proof (serve_one k req now s) as H0.
  unfold submitted_level in *.
  destruct (post_update req now s) as [r s'] eqn:E. cbn [fst snd] in *.
  destruct r as [body| |]; try exact H0.
  pose proof (post_update_document _ _ _ _ _ E)
    as (u & l & Hu & _ & Hl & _ & _ & _ & Hdoc & _ & _ & _).
  cbn zeta in Hdoc. rewrite Hu, Hl in *.
  destruct (trim (clean u) =? k)%string eqn:Ek; [|exact H0].
  apply String.eqb_eq in Ek. unfold findOne in Hdoc. rewrite Ek in Hdoc.
  eexists. split; [exact Hdoc|].
  destruct (lookup k s) as [e|]; cbn [updated]; [|reflexivity].
  rewrite num_or_zero. now destruct (Qlt_bool (level e) l).
Qed.

(** The games counted for [k] once the requests are served, as long as the
    count stays within 2^53. *)
Lemma serve_games reqs : forall s,
  match lookup k s with
  | Some p0 =>
      0 <= gamesPlayed p0 ->
      gamesPlayed p0 + Z.of_nat (List.length reqs) <= 2 ^ 53 ->
      exists p, lookup k (serve reqs s) = Some p /\
        gamesPlayed p = gamesPlayed p0 + Z.of_nat (List.length (submitted k reqs s))
  | None =>
      Z.of_nat (List.length reqs) <= 2 ^ 53 ->
      match lookup k (serve reqs s) with
      | Some p => gamesPlayed p = Z.of_nat (List.length (submitted k reqs s))
      | None => submitted k reqs s = []
      end
  end.
Proof.
  induction reqs as [|[req now] rest IH]; intros s.
  - simpl. destruct (lookup k s) as [p0|]; [|reflexivity].
    intros _ _. exists p0. split; [reflexivity | lia].
  - cbn [serve submitted].
    pose proof (serve_one_games req now s) as H1.
    specialize (IH (snd (post_update req now s))).
    assert (Hlen : Z.of_nat (List.length ((req, now) :: rest)) =
                   Z.of_nat (List.length rest) + 1) by (simpl List.length; lia).
    rewrite Hlen. clear Hlen.
    destruct (submitted_level k req now s) as [l|].
    + destruct H1 as (p' & Hp' & Hg). rewrite Hp' in IH.
      destruct (lookup k s) as [p0|].
      * intros Hg0 Hb.
        rewrite to_double_exact in Hg by lia.
        destruct IH as (p & Hp & Hgp); [lia | lia |].
        exists p. split; [exact Hp|]. rewrite Hgp, Hg. simpl List.length. lia.
      * intros Hb. destruct IH as (p & Hp & Hgp); [lia | lia |].
        rewrite Hp, Hgp, Hg. simpl List.length. lia.
    + rewrite H1 in IH. destruct (lookup k s) as [p0|].
      * intros Hg0 Hb. apply IH; lia.
      * intros Hb. apply IH; lia.
Qed.

End Games.

(** [gamesPlayed] counts the accepted submissions: for a player with no
    document at the start, after any sequence of at most 2^53 requests served
    one after the other, the stored [gamesPlayed] is the number of requests
    for that player answered with status 200, whether they raised the level
    or not; these are the valid requests for that player. *)
Theorem games_played_counts_submissions (k : string)
    (reqs : list (update_request * clock)) (s : store) :
  lookup k s = None ->
  Z.of_nat (List.length reqs) <= 2 ^ 53 ->
  match lookup k (serve reqs s) with
  | Some p => gamesPlayed p = Z.of_nat (List.length (submitted k reqs s))
  | None => submitted k reqs s = []
  end /\
  (k <> ""%string -> submitted k reqs s = valid_levels k reqs).
Proof.
  intros Hnone Hb. split.
  - pose proof (serve_games k reqs s) as H. rewrite Hnone in H. now apply H.
  - intros Hk. now apply submitted_valid_levels.
Qed.

Lemma games_played_counts_submissions_witness :
  lookup "bob" [] = None /\
  Z.of_nat (List.length five_three_nine) <= 2 ^ 53 /\
  submitted "bob" five_three_nine [] = [5%Q; 3%Q; 9%Q] /\
  exists p, lookup "bob" (serve five_three_nine []) = Some p /\ gamesPlayed p = 3.
Proof.
  assert (H0 : lookup "bob" [] = None) by reflexivity.
  assert (H1 : Z.of_nat (List.length five_three_nine) <= 2 ^ 53) by (simpl; lia).
  split; [exact H0|]. split; [exact H1|].
  assert (Hs : submitted "bob" five_three_nine [] = [5%Q; 3%Q; 9%Q]) by reflexivity.
  split; [exact Hs|].
  destruct (games_played_counts_submissions "bob" five_three_nine [] H0 H1) as [H _].
  destruct (lookup "bob" (serve five_three_nine [])) as [p|].
  - exists p. split; [reflexivity|]. rewrite H, Hs. reflexivity.
  - rewrite Hs in H. discriminate.
Defined.

(* ===================================================================== *)
(** ** Looking a player up after an update                              *)
(* ===================================================================== *)

(** The player lookup agrees with the answer of the update.  After an update
    answered with status 200, looking up the user name of the answer finds
    the player, under that name trimmed, with the rank and the top-20 flag of
    the answer, and with its [gamesPlayed] unless that is 0. *)
Theorem lookup_after_update (req : update_request) (now : clock) (s s' : store)
    (body : update_body) :
  post_update req now s = (Ok body, s') ->
  exists answer,
    get_player (data_username (u_data body)) s' = Ok answer /\
    p_username (pb_data answer) = trim (data_username (u_data body)) /\
    p_rank (pb_data answer) = Some (data_rank (u_data body)) /\
    p_isInTop20 (pb_data answer) = data_isInTop20 (u_data body) /\
    (data_gamesPlayed (u_data body) <> 0 ->
     p_gamesPlayed (pb_data answer) = data_gamesPlayed (u_data body)).
Proof.
  intros E.
  destruct (post_update_stored _ _ _ _ _ E)
    as (u & l & p & Hu & Hl & Hf & _ & Hr & Ht & Hn).
  destruct (post_update_document _ _ _ _ _ E)
    as (u' & l' & Hu' & _ & _ & _ & _ & _ & Hdoc & Hg & _ & _).
  cbn zeta in Hdoc, Hg.
  assert (u' = u) by congruence. subst u'.
  rewrite Hf in Hdoc. injection Hdoc as Hdoc. rewrite <- Hdoc in Hg.
  rewrite Hn. unfold get_player.
  assert (Hfind : findOne (trim (clean u)) s' = Some p).
  { unfold findOne in *. now rewrite trim_idem. }
  rewrite Hfind. eexists. split; [reflexivity|].
  cbn [pb_data p_username p_rank p_isInTop20 p_gamesPlayed].
  unfold findOne in Hf. apply lookup_In in Hf. destruct Hf as [_ Hname].
  repeat split.
  - exact Hname.
  - now rewrite Hr.
  - now rewrite Ht, Hr.
  - intros Hne. rewrite Hg in *. unfold num_or.
    destruct (gamesPlayed p =? 0) eqn:E0; [|reflexivity].
    apply Z.eqb_eq in E0. contradiction.
Qed.

Lemma lookup_after_update_witness :
  exists body s',
    post_update (submission "bob" 40 NoPicture) 9 three_players = (Ok body, s') /\
    exists answer,
      get_player (data_username (u_data body)) s' = Ok answer /\
      p_rank (pb_data answer) = Some (data_rank (u_data body)).
Proof.
  eexists. eexists. split; [reflexivity|].
  destruct (lookup_after_update (submission "bob" 40 NoPicture) 9 three_players _ _ eq_refl)
    as (answer & Ha & _ & Hr & _).
  exists answer. split; [exact Ha | exact Hr].
Defined.

(* ===================================================================== *)
(** ** Requests for different players                                   *)
(* ===================================================================== *)

Section Commute.

(** What a request does to the document of its player depends on that
    document only. *)
Lemma post_update_local req now s s0 u :
  req_username req = JStr u ->
  lookup (trim (clean u)) s = lookup (trim (clean u)) s0 ->
  lookup (trim (clean u)) (snd (post_update req now s)) =
  lookup (trim (clean u)) (snd (post_update req now s0)).
Proof.
  intros Hu Hsame. unfold post_update. rewrite Hu.
  destruct (negb (truthy (JStr u)) || negb (truthy (req_level req))); [exact Hsame|].
  destruct (not_a_level (req_level req)); [exact Hsame|].
  destruct (req_level req) as [| |b|[l| | |]|str|]; try exact Hsame.
  unfold findOne. rewrite <- Hsame.
  destruct (lookup (trim (clean u)) s) as [e|] eqn:Ef.
  - symmetry in Hsame.
    destruct (picture_or (req_profilePicture req) (profilePicture e)) as [pic0|];
      [|cbn [snd]; congruence].
    destruct (Qlt_bool (level e) l); cbn [snd]; unfold updateOne.
    + rewrite (lookup_modify_same _ _ _ _ (username_set_record _ _ _ _) Ef).
      now rewrite (lookup_modify_same _ _ _ _ (username_set_record _ _ _ _) Hsame).
    + rewrite (lookup_modify_same _ _ _ _ (username_set_play _ _ _) Ef).
      now rewrite (lookup_modify_same _ _ _ _ (username_set_play _ _ _) Hsame).
  - symmetry in Hsame. unfold create.
    destruct (picture_cast (req_profilePicture req)) as [cast|];
      [|exact (eq_trans Ef (eq_sym Hsame))].
    cbn [username].
    destruct (validates _); [|exact (eq_trans Ef (eq_sym Hsame))].
    rewrite Ef, Hsame. cbn [snd].
    rewrite !lookup_app, Ef, Hsame. reflexivity.
Qed.

(** A request is for the player stored under [k], or it is not. *)
Lemma request_for_dec req k :
  (exists u, req_username req = JStr u /\ trim (clean u) = k) \/
  (forall u, req_username req = JStr u -> trim (clean u) <> k).
Proof.
  destruct (req_username req) as [| |b|n|u|]; try (right; discriminate).
  destruct (string_dec (trim (clean u)) k) as [E | E].
  - left. now exists u.
  - right. intros u' Hu'. injection Hu' as <-. exact E.
Qed.

End Commute.

(** Requests for different players do not interfere: served one after the
    other in either order, two requests whose user names are stored under
    different names leave the same document under every name. *)
Theorem different_players_commute (r1 r2 : update_request) (t1 t2 : clock) (s : store) :
  (forall u1 u2, req_username r1 = JStr u1 -> req_username r2 = JStr u2 ->
     trim (clean u1) <> trim (clean u2)) ->
  forall k, lookup k (serve [(r1, t1); (r2, t2)] s) = lookup k (serve [(r2, t2); (r1, t1)] s).
Proof.
  intros Hdiff k. cbn [serve].
  destruct (request_for_dec r1 k) as [(u1 & Hu1 & Hk1) | Hn1];
    destruct (request_for_dec r2 k) as [(u2 & Hu2 & Hk2) | Hn2].
  - exfalso. apply (Hdiff u1 u2 Hu1 Hu2). congruence.
  - rewrite (post_update_other k r2 t2 _ Hn2). subst k.
    apply post_update_local; [exact Hu1|].
    symmetry. now apply post_update_other.
  - rewrite (post_update_other k r1 t1 (snd (post_update r2 t2 s)) Hn1). subst k.
    symmetry. apply post_update_local; [exact Hu2|].
    symmetry. now apply post_update_other.
  - rewrite (post_update_other k r2 t2 _ Hn2), (post_update_other k r1 t1 s Hn1).
    rewrite (post_update_other k r1 t1 _ Hn1), (post_update_other k r2 t2 s Hn2).
    reflexivity.
Qed.

Lemma different_players_commute_witness :
  (forall u1 u2, req_username (submission "bob" 40 NoPicture) = JStr u1 ->
     req_username (submission "dan" 25 NoPicture) = JStr u2 ->
     trim (clean u1) <> trim (clean u2)) /\
  lookup "dan" (serve [(submission "bob" 40 NoPicture, tick 8); (submission "dan" 25 NoPicture, tick 9)]
                  three_players) =
  lookup "dan" (serve [(submission "dan" 25 NoPicture, tick 9); (submission "bob" 40 NoPicture, tick 8)]
                  three_players).
Proof.
  assert (H : forall u1 u2, req_username (submission "bob" 40 NoPicture) = JStr u1 ->
     req_username (submission "dan" 25 NoPicture) = JStr u2 ->
     trim (clean u1) <> trim (clean u2)).
  { intros u1 u2 H1 H2. injection H1 as <-. injection H2 as <-. vm_compute. discriminate. }
  split; [exact H|].
  exact (different_players_commute (submission "bob" 40 NoPicture) (submission "dan" 25 NoPicture)
           8 9 three_players H "dan"%string).
Defined.

(* ===================================================================== *)
(** ** The effective limit                                              *)
(* ===================================================================== *)

(** The effective limit of the leaderboard is never 0 and never above 50.  It
    is between 1 and 50 when there is no parameter, or the parameter does not
    parse, or parses to a number that is not negative; a parameter that
    parses to a negative number is the effective limit as it is: [Math.min]
    caps from above only. *)
Theorem effective_limit_range (q : option string) :
  leaderboard_limit q <> 0 /\ leaderboard_limit q <= 50 /\
  (forall str n, q = Some str -> parseInt str = Some n -> n < 0 ->
     leaderboard_limit q = n) /\
  (q = None \/ (exists str, q = Some str /\
                 (parseInt str = None \/ exists n, parseInt str = Some n /\ 0 <= n)) ->
   1 <= leaderboard_limit q).
Proof.
  split; [apply leaderboard_limit_nonzero|].
  unfold leaderboard_limit, num_or. split; [lia|]. split.
  - intros str n -> -> Hn. destruct (n =? 0) eqn:E; [apply Z.eqb_eq in E; lia | lia].
  - intros [-> | (str & -> & [-> | (n & -> & Hn)])]; try lia.
    destruct (n =? 0) eqn:E; [lia|]. apply Z.eqb_neq in E. lia.
Qed.

Lemma effective_limit_range_witness :
  parseInt "-7" = Some (-7) /\ -7 < 0 /\ leaderboard_limit (Some "-7"%string) = -7.
Proof.
  split; [reflexivity|]. split; [lia|].
  exact (proj1 (proj2 (proj2 (effective_limit_range (Some "-7"%string))))
           "-7"%string (-7) eq_refl eq_refl eq_refl).
Defined.

(* ===================================================================== *)
(** ** Statistics                                                       *)
(* ===================================================================== *)

(** The statistics.  [totalPlayers] is the number of documents and
    [competitorsInTop20] is that number capped at 20.  On the empty
    collection the highest level is 0, the top player [null] and the average
    0.  Otherwise the top player is the user name of a document whose level
    is [highestLevel], no document has a higher level, and so no document is
    counted above it. *)
Theorem stats_of_collection (s : store) :
  exists body, get_stats s = Ok body /\
    totalPlayers (sb_data body) = Z.of_nat (List.length s) /\
    competitorsInTop20 (sb_data body) = Z.min (Z.of_nat (List.length s)) 20 /\
    (s = [] ->
       highestLevel (sb_data body) = 0%Q /\ topPlayer (sb_data body) = None /\
       averageLevel (sb_data body) = Fin 0) /\
    (s <> [] ->
       exists p, In p s /\ topPlayer (sb_data body) = Some (username p) /\
         highestLevel (sb_data body) = level p /\
         (forall x, In x s -> (level x <= level p)%Q) /\
         playersAbove (highestLevel (sb_data body)) s = 0).
Proof.
  unfold get_stats. eexists. split; [reflexivity|].
  cbn [sb_data totalPlayers competitorsInTop20 highestLevel topPlayer averageLevel].
  assert (Hcount : countDocuments (fun _ => true) s = Z.of_nat (List.length s)).
  { unfold countDocuments. f_equal. f_equal.
    induction s as [|x t IH]; simpl; [reflexivity | now rewrite IH]. }
  rewrite Hcount. split; [reflexivity|]. split; [reflexivity|]. split.
  - intros ->. repeat split.
  - intros Hne. pose proof (findOne_sort_level_highest s) as H.
    destruct (findOne_sort_level s) as [p|]; [|contradiction].
    destruct H as [Hin Hmax]. exists p.
    repeat split; try assumption. now apply playersAbove_none.
Qed.

Lemma stats_of_collection_witness :
  three_players <> [] /\
  exists body, get_stats three_players = Ok body /\
    exists p, In p three_players /\ topPlayer (sb_data body) = Some (username p) /\
      highestLevel (sb_data body) = level p /\
      playersAbove (highestLevel (sb_data body)) three_players = 0.
Proof.
  assert (H : three_players <> []) by discriminate.
  split; [exact H|].
  destruct (stats_of_collection three_players) as (body & Hb & _ & _ & _ & Hs).
  exists body. split; [exact Hb|].
  destruct (Hs H) as (p & Hp & Ht & Hl & _ & Ha).
  exists p. repeat split; assumption.
Defined.

(** The average is rounded to one decimal on doubles: for one player at
    level 1.15 (the double next to it, which is below 1.15) the product by
    10 is the double 11.5, and the answer is 1.2, where the exact product
    would round to 11 and give 1.1. *)
Example stats_average_on_doubles :
  let l := 2589569785738035 # 2251799813685248 in
  round64 (115 # 100) = Fin l /\
  (l < 115 # 100)%Q /\
  Qfloor (l * 10 + (1 # 2)) = 11 /\
  exists body, get_stats [player "ann" l 1] = Ok body /\
    averageLevel (sb_data body) = round64 (12 # 10).
Proof.
  split; [reflexivity|]. split; [reflexivity|]. split; [reflexivity|].
  eexists. split; reflexivity.
Qed.

(* ===================================================================== *)
(** ** Requests in progress at the same time                            *)
(* ===================================================================== *)

Section Interleaving.

Import Concurrent.

(** A step keeps the user names distinct, whatever the request in progress
    has read before: an update keeps the names, and the unique index stands
    in the way of a second document under a name. *)
Lemma step_unique now t s :
  unique_names s -> unique_names (snd (step now t s)).
Proof.
  intros Hs. destruct t as [req|c l pic [e|]|c l [e|]|r]; cbn [step].
  - destruct (negb (truthy (req_username req)) || negb (truthy (req_level req)));
      [exact Hs|].
    destruct (not_a_level (req_level req)); [exact Hs|].
    destruct (req_level req) as [| |b|[q| | |]|str|]; try exact Hs.
    destruct (req_username req); exact Hs.
  - unfold unique_names, updateOne in *.
    destruct (picture_or pic (profilePicture e)) as [pic0|]; [|exact Hs].
    destruct (Qlt_bool (level e) l); cbn [snd].
    + rewrite names_modify; [exact Hs | apply username_set_record].
    + rewrite names_modify; [exact Hs | apply username_set_play].
  - destruct (create c l pic 1 (date now) (timestamp now) s) as [s1|] eqn:Ec; [|exact Hs].
    apply create_inv in Ec. destruct Ec as [Hnone ->]. cbn [snd].
    unfold unique_names in *. rewrite map_app. cbn [map username].
    apply (Permutation_NoDup (l := trim c :: map username s)).
    + apply Permutation_cons_append.
    + constructor; [now apply lookup_None_names | exact Hs].
  - destruct (Qlt_bool (level e) l); exact Hs.
  - exact Hs.
  - exact Hs.
Qed.

(** The steps of a request for the player stored under another name leave the
    document of [k]. *)
Lemma step_other now t s k :
  match t with
  | Found c _ _ _ => trim c <> k
  | _ => True
  end ->
  lookup k (snd (step now t s)) = lookup k s.
Proof.
  destruct t as [req|c l pic [e|]|c l [e|]|r]; cbn [step]; intros Hk.
  - destruct (negb (truthy (req_username req)) || negb (truthy (req_level req)));
      [reflexivity|].
    destruct (not_a_level (req_level req)); [reflexivity|].
    destruct (req_level req) as [| |b|[q| | |]|str|]; try reflexivity.
    destruct (req_username req); reflexivity.
  - unfold updateOne.
    destruct (picture_or pic (profilePicture e)) as [pic0|]; [|reflexivity].
    destruct (Qlt_bool (level e) l); cbn [snd].
    + apply lookup_modify_other; [apply username_set_record | congruence].
    + apply lookup_modify_other; [apply username_set_play | congruence].
  - destruct (create c l pic 1 (date now) (timestamp now) s) as [s1|] eqn:Ec; [|reflexivity].
    apply create_inv in Ec. destruct Ec as [Hnone ->]. cbn [snd].
    rewrite lookup_app. destruct (lookup k s); [reflexivity|].
    unfold lookup. simpl. destruct (trim c =? k)%string eqn:E; [|reflexivity].
    apply String.eqb_eq in E. contradiction.
  - destruct (Qlt_bool (level e) l); reflexivity.
  - reflexivity.
  - reflexivity.
Qed.

Variable s0 : store.

(** The step that writes does to the document what the handler does. *)
Lemma step_found_writes req u now s c l pic e :
  req_username req = JStr u ->
  fst (step 0 (Start req) s) = Found c l pic e ->
  snd (step now (Found c l pic e) s) = snd (post_update req now s).
Proof.
  intros Hu Hstart.
  pose proof (alone_post_update now req s) as Ha. unfold alone in Ha.
  assert (Hs1 : step now (Start req) s = (Found c l pic e, s)).
  { revert Hstart. cbn [step].
    destruct (negb (truthy (req_username req)) || negb (truthy (req_level req)));
      [discriminate|].
    destruct (not_a_level (req_level req)); [discriminate|].
    destruct (req_level req) as [| |b|[q| | |]|str|]; try discriminate.
    destruct (req_username req); try discriminate.
    cbn [fst]. now intros ->. }
  rewrite Hs1 in Ha.
  destruct (step now (Found c l pic e) s) as [t2 s2] eqn:E2.
  assert (Hs3 : snd (step now t2 s2) = s2).
  { destruct t2 as [r|c' l' pic' e'|c' l' [e'|]|r]; cbn [step];
      try reflexivity.
    - exfalso. revert E2. cbn [step]. destruct e as [e|].
      + destruct (picture_or pic (profilePicture e)); [|discriminate].
        destruct (Qlt_bool (level e) l); discriminate.
      + destruct (create c l pic 1 (date now) (timestamp now) s); discriminate.
    - exfalso. revert E2. cbn [step]. destruct e as [e|].
      + destruct (picture_or pic (profilePicture e)); [|discriminate].
        destruct (Qlt_bool (level e) l); discriminate.
      + destruct (create c l pic 1 (date now) (timestamp now) s); discriminate.
    - destruct (Qlt_bool (level e') l'); reflexivity. }
  rewrite Ha in Hs3. cbn [snd] in *. congruence.
Qed.

(** The first step reads the store only through the document of the player. *)
Lemma step_start_local req u now s :
  req_username req = JStr u ->
  lookup (trim (clean u)) s = lookup (trim (clean u)) s0 ->
  fst (step now (Start req) s) = fst (step 0 (Start req) s0) /\
  snd (step now (Start req) s) = s.
Proof.
  intros Hu Hsame. cbn [step]. rewrite Hu.
  destruct (negb (truthy (JStr u)) || negb (truthy (req_level req)));
    [split; reflexivity|].
  destruct (not_a_level (req_level req)); [split; reflexivity|].
  destruct (req_level req) as [| |b|[q| | |]|str|]; try (split; reflexivity).
  unfold findOne. rewrite Hsame. split; reflexivity.
Qed.

(** A request refused at its first step is refused whenever it is served. *)
Lemma step_start_done req now s r tw :
  fst (step now (Start req) s) = Done r -> snd (post_update req tw s0) = s0.
Proof.
  intros H. apply post_update_refused. intros body Hb.
  revert H Hb. cbn [step]. unfold post_update.
  destruct (negb (truthy (req_username req)) || negb (truthy (req_level req)));
    [discriminate|].
  destruct (not_a_level (req_level req)); [discriminate|].
  destruct (req_level req) as [| |b|[q| | |]|str|]; try discriminate.
  destruct (req_username req); discriminate.
Qed.

(** A step of the request keeps it in progress. *)
Lemma step_in_progress req u now t s :
  req_username req = JStr u ->
  in_progress s0 req u t (lookup (trim (clean u)) s) ->
  in_progress s0 req u (fst (step now t s)) (lookup (trim (clean u)) (snd (step now t s))).
Proof.
  intros Hu Hin. destruct t as [r|c l pic e|c l e|r]; cbn [in_progress] in Hin.
  - destruct Hin as [-> Hsame].
    destruct (step_start_local req u now s Hu Hsame) as [Hf Hs]. rewrite Hs.
    destruct (fst (step now (Start req) s)) as [r'|c l pic e|c l e|r'] eqn:E;
      cbn [in_progress].
    + exfalso. revert E. cbn [step].
      destruct (negb (truthy (req_username req)) || negb (truthy (req_level req)));
        [discriminate|].
      destruct (not_a_level (req_level req)); [discriminate|].
      destruct (req_level req) as [| |b|[q| | |]|str|]; try discriminate.
      destruct (req_username req); discriminate.
    + split; [now symmetry|]. split; [|exact Hsame].
      revert E. cbn [step]. rewrite Hu.
      destruct (negb (truthy (JStr u)) || negb (truthy (req_level req)));
        [discriminate|].
      destruct (not_a_level (req_level req)); [discriminate|].
      destruct (req_level req) as [| |b|[q| | |]|str|]; try discriminate.
      cbn [fst]. intros H. now injection H.
    + exfalso. revert E. cbn [step].
      destruct (negb (truthy (req_username req)) || negb (truthy (req_level req)));
        [discriminate|].
      destruct (not_a_level (req_level req)); [discriminate|].
      destruct (req_level req) as [| |b|[q| | |]|str|]; try discriminate.
      destruct (req_username req); discriminate.
    + exists (tick 0). rewrite (step_start_done req now s r' (tick 0) E). exact Hsame.
  - destruct Hin as (Hstart & -> & Hsame).
    assert (Hstart' : fst (step 0 (Start req) s) = Found (clean u) l pic e).
    { rewrite <- Hstart. apply (step_start_local req u 0 s Hu Hsame). }
    assert (Hw : exists tw, lookup (trim (clean u)) (snd (step now (Found (clean u) l pic e) s))
                       = lookup (trim (clean u)) (snd (post_update req tw s0))).
    { exists now. rewrite (step_found_writes req u now s _ _ _ _ Hu Hstart').
      now apply post_update_local. }
    destruct (fst (step now (Found (clean u) l pic e) s)) as [r'|c' l' pic' e'|c' l' e'|r'] eqn:E;
      cbn [in_progress]; try exact Hw;
      exfalso; revert E; cbn [step]; destruct e as [e|];
      try (destruct (picture_or pic (profilePicture e)); [|discriminate];
           destruct (Qlt_bool (level e) l); discriminate);
      destruct (create (clean u) l pic 1 (date now) (timestamp now) s); discriminate.
  - cbn [step]. destruct e as [e|]; [destruct (Qlt_bool (level e) l)|];
      cbn [fst snd in_progress]; exact Hin.
  - exact Hin.
Qed.

End Interleaving.

Section TwoPlayers.

Import Concurrent.

Variables (r1 r2 : update_request) (u1 u2 : string) (s0 : store).
Hypothesis name1 : req_username r1 = JStr u1.
Hypothesis name2 : req_username r2 = JStr u2.
Hypothesis different : trim (clean u1) <> trim (clean u2).

(** A request in progress does not write under another name. *)
Lemma in_progress_other req u t o k now s :
  in_progress s0 req u t o -> k <> trim (clean u) ->
  lookup k (snd (step now t s)) = lookup k s.
Proof.
  intros Hin Hk. apply step_other.
  destruct t as [r|c l pic e|c l e|r]; try exact I.
  cbn [in_progress] in Hin. destruct Hin as (_ & -> & _). congruence.
Qed.

(** Both requests stay in progress, each on its own document, while the event
    loop resumes one or the other. *)
Lemma run_two schedule : forall ta tb s,
  in_progress s0 r1 u1 ta (lookup (trim (clean u1)) s) ->
  in_progress s0 r2 u2 tb (lookup (trim (clean u2)) s) ->
  (forall k, k <> trim (clean u1) -> k <> trim (clean u2) -> lookup k s = lookup k s0) ->
  exists ta' tb',
    fst (run schedule [ta; tb] s) = [ta'; tb'] /\
    in_progress s0 r1 u1 ta' (lookup (trim (clean u1)) (snd (run schedule [ta; tb] s))) /\
    in_progress s0 r2 u2 tb' (lookup (trim (clean u2)) (snd (run schedule [ta; tb] s))) /\
    (forall k, k <> trim (clean u1) -> k <> trim (clean u2) ->
       lookup k (snd (run schedule [ta; tb] s)) = lookup k s0).
Proof.
  induction schedule as [|[i now] rest IH]; intros ta tb s Ha Hb Ho.
  - exists ta, tb. cbn [run fst snd]. repeat split; assumption.
  - cbn [run]. destruct i as [|[|i]]; cbn [nth_error].
    + destruct (step now ta s) as [ta' s1] eqn:E. cbn [set_nth].
      apply IH.
      * pose proof (step_in_progress s0 r1 u1 now ta s name1 Ha) as H.
        now rewrite E in H.
      * replace s1 with (snd (step now ta s)) by now rewrite E.
        rewrite (in_progress_other r1 u1 ta _ _ now s Ha); [exact Hb|].
        intros H. apply different. now symmetry.
      * intros k Hk1 Hk2. replace s1 with (snd (step now ta s)) by now rewrite E.
        rewrite (in_progress_other r1 u1 ta _ _ now s Ha Hk1). now apply Ho.
    + destruct (step now tb s) as [tb' s1] eqn:E. cbn [set_nth].
      apply IH.
      * replace s1 with (snd (step now tb s)) by now rewrite E.
        rewrite (in_progress_other r2 u2 tb _ _ now s Hb); [exact Ha | exact different].
      * pose proof (step_in_progress s0 r2 u2 now tb s name2 Hb) as H.
        now rewrite E in H.
      * intros k Hk1 Hk2. replace s1 with (snd (step now tb s)) by now rewrite E.
        rewrite (in_progress_other r2 u2 tb _ _ now s Hb Hk2). now apply Ho.
    + assert (Hnone : nth_error (@nil task) i = None) by now destruct i.
      rewrite Hnone. now apply IH.
Qed.

End TwoPlayers.

(** Requests for different players may overlap.  When two requests whose user
    names are stored under different names are in progress together and both
    are answered, whatever the order in which the event loop resumed them,
    the collection holds under every name the document that serving the two
    requests one after the other leaves, for some readings of the clock. *)
Theorem different_players_interleave (r1 r2 : update_request) (u1 u2 : string)
    (s : store) (schedule : list (nat * clock)) (a1 a2 : response update_body)
    (s' : store) :
  req_username r1 = JStr u1 -> req_username r2 = JStr u2 ->
  trim (clean u1) <> trim (clean u2) ->
  Concurrent.run schedule [Concurrent.Start r1; Concurrent.Start r2] s =
    ([Concurrent.Done a1; Concurrent.Done a2], s') ->
  exists t1 t2, forall k, lookup k s' = lookup k (serve [(r1, t1); (r2, t2)] s).
Proof.
  intros Hu1 Hu2 Hdiff Hrun.
  destruct (run_two r1 r2 u1 u2 s Hu1 Hu2 Hdiff schedule
              (Concurrent.Start r1) (Concurrent.Start r2) s)
    as (ta & tb & Hp & Ha & Hb & Ho).
  - split; reflexivity.
  - split; reflexivity.
  - reflexivity.
  - rewrite Hrun in Hp, Ha, Hb, Ho. cbn [fst snd] in *.
    injection Hp as <- <-. cbn [in_progress] in Ha, Hb.
    destruct Ha as (t1 & Ha). destruct Hb as (t2 & Hb).
    exists t1, t2. intros k. cbn [serve].
    destruct (string_dec k (trim (clean u1))) as [E1 | E1];
      [|destruct (string_dec k (trim (clean u2))) as [E2 | E2]].
    + subst k. rewrite Ha. symmetry. apply post_update_other.
      intros u Hu. assert (u = u2) by congruence. subst u.
      intros H. apply Hdiff. now symmetry.
    + subst k. rewrite Hb. apply post_update_local; [exact Hu2|].
      symmetry. apply post_update_other.
      intros u Hu. assert (u = u1) by congruence. now subst u.
    + rewrite (Ho k E1 E2). symmetry.
      rewrite post_update_other, post_update_other; [reflexivity| |].
      * intros u Hu. assert (u = u1) by congruence. subst u. congruence.
      * intros u Hu. assert (u = u2) by congruence. subst u. congruence.
Qed.

Lemma different_players_interleave_witness :
  req_username (submission "bob" 40 NoPicture) = JStr "bob" /\
  req_username (submission "dan" 25 NoPicture) = JStr "dan" /\
  trim (clean "bob") <> trim (clean "dan") /\
  exists a1 a2 s',
    Concurrent.run both_read_first bob_and_dan three_players =
      ([Concurrent.Done a1; Concurrent.Done a2], s') /\
    exists t1 t2, forall k,
      lookup k s' =
      lookup k (serve [(submission "bob" 40 NoPicture, t1); (submission "dan" 25 NoPicture, t2)]
                  three_players).
Proof.
  assert (H : trim (clean "bob") <> trim (clean "dan")) by (vm_compute; discriminate).
  split; [reflexivity|]. split; [reflexivity|]. split; [exact H|].
  eexists. eexists. eexists. split; [reflexivity|].
  exact (different_players_interleave (submission "bob" 40 NoPicture) (submission "dan" 25 NoPicture)
           "bob" "dan" three_players both_read_first _ _ _ eq_refl eq_refl H eq_refl).
Defined.

(** No interleaving gives a name two documents: whatever requests are in
    progress and in whatever order the event loop resumes them, a collection
    with one document per name keeps one document per name. *)
Theorem overlapping_requests_keep_names_unique (schedule : list (nat * clock))
    (pool : list Concurrent.task) (s : store) :
  unique_names s -> unique_names (snd (Concurrent.run schedule pool s)).
Proof.
  revert pool s. induction schedule as [|[i now] rest IH]; intros pool s Hs;
    cbn [Concurrent.run]; [exact Hs|].
  destruct (nth_error pool i) as [t|]; [|now apply IH].
  destruct (Concurrent.step now t s) as [t' s1] eqn:E.
  apply IH. replace s1 with (snd (Concurrent.step now t s)) by now rewrite E.
  now apply step_unique.
Qed.

Lemma overlapping_requests_keep_names_unique_witness :
  unique_names alice_store /\
  unique_names (snd (Concurrent.run both_read_first two_requests alice_store)).
Proof.
  assert (H : unique_names alice_store).
  { unfold unique_names. simpl. constructor; [simpl; tauto | constructor]. }
  split; [exact H|].
  exact (overlapping_requests_keep_names_unique both_read_first two_requests alice_store H).
Defined.

(* ===================================================================== *)
(** ** The top player without a tie                                     *)
(* ===================================================================== *)

Lemma leaderboard_limit_take q : Z.to_nat (Z.abs (leaderboard_limit q)) <> 0%nat.
Proof. pose proof (leaderboard_limit_nonzero q). lia. Qed.

(** When one document only has the highest level, the statistics and the
    leaderboard agree: the top player of the statistics is the first entry of
    the leaderboard, whatever the limit. *)
Theorem top_player_without_tie (q : option string) (now : Z) (s : store) (p : Player) :
  In p s -> (forall x, In x s -> (level p <= level x)%Q -> x = p) ->
  exists stats board first others,
    get_stats s = Ok stats /\ topPlayer (sb_data stats) = Some (username p) /\
    get_leaderboard q now s = Ok board /\ lb_data board = first :: others /\
    e_username first = username p /\ e_rank first = 1.
Proof.
  intros Hin Honly.
  assert (Htop : findOne_sort_level s = Some p).
  { pose proof (findOne_sort_level_highest s) as H.
    destruct (findOne_sort_level s) as [p'|]; [|subst s; destruct Hin].
    destruct H as [Hin' Hmax]. f_equal. apply Honly; [exact Hin' | now apply Hmax]. }
  assert (Hhead : exists rest, sort by_level_desc_lastUpdated_asc s = p :: rest).
  { pose proof (leaderboard_sort_sorted s) as Hs.
    pose proof (sort_perm by_level_desc_lastUpdated_asc s) as Hp.
    destruct (sort by_level_desc_lastUpdated_asc s) as [|x rest] eqn:E.
    - apply Permutation_nil in Hp. subst s. destruct Hin.
    - exists rest. f_equal. apply Honly.
      + apply (Permutation_in _ Hp). now left.
      + apply StronglySorted_inv in Hs. destruct Hs as [_ Hx].
        apply (Permutation_in _ (Permutation_sym Hp)) in Hin.
        destruct Hin as [-> | Hin]; [apply Qle_refl|].
        rewrite Forall_forall in Hx. exact (proj1 (Hx p Hin)). }
  destruct Hhead as [rest Hsort].
  assert (Hplayers : exists others, leaderboard_players q s = p :: others).
  { unfold leaderboard_players, limit. rewrite Hsort.
    destruct (leaderboard_limit q =? 0); [now exists rest|].
    pose proof (leaderboard_limit_take q) as Hn.
    destruct (Z.to_nat (Z.abs (leaderboard_limit q))) as [|n]; [contradiction|].
    simpl. now eexists. }
  destruct Hplayers as [others Hplayers].
  unfold get_stats, get_leaderboard. rewrite Htop, Hplayers.
  do 4 eexists. split; [reflexivity|]. split; [reflexivity|].
  split; [reflexivity|]. cbn [lb_data map_index]. split; [reflexivity|].
  split; reflexivity.
Qed.

Lemma top_player_without_tie_witness :
  In (player "ann" 30 1) three_players /\
  (forall x, In x three_players -> (level (player "ann" 30 1) <= level x)%Q ->
     x = player "ann" 30 1) /\
  exists stats board first others,
    get_stats three_players = Ok stats /\
    topPlayer (sb_data stats) = Some (username (player "ann" 30 1)) /\
    get_leaderboard None 7 three_players = Ok board /\ lb_data board = first :: others /\
    e_username first = username (player "ann" 30 1) /\ e_rank first = 1.
Proof.
  assert (H1 : In (player "ann" 30 1) three_players) by (left; reflexivity).
  assert (H2 : forall x, In x three_players -> (level (player "ann" 30 1) <= level x)%Q ->
                         x = player "ann" 30 1).
  { intros x [<- | [<- | [<- | []]]] Hle; [reflexivity | |];
      exfalso; revert Hle; unfold Qle; simpl; lia. }
  split; [exact H1|]. split; [exact H2|].
  exact (top_player_without_tie None 7 three_players (player "ann" 30 1) H1 H2).
Defined.

(* ===================================================================== *)
(** ** The faults of a score update                                     *)
(* ===================================================================== *)

(** The two messages of status 400.  The answer is "Username and level are
    required" exactly when the user name or the level is falsy, so a level of
    0 is reported as missing and not as out of range; it is "Level must be a
    number between 1 and 1000" exactly when both are truthy and the level is
    not a number in that range. *)
Theorem validation_messages (req : update_request) (now : clock) (s : store) :
  (fst (post_update req now s) = BadRequest "Username and level are required" <->
     truthy (req_username req) = false \/ truthy (req_level req) = false) /\
  (fst (post_update req now s) = BadRequest "Level must be a number between 1 and 1000" <->
     truthy (req_username req) = true /\ truthy (req_level req) = true /\
     ~ number_in_range (req_level req)) /\
  (req_level req = JNum (Fin 0) ->
     fst (post_update req now s) = BadRequest "Username and level are required").
Proof.
  assert (Hrange : forall v, truthy v = true ->
            (not_a_level v = true <-> ~ number_in_range v)).
  { intros v Hv. split.
    - intros Hn Hin. apply number_in_range_checked in Hin. destruct Hin. congruence.
    - intros Hn. destruct (not_a_level v) eqn:E; [reflexivity|].
      exfalso. apply Hn. now apply level_checked. }
  assert (Hfirst : fst (post_update req now s) = BadRequest "Username and level are required" <->
     truthy (req_username req) = false \/ truthy (req_level req) = false).
  { pose proof (post_update_outcome req now s) as H.
    remember (post_update req now s) as r eqn:Er.
    destruct H as [Hf | Hu Hl Hr | Hu Hn Hl Hr | u l e pic0 Hu Hne Hl H1 H2 Hfind Hpic Hlt
                  | u l e pic0 Hu Hne Hl H1 H2 Hfind Hpic Hle
                  | u l s1 Hu Hne Hl H1 H2 Hfind Hc
                  | u l Hu Hne Hl H1 H2 Hfind Hc | u l e Hu Hne Hl H1 H2 Hfind Hpic];
      cbn [fst].
    - split; [intros _; exact Hf | reflexivity].
    - split; [discriminate | intros [H | H]; congruence].
    - split; [discriminate | intros [H | H]; congruence].
    - split; [discriminate|]. rewrite Hu, Hl. intros [H | H].
      + apply truthy_string in Hne. congruence.
      + destruct (level_in_range_checked l H1 H2). congruence.
    - split; [discriminate|]. rewrite Hu, Hl. intros [H | H].
      + apply truthy_string in Hne. congruence.
      + destruct (level_in_range_checked l H1 H2). congruence.
    - split; [discriminate|]. rewrite Hu, Hl. intros [H | H].
      + apply truthy_string in Hne. congruence.
      + destruct (level_in_range_checked l H1 H2). congruence.
    - split; [discriminate|]. rewrite Hu, Hl. intros [H | H].
      + apply truthy_string in Hne. congruence.
      + destruct (level_in_range_checked l H1 H2). congruence.
    - split; [discriminate|]. rewrite Hu, Hl. intros [H | H].
      + apply truthy_string in Hne. congruence.
      + destruct (level_in_range_checked l H1 H2). congruence. }
  split; [exact Hfirst|]. split.
  - pose proof (post_update_outcome req now s) as H.
    remember (post_update req now s) as r eqn:Er.
    destruct H as [Hf | Hu Hl Hr | Hu Hn Hl Hr | u l e pic0 Hu Hne Hl H1 H2 Hfind Hpic Hlt
                  | u l e pic0 Hu Hne Hl H1 H2 Hfind Hpic Hle
                  | u l s1 Hu Hne Hl H1 H2 Hfind Hc
                  | u l Hu Hne Hl H1 H2 Hfind Hc | u l e Hu Hne Hl H1 H2 Hfind Hpic];
      cbn [fst].
    + split; [discriminate|]. intros (Hu & Hl & _). destruct Hf; congruence.
    + split; [intros _|reflexivity]. repeat split; try assumption.
      now apply Hrange.
    + split; [discriminate|]. intros (_ & _ & Hn'). apply (Hrange _ Hl) in Hn'. congruence.
    + split; [discriminate|]. intros (_ & _ & Hn'). exfalso. apply Hn'. exists l. auto.
    + split; [discriminate|]. intros (_ & _ & Hn'). exfalso. apply Hn'. exists l. auto.
    + split; [discriminate|]. intros (_ & _ & Hn'). exfalso. apply Hn'. exists l. auto.
    + split; [discriminate|]. intros (_ & _ & Hn'). exfalso. apply Hn'. exists l. auto.
    + split; [discriminate|]. intros (_ & _ & Hn'). exfalso. apply Hn'. exists l. auto.
  - intros H0. apply Hfirst. right. rewrite H0. reflexivity.
Qed.

Lemma validation_messages_witness :
  req_level (submission "bob" 0 NoPicture) = JNum (Fin 0) /\
  fst (post_update (submission "bob" 0 NoPicture) 9 three_players) =
    BadRequest "Username and level are required".
Proof.
  split; [reflexivity|].
  exact (proj2 (proj2 (validation_messages (submission "bob" 0 NoPicture) 9 three_players)) eq_refl).
Defined.

(** The server fault.  A score update is answered with status 500 exactly
    when the level is a number in range and the user name is truthy but
    either is not a string (it has no [trim]), or the picture is not cast to a
    string (an object or an array), or the user name is white space only
    while no document is stored under the empty name (the schema refuses to
    create a document with an empty name).  Such an answer leaves the
    collection as it was. *)
Theorem server_fault_iff (req : update_request) (now : clock) (s : store) :
  (status (fst (post_update req now s)) = 500 <->
   number_in_range (req_level req) /\ truthy (req_username req) = true /\
   ((forall u, req_username req <> JStr u) \/
    req_profilePicture req = Uncastable \/
    (exists u, req_username req = JStr u /\ trim u = ""%string /\
       lookup ""%string s = None))) /\
  (status (fst (post_update req now s)) = 500 -> snd (post_update req now s) = s).
Proof.
  assert (Hblank : forall u, trim u = ""%string -> findOne (clean u) s = lookup ""%string s).
  { intros u Hu. unfold findOne, clean. rewrite Hu. reflexivity. }
  pose proof (post_update_outcome req now s) as H.
  remember (post_update req now s) as r eqn:Er.
  destruct H as [Hf | Hu Hl Hr | Hu Hn Hl Hr | u l e pic0 Hu Hne Hl H1 H2 Hfind Hpic Hlt
                | u l e pic0 Hu Hne Hl H1 H2 Hfind Hpic Hle
                | u l s1 Hu Hne Hl H1 H2 Hfind Hc
                | u l Hu Hne Hl H1 H2 Hfind Hc | u l e Hu Hne Hl H1 H2 Hfind Hpic];
    cbn [fst snd status]; (split; [|try reflexivity; discriminate]).
  - split; [discriminate|]. intros (Hin & Hu & _).
    apply number_in_range_checked in Hin. destruct Hin. destruct Hf; congruence.
  - split; [discriminate|]. intros (Hin & _ & _).
    apply number_in_range_checked in Hin. destruct Hin. congruence.
  - split; [intros _|reflexivity].
    split; [now apply level_checked|]. split; [exact Hu | now left].
  - split; [discriminate|].
    intros (_ & _ & [Hn | [Hp | (u' & Hu' & Ht & Hnone)]]); exfalso.
    + exact (Hn u Hu).
    + rewrite Hp in Hpic. discriminate.
    + assert (u' = u) by congruence. subst u'.
      rewrite (Hblank u Ht) in Hfind. congruence.
  - split; [discriminate|].
    intros (_ & _ & [Hn | [Hp | (u' & Hu' & Ht & Hnone)]]); exfalso.
    + exact (Hn u Hu).
    + rewrite Hp in Hpic. discriminate.
    + assert (u' = u) by congruence. subst u'.
      rewrite (Hblank u Ht) in Hfind. congruence.
  - split; [discriminate|].
    intros (_ & _ & [Hn | [Hp | (u' & Hu' & Ht & Hnone)]]); exfalso.
    + exact (Hn u Hu).
    + exact (create_cast _ _ _ _ _ _ _ _ Hc Hp).
    + assert (u' = u) by congruence. subst u'.
      apply create_valid in Hc. destruct Hc as [Hc _].
      apply Hc. exact (proj2 (trim_clean_empty u) Ht).
  - split; [intros _|reflexivity].
    split; [exists l; auto|]. split; [rewrite Hu; now apply truthy_string|].
    right.
    destruct (castable (req_profilePicture req)) eqn:Ec;
      [right | left; destruct (req_profilePicture req); [discriminate | discriminate | reflexivity]].
    exists u. split; [exact Hu|].
    assert (Ht : trim u = ""%string).
    { destruct (string_dec (trim u) "") as [E | E]; [exact E|]. exfalso.
      unfold findOne in Hfind.
      assert (Hp : req_profilePicture req <> Uncastable).
      { intros Hp. rewrite Hp in Ec. discriminate. }
      rewrite (create_accepts u l (req_profilePicture req) 1 (date now) (timestamp now) s
                 E H1 H2 Hp Hfind) in Hc.
      discriminate. }
    split; [exact Ht|]. now rewrite <- (Hblank u Ht).
  - split; [intros _|reflexivity].
    split; [exists l; auto|]. split; [rewrite Hu; now apply truthy_string|].
    right. left. exact (proj1 (picture_or_castable _ _) Hpic).
Qed.

(** Bob, who has a document, sends a record with an object as picture: the
    answer has status 500 and his document is as it was. *)
Lemma server_fault_iff_witness :
  number_in_range (req_level (submission "bob" 40 Uncastable)) /\
  truthy (req_username (submission "bob" 40 Uncastable)) = true /\
  req_profilePicture (submission "bob" 40 Uncastable) = Uncastable /\
  status (fst (post_update (submission "bob" 40 Uncastable) 3 three_players)) = 500 /\
  snd (post_update (submission "bob" 40 Uncastable) 3 three_players) = three_players.
Proof.
  assert (H1 : number_in_range (req_level (submission "bob" 40 Uncastable))).
  { exists 40%Q. split; [reflexivity|]. split; unfold Qle; simpl; lia. }
  assert (H5 : status (fst (post_update (submission "bob" 40 Uncastable) 3 three_players))
               = 500).
  { exact (proj2 (proj1 (server_fault_iff (submission "bob" 40 Uncastable) 3 three_players))
             (conj H1 (conj eq_refl (or_intror (or_introl eq_refl))))). }
  split; [exact H1|]. split; [reflexivity|]. split; [reflexivity|]. split; [exact H5|].
  exact (proj2 (server_fault_iff (submission "bob" 40 Uncastable) 3 three_players) H5).
Defined.

(** A user name of white space only, for which no document can be created. *)
Example blank_name_is_a_fault :
  post_update blank_name 3 three_players = (failed_update, three_players).
Proof. reflexivity. Qed.

(* ===================================================================== *)
(** ** The players shown and the top-20 flag                            *)
(* ===================================================================== *)

Lemma lookup_unique s p :
  unique_names s -> In p s -> lookup (username p) s = Some p.
Proof.
  unfold unique_names, lookup. induction s as [|x t IH]; simpl; [intros _ []|].
  intros Hnd [-> | Hin].
  - now rewrite String.eqb_refl.
  - apply NoDup_cons_iff in Hnd. destruct Hnd as [Hx Ht].
    destruct (username x =? username p)%string eqn:E; [|now apply IH].
    apply String.eqb_eq in E. exfalso. apply Hx. rewrite E. now apply in_map.
Qed.

(** Every player shown on a leaderboard of at most 20 entries (the default)
    has the top-20 flag.  In a collection with one well-formed document per
    name, when the effective limit is between 1 and 20, looking up the user
    name of any entry finds the player at the level of the entry, with a rank
    that is at most the rank of the entry, and with [isInTop20] true. *)
Theorem shown_players_are_top20 (q : option string) (now : Z) (s : store) :
  unique_names s -> Forall well_formed s ->
  0 < leaderboard_limit q <= 20 ->
  exists board, get_leaderboard q now s = Ok board /\
    forall e, In e (lb_data board) ->
      exists answer r,
        get_player (e_username e) s = Ok answer /\
        p_level (pb_data answer) = e_level e /\
        p_rank (pb_data answer) = Some r /\ r <= e_rank e /\
        p_isInTop20 (pb_data answer) = true.
Proof.
  intros Hu Hw Hlim.
  destruct (leaderboard_window q now s) as (board & Hb & _ & Hlen).
  exists board. split; [exact Hb|].
  unfold get_leaderboard in Hb. injection Hb as <-. cbn [lb_data] in *.
  intros e He. apply In_nth_error in He. destruct He as (i & Hi).
  assert (Hi' : (i < List.length (map_index leaderboard_entry 0 (leaderboard_players q s)))%nat).
  { apply nth_error_Some. congruence. }
  destruct (nth_error_map_index _ _ _ _ _ Hi) as (p & Hp & ->).
  cbn [leaderboard_entry e_username e_level e_rank].
  assert (Hsort : nth_error (sort by_level_desc_lastUpdated_asc s) i = Some p).
  { destruct (leaderboard_players_prefix q s) as (rest & -> & _).
    rewrite nth_error_app1; [exact Hp|]. apply nth_error_Some. congruence. }
  assert (Hin : In p s).
  { apply (Permutation_in _ (sort_perm by_level_desc_lastUpdated_asc s)).
    eapply nth_error_In. exact Hsort. }
  assert (Hfind : findOne (trim (username p)) s = Some p).
  { rewrite Forall_forall in Hw. destruct (Hw p Hin) as (_ & Ht & _).
    unfold findOne. rewrite Ht, Ht. now apply lookup_unique. }
  pose proof (playersAbove_at_position s i p Hsort) as Hrank.
  unfold get_player. rewrite Hfind. do 2 eexists.
  split; [reflexivity|]. cbn [pb_data p_level p_rank p_isInTop20].
  split; [reflexivity|]. split; [reflexivity|]. split; [lia|].
  apply Z.leb_le. lia.
Qed.

Lemma shown_players_are_top20_witness :
  unique_names three_players /\ Forall well_formed three_players /\
  0 < leaderboard_limit None <= 20 /\
  exists board, get_leaderboard None 7 three_players = Ok board /\
    exists e answer, In e (lb_data board) /\
      get_player (e_username e) three_players = Ok answer /\
      p_isInTop20 (pb_data answer) = true.
Proof.
  assert (H1 : unique_names three_players).
  { unfold unique_names. simpl.
    repeat (constructor; [simpl; intuition discriminate|]). constructor. }
  assert (H2 : Forall well_formed three_players).
  { repeat constructor; try discriminate; try (simpl; lia);
      unfold Qle; simpl; lia. }
  assert (H3 : 0 < leaderboard_limit None <= 20) by (vm_compute; split; [reflexivity | discriminate]).
  split; [exact H1|]. split; [exact H2|]. split; [exact H3|].
  destruct (shown_players_are_top20 None 7 three_players H1 H2 H3) as (board & Hb & H).
  exists board. split; [exact Hb|].
  injection Hb as <-.
  eexists. 
  destruct (H _ (or_introl eq_refl)) as (answer & r & Ha & _ & _ & _ & Ht).
  exists answer. split; [left; reflexivity|]. split; [exact Ha | exact Ht].
Defined.
